(** * chatbot-platform: the REST handlers of the server, embedded and verified

    The development follows the three route files of the server:
    [server/routes/chat.js], [server/routes/projects.js] and
    [server/routes/files.js].  JavaScript strings are sequences of UTF-16
    code units, request bodies are JSON objects, the Prisma tables are
    finite maps from primary key to row, and a handler is a computation in
    a state-and-exception monad whose state holds the database and the
    trace of writes and outbound HTTP calls. *)

From stdpp Require Import gmap strings list sorting.
From Stdlib Require Import QArith Qround.

Local Open Scope N_scope.
Local Open Scope list_scope.

(** ** JavaScript strings *)

Module Js.

(** A string is its sequence of UTF-16 code units. *)
Definition jsstring := list N.

(** An ASCII literal of the source, as code units. *)
Fixpoint str (s : string) : jsstring :=
  match s with
  | EmptyString => []
  | String a rest => Ascii.N_of_ascii a :: str rest
  end.

Arguments str : simpl never.

Definition nl : jsstring := [10].
Definition dquote : jsstring := [34].

(** ECMAScript WhiteSpace and LineTerminator code points, the ones
    [String.prototype.trim] strips. *)
Definition is_white (c : N) : bool :=
  (c =? 0x09) || (c =? 0x0A) || (c =? 0x0B) || (c =? 0x0C) || (c =? 0x0D)
  || (c =? 0x20) || (c =? 0xA0) || (c =? 0x1680)
  || ((0x2000 <=? c) && (c <=? 0x200A))
  || (c =? 0x2028) || (c =? 0x2029) || (c =? 0x202F) || (c =? 0x205F)
  || (c =? 0x3000) || (c =? 0xFEFF).

Fixpoint trimStart (s : jsstring) : jsstring :=
  match s with
  | c :: rest => if is_white c then trimStart rest else s
  | [] => []
  end.

Definition trimEnd (s : jsstring) : jsstring := rev (trimStart (rev s)).

Definition trim (s : jsstring) : jsstring := trimEnd (trimStart s).

(** [s.slice(0, n)] for a non-negative [n]. *)
Definition slice0 (n : nat) (s : jsstring) : jsstring := take n s.

(** [String.prototype.toLowerCase] on the code units whose lower case
    fits this model: the ASCII capitals, plus the two capitals outside
    ASCII whose lower case begins with an ASCII letter (KELVIN SIGN and
    LATIN CAPITAL LETTER I WITH DOT ABOVE).  The other non-ASCII capitals
    map to non-ASCII letters and are left as they are. *)
Definition lower_unit (c : N) : jsstring :=
  if (0x41 <=? c) && (c <=? 0x5A) then [c + 0x20]
  else if c =? 0x212A then [0x6B]
  else if c =? 0x0130 then [0x69; 0x0307]
  else [c].

Definition toLowerCase (s : jsstring) : jsstring := s ≫= lower_unit.

(** Decimal rendering of a non-negative integer, as [`${n}`] does. *)
Fixpoint digits_of_uint (d : Decimal.uint) : jsstring :=
  match d with
  | Decimal.Nil => []
  | Decimal.D0 r => 0x30 :: digits_of_uint r
  | Decimal.D1 r => 0x31 :: digits_of_uint r
  | Decimal.D2 r => 0x32 :: digits_of_uint r
  | Decimal.D3 r => 0x33 :: digits_of_uint r
  | Decimal.D4 r => 0x34 :: digits_of_uint r
  | Decimal.D5 r => 0x35 :: digits_of_uint r
  | Decimal.D6 r => 0x36 :: digits_of_uint r
  | Decimal.D7 r => 0x37 :: digits_of_uint r
  | Decimal.D8 r => 0x38 :: digits_of_uint r
  | Decimal.D9 r => 0x39 :: digits_of_uint r
  end.

Definition decimal (n : nat) : jsstring := digits_of_uint (Nat.to_uint n).

(** [parts.join(sep)]. *)
Fixpoint join (sep : jsstring) (parts : list jsstring) : jsstring :=
  match parts with
  | [] => []
  | [p] => p
  | p :: rest => p ++ sep ++ join sep rest
  end.

(** [path.extname] of Node (POSIX flavour): the extension of the last
    path component, from its last dot; empty when that component has no
    dot, starts with its only dot, or is [..]. *)
Definition slash : N := 0x2F.
Definition dot : N := 0x2E.

Fixpoint dropTrailingSlashes_rev (r : jsstring) : jsstring :=
  match r with
  | c :: rest => if c =? slash then dropTrailingSlashes_rev rest else r
  | [] => []
  end.

(** The last component, reversed: the reversed path without its trailing
    slashes, up to the next slash. *)
Fixpoint untilSlash (r : jsstring) : jsstring :=
  match r with
  | c :: rest => if c =? slash then [] else c :: untilSlash rest
  | [] => []
  end.

Definition basename_rev (p : jsstring) : jsstring :=
  untilSlash (dropTrailingSlashes_rev (rev p)).

(** Splits a reversed component at its first (that is, the path's last)
    dot: the reversed extension without the dot, and what precedes the
    dot (still reversed). *)
Fixpoint splitAtDot (r : jsstring) : option (jsstring * jsstring) :=
  match r with
  | [] => None
  | c :: rest =>
      if c =? dot then Some ([], rest)
      else match splitAtDot rest with
           | Some (ext, before) => Some (c :: ext, before)
           | None => None
           end
  end.

Definition extname (p : jsstring) : jsstring :=
  match splitAtDot (basename_rev p) with
  | None => []
  | Some (ext_rev, before_rev) =>
      match before_rev with
      | [] => []
      | _ =>
          if bool_decide (ext_rev = [] ∧ before_rev = [dot]) then []
          else dot :: rev ext_rev
      end
  end.

(** ** JSON values of a request body

    What [express.json()] can put in [req.body]: a field is absent
    ([undefined]) or holds a JSON value.  An array keeps, for each
    element, the string it is or [None] for an element that is not a
    string.  [JSet v] is the object [{ set: v }], whose only field is
    [set]: Prisma reads it as an update operation on a scalar column;
    every other object is opaque. *)
Inductive jsval :=
| JUndefined
| JNull
| JBool (b : bool)
| JNum (z : Z)
| JStr (s : jsstring)
| JArr (items : list (option jsstring))
| JObj
| JSet (v : jsval).

#[global] Instance jsval_eq_dec : EqDecision jsval.
Proof.
  intros x. induction x as [| |b|z|s|items| |v IH]; intros [| |b'|z'|s'|items'| |v'];
    try (right; discriminate); try (left; reflexivity).
  - destruct (decide (b = b')) as [->|]; [by left|right; congruence].
  - destruct (decide (z = z')) as [->|]; [by left|right; congruence].
  - destruct (decide (s = s')) as [->|]; [by left|right; congruence].
  - destruct (decide (items = items')) as [->|]; [by left|right; congruence].
  - destruct (IH v') as [->|]; [by left|right; congruence].
Defined.

(** ToBoolean. *)
Definition truthy (v : jsval) : bool :=
  match v with
  | JUndefined | JNull => false
  | JBool b => b
  | JNum z => negb (z =? 0)%Z
  | JStr s => negb (bool_decide (s = []))
  | JArr _ | JObj | JSet _ => true
  end.

(** Property read on the parsed body. *)
Definition field (body : gmap string jsval) (k : string) : jsval :=
  default JUndefined (body !! k).

End Js.

Import Js.

(** ** The persistence layer

    Column types follow the data model (the Prisma schema itself is not
    among the sources): identifiers are opaque keys, text columns are
    strings, optional columns are [option]s.  The store is taken to be up:
    a query fails only where Prisma refuses its arguments by type or finds
    no row to update or delete. *)

Inductive role := System | User | Assistant.
Inductive file_status := Uploading | Processed | Errored.

#[global] Instance role_eq_dec : EqDecision role.
Proof. solve_decision. Defined.
#[global] Instance file_status_eq_dec : EqDecision file_status.
Proof. solve_decision. Defined.

Module Project.
Record t := mk {
  userId : N;
  name : jsstring;
  description : option jsstring;
  systemPrompt : jsstring;
  createdAt : N
}.
End Project.

Module Chat.
Record t := mk {
  projectId : N;
  title : jsstring;
  createdAt : N
}.
End Chat.

Module Message.
Record t := mk {
  chatId : N;
  role_ : role;
  content : jsstring;
  timestamp : N
}.
End Message.

Module File.
Record t := mk {
  projectId : N;
  filename : jsstring;
  originalName : jsstring;
  mimeType : jsstring;
  size : N;
  openaiFileId : option jsstring;
  status : file_status;
  errorMessage : option jsstring;
  createdAt : N
}.
End File.

(** The tables, keyed by primary key, and the clock the store stamps new
    rows with ([@default(now())], in milliseconds).  [clock] is the reading
    the next insert gets.  [lapses] tells how many milliseconds pass after
    each of the coming inserts, in order: none where the next insert falls
    in the same millisecond, so that two rows can carry the same stamp.
    Where the list has run out, one millisecond passes. *)
Record DB := mkDB {
  projects : gmap N Project.t;
  chats : gmap N Chat.t;
  messages : gmap N Message.t;
  files : gmap N File.t;
  clock : N;
  lapses : list N
}.

Definition empty_db : DB := mkDB ∅ ∅ ∅ ∅ 0 [].

(** ** Effects: database writes and outbound HTTP calls *)

Inductive service := OPENAI | OPENROUTER.

(** One entry of the [messages] array of a chat-completions request. *)
Record ChatEntry := mkEntry { entry_role : role; entry_content : jsstring }.

#[global] Instance service_eq_dec : EqDecision service.
Proof. solve_decision. Defined.

Inductive event :=
| ProjectCreated (id : N) (row : Project.t)
| ProjectUpdated (id : N) (row : Project.t)
| ProjectDeleted (id : N)
| MessageCreated (id : N) (row : Message.t)
| ChatCreated (id : N) (row : Chat.t)
| FileCreated (id : N) (row : File.t)
| FileUpdated (id : N) (row : File.t)
| FileDeleted (id : N)
| RemoteDeleteAttempt (openaiFileId : jsstring)
| LlmAttempt (s : service) (messages : list ChatEntry)
| StagingAttempt (path originalname : jsstring).

Record state := mkState { db : DB; trace : list event }.

(** A handler step either returns a value or throws; the state is kept in
    both cases, as a JavaScript exception undoes nothing. *)
Inductive outcome (A : Type) :=
| Ret (a : A)
| Throw (message : jsstring).
Arguments Ret {A} a.
Arguments Throw {A} message.

Definition M (A : Type) : Type := state → outcome A * state.

#[global] Instance M_ret : MRet M := λ A a st, (Ret a, st).
#[global] Instance M_bind : MBind M := λ A B f m st,
  match m st with
  | (Ret a, st') => f a st'
  | (Throw e, st') => (Throw e, st')
  end.

Definition throw {A} (message : jsstring) : M A := λ st, (Throw message, st).

(** [try { body } catch (error) { handler(error.message) }]. *)
Definition try_catch {A} (body : M A) (handler : jsstring → M A) : M A := λ st,
  match body st with
  | (Ret a, st') => (Ret a, st')
  | (Throw e, st') => handler e st'
  end.

Definition get_db : M DB := λ st, (Ret (db st), st).
Definition put_db (d : DB) : M unit := λ st, (Ret (), mkState d (trace st)).
Definition emit (e : event) : M unit := λ st, (Ret (), mkState (db st) (trace st ++ [e])).

(** ** Prisma queries used by the routes *)

(** What Prisma accepts for a required and for an optional text column
    of a row it creates. *)
Definition as_text (v : jsval) : M jsstring :=
  match v with
  | JStr s => mret s
  | _ => throw (str "Invalid value provided. Expected String.")
  end.

Definition as_optional_text (v : jsval) : M (option jsstring) :=
  match v with
  | JStr s => mret (Some s)
  | JNull | JUndefined => mret None
  | _ => throw (str "Invalid value provided. Expected String or Null.")
  end.

(** What Prisma accepts for a text column of a row it updates: the value
    itself or the operation [{ set: value }].  (A JSON body holds no
    [undefined], so [{ set: undefined }] does not arise.) *)
Definition as_text_update (v : jsval) : M jsstring :=
  match v with
  | JStr s | JSet (JStr s) => mret s
  | _ => throw (str "Invalid value provided. Expected String or StringFieldUpdateOperationsInput.")
  end.

Definition as_optional_text_update (v : jsval) : M (option jsstring) :=
  match v with
  | JStr s | JSet (JStr s) => mret (Some s)
  | JNull | JUndefined | JSet JNull => mret None
  | _ => throw (str "Invalid value provided. Expected String, NullableStringFieldUpdateOperationsInput or Null.")
  end.

Definition set_projects (d : DB) (t : gmap N Project.t) : DB :=
  mkDB t (chats d) (messages d) (files d) (clock d) (lapses d).
Definition set_chats (d : DB) (t : gmap N Chat.t) : DB :=
  mkDB (projects d) t (messages d) (files d) (clock d) (lapses d).
Definition set_messages (d : DB) (t : gmap N Message.t) : DB :=
  mkDB (projects d) (chats d) t (files d) (clock d) (lapses d).
Definition set_files (d : DB) (t : gmap N File.t) : DB :=
  mkDB (projects d) (chats d) (messages d) t (clock d) (lapses d).
Definition tick (d : DB) : DB :=
  mkDB (projects d) (chats d) (messages d) (files d)
    (clock d + default 1 (head (lapses d))) (tail (lapses d)).

(** A new primary key: one the table does not hold. *)
Definition new_id {V} (t : gmap N V) : N := fresh (dom t).

(** [prisma.project.findFirst({ where: { id, userId } })]. *)
Definition project_findFirst (d : DB) (id uid : N) : option Project.t :=
  p ← projects d !! id;
  if bool_decide (Project.userId p = uid) then Some p else None.

(** [orderBy: { timestamp: 'desc' }]. *)
Definition newer_first (a b : N * Message.t) : Prop :=
  Message.timestamp b.2 ≤ Message.timestamp a.2.

#[global] Instance newer_first_dec a b : Decision (newer_first a b).
Proof. unfold newer_first. apply _. Defined.

Definition messages_of_chat (d : DB) (cid : N) : list (N * Message.t) :=
  filter (λ im, Message.chatId im.2 = cid) (map_to_list (messages d)).

(** [messages: { orderBy: { timestamp: 'desc' }, take: 10 }]. *)
Definition latest_messages (d : DB) (cid : N) : list (N * Message.t) :=
  take 10 (merge_sort newer_first (messages_of_chat d cid)).

(** [prisma.chat.findFirst({ where: { id, project: { userId } },
    include: { project: true, messages: ... } })]. *)
Definition chat_findFirst (d : DB) (cid uid : N)
  : option (Chat.t * Project.t * list (N * Message.t)) :=
  c ← chats d !! cid;
  p ← projects d !! Chat.projectId c;
  if bool_decide (Project.userId p = uid)
  then Some (c, p, latest_messages d cid)
  else None.

(** [prisma.message.create({ data: { chatId, role, content } })]: the
    content column is a required string, and Prisma refuses anything
    else before it writes. *)
Definition message_create (cid : N) (r : role) (content : jsval)
  : M (N * Message.t) :=
  content ← as_text content;
  d ← get_db;
  let id := new_id (messages d) in
  let row := Message.mk cid r content (clock d) in
  put_db (tick (set_messages d (<[id := row]> (messages d))));;
  emit (MessageCreated id row);;
  mret (id, row).

(** [prisma.file.findMany({ where: { openaiFileId: { in: fileIds },
    project: { userId } } })]; an element of [fileIds] that is not a string
    makes Prisma reject the query. *)
Definition owned_by (d : DB) (uid : N) (f : File.t) : bool :=
  match projects d !! File.projectId f with
  | Some p => bool_decide (Project.userId p = uid)
  | None => false
  end.

Definition file_referenced (ids : list jsstring) (f : File.t) : bool :=
  match File.openaiFileId f with
  | Some x => bool_decide (x ∈ ids)
  | None => false
  end.

Definition file_findMany_in (fileIds : list (option jsstring)) (uid : N)
  : M (list (N * File.t)) :=
  d ← get_db;
  match mapM id fileIds with
  | None => throw (str "Invalid value provided. Expected String.")
  | Some ids =>
      mret (filter (λ x, file_referenced ids x.2 && owned_by d uid x.2 = true)
                   (map_to_list (files d)))
  end.

(** ** The environment of a request

    The process environment and the outside world, fixed for the duration
    of one request: the two credentials, the answer each chat-completions
    endpoint gives to a conversation, the value [Math.random()] returns,
    the answer of the Files API to an upload, and the suffix multer's
    [filename] callback draws for the n-th stored file. *)

Record Usage := mkUsage {
  prompt_tokens : N;
  completion_tokens : N;
  total_tokens : N
}.

(** One [axios.post] to a completions endpoint: either a response with a
    2xx status, of which [getAIResponse] reads
    [response.data.choices[0].message.content], whatever value it holds
    (the completions schema allows [null] besides a string, and an absent
    field reads [undefined]), and [response.data.usage]; or an exception
    (timeout, HTTP error status, a response without [choices[0].message]). *)
Inductive llm_outcome :=
| LlmReply (content : jsval) (usage : option Usage)
| LlmFailure.

(** [uploadToOpenAI]: the [id] of [response.data], or an exception. *)
Inductive staging_outcome :=
| Staged (id : jsstring)
| StagingFailure (message : jsstring).

Record Env := mkEnv {
  OPENAI_API_KEY : option jsstring;
  OPENROUTER_API_KEY : option jsstring;
  llm : service → list ChatEntry → llm_outcome;
  random : Q;
  files_api : jsstring → jsstring → staging_outcome;
  uniqueSuffix : nat → jsstring
}.

(** Truthiness of [process.env.X]: set and not the empty string. *)
Definition configured (key : option jsstring) : bool :=
  match key with
  | Some k => truthy (JStr k)
  | None => false
  end.

(** ** HTTP responses *)

Inductive payload :=
| NoData
| ProjectData (id : N) (row : Project.t) (recentChats : list (N * Chat.t))
| ProjectRow (id : N) (row : Project.t)
| SendData (userMessage assistantMessage : N * Message.t)
           (metadata_service : jsstring) (metadata_usage : option Usage)
| ChatData (id : N) (row : Chat.t)
| FilesData (uploaded : list (N * File.t)) (errors : list (jsstring * jsstring)).

Record response := mkResponse {
  res_status : N;
  res_success : bool;
  res_message : option jsstring;
  res_data : payload
}.

Definition failure (code : N) (message : string) : response :=
  mkResponse code false (Some (str message)) NoData.

(** [a || b] on values. *)
Definition or_val (a b : jsval) : jsval := if truthy a then a else b.

(** * server/routes/chat.js *)

Module ChatRoutes.

(** [LLM_SERVICES]. *)
Definition LLM_SERVICES (s : service) : jsstring :=
  match s with
  | OPENAI => str "openai"
  | OPENROUTER => str "openrouter"
  end.

Definition api_key (env : Env) (s : service) : option jsstring :=
  match s with
  | OPENAI => OPENAI_API_KEY env
  | OPENROUTER => OPENROUTER_API_KEY env
  end.

Definition includes (services : list service) (s : service) : bool :=
  bool_decide (s ∈ services).

(** The first part of [getAIResponse]: the [services] array once the
    priority has been determined and the fallbacks added. *)
Definition service_order (env : Env) (preferredService : jsval) : list service :=
  let services :=
    if bool_decide (preferredService = JStr (LLM_SERVICES OPENAI))
       && configured (OPENAI_API_KEY env)
    then [OPENAI]
    else if bool_decide (preferredService = JStr (LLM_SERVICES OPENROUTER))
            && configured (OPENROUTER_API_KEY env)
    then [OPENROUTER]
    else [] in
  let services :=
    if configured (OPENAI_API_KEY env) && negb (includes services OPENAI)
    then services ++ [OPENAI] else services in
  let services :=
    if configured (OPENROUTER_API_KEY env) && negb (includes services OPENROUTER)
    then services ++ [OPENROUTER] else services in
  services.

Record AiResult := mkAiResult {
  ai_content : jsval;
  ai_service : jsstring;
  ai_usage : option Usage
}.

Definition service_label (s : service) : jsstring :=
  match s with
  | OPENAI => str "OpenAI GPT-3.5-turbo"
  | OPENROUTER => str "OpenRouter GPT-3.5-turbo"
  end.

(** The loop of [getAIResponse]: one request per service, in order; the
    first reply is returned, a failure moves on to the next service, and
    the end of the list throws. *)
Fixpoint try_services (env : Env) (messages : list ChatEntry)
    (services : list service) : M AiResult :=
  match services with
  | [] => throw (str "All LLM services are currently unavailable")
  | s :: rest =>
      emit (LlmAttempt s messages);;
      match llm env s messages with
      | LlmReply content usage => mret (mkAiResult content (service_label s) usage)
      | LlmFailure => try_services env messages rest
      end
  end.

Definition getAIResponse (env : Env) (messages : list ChatEntry)
    (preferredService : jsval) : M AiResult :=
  try_services env messages (service_order env preferredService).

(** The file-context blurb appended to the system prompt. *)
Definition file_line (f : N * File.t) : jsstring :=
  str "- " ++ File.originalName f.2 ++ str " (" ++ File.mimeType f.2 ++ str ")".

Definition file_context_text (found : list (N * File.t)) : jsstring :=
  nl ++ nl ++ str "Context: The user has uploaded " ++ decimal (length found)
  ++ str " file(s) for reference:" ++ nl
  ++ join nl (file_line <$> found)
  ++ nl ++ nl
  ++ str "Please consider these files when responding to the user's question.".

(** [fileIds && fileIds.length > 0]: only a non-empty string or array
    reaches the query (for an object either branch leaves the context
    empty, so it is taken as having no positive [length]); a string given
    as the [in] list is rejected by Prisma like a non-string element. *)
Definition file_context (fileIds : jsval) (uid : N) : M jsstring :=
  match fileIds with
  | JArr (x :: rest) =>
      try_catch
        (found ← file_findMany_in (x :: rest) uid;
         if bool_decide (0 < length found)%nat
         then mret (file_context_text found) else mret [])
        (λ _, mret [])
  | JStr (c :: _) =>
      try_catch (throw (str "Invalid value provided. Expected a list."))
                (λ _, mret [])
  | _ => mret []
  end.

Definition default_prompt : jsstring := str "You are a helpful assistant.".

(** [a || b] on strings. *)
Definition or_else (a b : jsstring) : jsstring :=
  if truthy (JStr a) then a else b.

Definition conversationHistory (project : Project.t) (fileContext : jsstring)
    (recent : list (N * Message.t)) (content : jsstring) : list ChatEntry :=
  mkEntry System (or_else (Project.systemPrompt project) default_prompt ++ fileContext)
  :: ((λ msg : N * Message.t, mkEntry (Message.role_ msg.2) (Message.content msg.2))
        <$> reverse recent)
  ++ [mkEntry User (trim content)].

(** The canned replies of the offline mode. *)
Definition responses (content : jsstring) : list jsstring :=
  [ str "I apologize, but I'm currently experiencing connectivity issues with my AI services. However, I can still help you based on my configuration.";
    str "Based on your question about " ++ dquote ++ slice0 30 content ++ str "..." ++ dquote
      ++ str ", I would normally provide a detailed response, but I'm currently in offline mode.";
    str "Thank you for your message. I'm temporarily unable to access my full AI capabilities, but I'm still here to assist you.";
    str "I understand you're asking about " ++ dquote ++ slice0 20 content ++ str "..." ++ dquote
      ++ str ". While my AI services are temporarily unavailable, I can provide basic assistance." ].

(** [arr[i]] followed by string concatenation: an index outside the
    array reads [undefined], which concatenates as that word. *)
Definition index_as_text (arr : list jsstring) (i : Z) : jsstring :=
  if (i <? 0)%Z then str "undefined"
  else default (str "undefined") (arr !! Z.to_nat i).

Definition fallback_result (env : Env) (project : Project.t) (content : jsstring)
  : AiResult :=
  let rs := responses content in
  let fallbackResponse :=
    index_as_text rs (Qfloor (random env * inject_Z (Z.of_nat (length rs)))) in
  mkAiResult
    (JStr
       (fallbackResponse ++
          (if truthy (JStr (Project.systemPrompt project))
           then nl ++ nl ++ str "Note: I'm configured as: "
                ++ slice0 100 (Project.systemPrompt project) ++ str "..."
           else [])))
    (str "Fallback Mode")
    None.

(** [router.post('/chats/:chatId/messages', authenticateToken, ...)];
    [uid] is [req.user.id] as set by the authentication guard. *)
Definition send_message_body (env : Env) (uid chatId : N) (content : jsstring)
    (fileIds : jsval) : M response :=
  d ← get_db;
  match chat_findFirst d chatId uid with
  | None => mret (failure 404 "Chat not found")
  | Some (chat, project, recent) =>
      userMessage ← message_create chatId User (JStr (trim content));
      fileContext ← file_context fileIds uid;
      let history := conversationHistory project fileContext recent content in
      aiResult ← try_catch (getAIResponse env history JNull)
                           (λ _, mret (fallback_result env project content));
      assistantMessage ← message_create chatId Assistant (ai_content aiResult);
      mret (mkResponse 200 true None
              (SendData userMessage assistantMessage
                        (ai_service aiResult) (ai_usage aiResult)))
  end.

Definition send_message (env : Env) (uid chatId : N) (body : gmap string jsval)
  : M response :=
  try_catch
    (let content := field body "content" in
     let fileIds := field body "fileIds" in
     match content with
     | JStr s =>
         (* !content || !content.trim() *)
         if negb (truthy content) || negb (truthy (JStr (trim s)))
         then mret (failure 400 "Message content is required")
         else send_message_body env uid chatId s fileIds
     | _ =>
         if negb (truthy content)
         then mret (failure 400 "Message content is required")
         else throw (str "content.trim is not a function")
     end)
    (λ _, mret (failure 500 "Internal server error")).

End ChatRoutes.


(** * server/routes/projects.js *)

Module ProjectRoutes.

(** [prisma.project.create({ data: { name, description, systemPrompt, userId } })]. *)
Definition project_create (name description systemPrompt : jsval) (uid : N)
  : M (N * Project.t) :=
  name ← as_text name;
  description ← as_optional_text description;
  systemPrompt ← as_text systemPrompt;
  d ← get_db;
  let id := new_id (projects d) in
  let row := Project.mk uid name description systemPrompt (clock d) in
  put_db (tick (set_projects d (<[id := row]> (projects d))));;
  emit (ProjectCreated id row);;
  mret (id, row).

(** [router.post('/', ...)]. *)
Definition create_project (uid : N) (body : gmap string jsval) : M response :=
  try_catch
    (let name := field body "name" in
     let description := field body "description" in
     let systemPrompt := field body "systemPrompt" in
     if negb (truthy name) || negb (truthy systemPrompt)
     then mret (failure 400 "Name and system prompt are required")
     else
       project ← project_create name description systemPrompt uid;
       mret (mkResponse 201 true (Some (str "Project created successfully"))
               (ProjectRow project.1 project.2)))
    (λ _, mret (failure 500 "Internal server error")).

(** [orderBy: { createdAt: 'desc' }] on chats. *)
Definition newer_chat_first (a b : N * Chat.t) : Prop :=
  Chat.createdAt b.2 ≤ Chat.createdAt a.2.

#[global] Instance newer_chat_first_dec a b : Decision (newer_chat_first a b).
Proof. unfold newer_chat_first. apply _. Defined.

Definition recent_chats (d : DB) (pid : N) : list (N * Chat.t) :=
  take 10 (merge_sort newer_chat_first
             (filter (λ ic, Chat.projectId ic.2 = pid) (map_to_list (chats d)))).

(** [router.get('/:id', ...)]. *)
Definition get_project (uid id : N) : M response :=
  try_catch
    (d ← get_db;
     match project_findFirst d id uid with
     | None => mret (failure 404 "Project not found")
     | Some project =>
         mret (mkResponse 200 true None (ProjectData id project (recent_chats d id)))
     end)
    (λ _, mret (failure 500 "Internal server error")).

(** [prisma.project.update({ where: { id }, data: { name, description,
    systemPrompt } })]: an [undefined] description leaves the column as it
    is; a missing row is an error. *)
Definition project_update (id : N) (name description systemPrompt : jsval)
  : M (N * Project.t) :=
  name ← as_text_update name;
  given ← as_optional_text_update description;
  systemPrompt ← as_text_update systemPrompt;
  d ← get_db;
  match projects d !! id with
  | None => throw (str "Record to update not found.")
  | Some old =>
      let row :=
        Project.mk (Project.userId old) name
          (if bool_decide (description = JUndefined)
           then Project.description old else given)
          systemPrompt (Project.createdAt old) in
      put_db (set_projects d (<[id := row]> (projects d)));;
      emit (ProjectUpdated id row);;
      mret (id, row)
  end.

(** [router.put('/:id', ...)]. *)
Definition update_project (uid id : N) (body : gmap string jsval) : M response :=
  try_catch
    (let name := field body "name" in
     let description := field body "description" in
     let systemPrompt := field body "systemPrompt" in
     d ← get_db;
     match project_findFirst d id uid with
     | None => mret (failure 404 "Project not found")
     | Some existingProject =>
         project ← project_update id
                     (or_val name (JStr (Project.name existingProject)))
                     description
                     (or_val systemPrompt (JStr (Project.systemPrompt existingProject)));
         mret (mkResponse 200 true (Some (str "Project updated successfully"))
                 (ProjectRow project.1 project.2))
     end)
    (λ _, mret (failure 500 "Internal server error")).

(** [prisma.project.delete({ where: { id } })].

    Modelled from the spec: the relation rules of the schema are not
    among the sources; the delete cascades to the project's chats, their
    messages and the project's files, as the data model intends. *)
Definition project_delete (id : N) : M unit :=
  d ← get_db;
  match projects d !! id with
  | None => throw (str "Record to delete does not exist.")
  | Some _ =>
      let of_project (cid : N) : bool :=
        match chats d !! cid with
        | Some c => bool_decide (Chat.projectId c = id)
        | None => false
        end in
      put_db (mkDB (delete id (projects d))
                (filter (λ ic, Chat.projectId ic.2 ≠ id) (chats d))
                (filter (λ im, of_project (Message.chatId im.2) = false) (messages d))
                (filter (λ i_f, File.projectId i_f.2 ≠ id) (files d))
                (clock d) (lapses d));;
      emit (ProjectDeleted id)
  end.

(** [router.delete('/:id', ...)]. *)
Definition delete_project (uid id : N) : M response :=
  try_catch
    (d ← get_db;
     match project_findFirst d id uid with
     | None => mret (failure 404 "Project not found")
     | Some existingProject =>
         project_delete id;;
         mret (mkResponse 200 true (Some (str "Project deleted successfully")) NoData)
     end)
    (λ _, mret (failure 500 "Internal server error")).

End ProjectRoutes.

(** * server/routes/files.js *)

Module FileRoutes.

(** A file part of the multipart request, as busboy hands it to multer. *)
Record Part := mkPart {
  fieldname : jsstring;
  originalname : jsstring;
  mimetype : jsstring;
  size : N
}.

(** [req.files[i]] once multer has stored the part. *)
Record Stored := mkStored {
  part : Part;
  filename : jsstring;
  path : jsstring
}.

Definition allowedTypes : list jsstring :=
  [ str "text/plain"; str "text/markdown"; str "application/pdf";
    str "application/msword";
    str "application/vnd.openxmlformats-officedocument.wordprocessingml.document";
    str "text/csv"; str "application/json"; str "text/javascript";
    str "application/javascript"; str "text/typescript"; str "text/jsx";
    str "text/tsx"; str "text/python"; str "text/html"; str "text/css";
    str "application/x-python-code"; str "text/x-python" ].

Definition allowedExtensions : list jsstring :=
  [ str ".txt"; str ".md"; str ".pdf"; str ".doc"; str ".docx"; str ".csv";
    str ".json"; str ".js"; str ".ts"; str ".tsx"; str ".jsx"; str ".py";
    str ".html"; str ".css" ].

(** [fileFilter]: [true] for [cb(null, true)], [false] for [cb(new Error(...))]. *)
Definition fileFilter (file : Part) : bool :=
  let fileExtension := toLowerCase (extname (originalname file)) in
  bool_decide (mimetype file ∈ allowedTypes)
  || bool_decide (fileExtension ∈ allowedExtensions).

(** [limits.fileSize]. *)
Definition fileSize_limit : N := 512 * 1024 * 1024.

Inductive multer_error :=
| LIMIT_UNEXPECTED_FILE (field_ : jsstring)
| LIMIT_FILE_SIZE (field_ : jsstring)
| FilterError (message : jsstring).

(** [storage.filename], and the path under the destination directory
    ([uploads/] stands for the absolute directory of the server). *)
Definition stored_as (env : Env) (n : nat) (file : Part) : Stored :=
  let name := fieldname file ++ str "-" ++ uniqueSuffix env n
              ++ extname (originalname file) in
  mkStored file name (str "uploads/" ++ name).

(** [upload.array(field, maxCount)]: multer takes the file parts in the
    order of the request.  A part without a file name is passed over
    ([if (!filename) return fileStream.resume()]) before anything is
    counted or checked.  For the others: a part under another field name,
    or one more part than [filesLeft] allows, aborts with
    [LIMIT_UNEXPECTED_FILE]; then the file filter decides; then the size
    limit, which busboy reports once the bytes read reach it; the first
    error aborts the whole request. *)
Fixpoint multer_array (env : Env) (field_ : jsstring) (filesLeft : nat)
    (n : nat) (parts : list Part) {struct parts} : multer_error + list Stored :=
  match parts with
  | [] => inr []
  | file :: rest =>
      if negb (truthy (JStr (originalname file))) then
        multer_array env field_ filesLeft n rest
      else if negb (bool_decide (fieldname file = field_)) then
        inl (LIMIT_UNEXPECTED_FILE (fieldname file))
      else
        match filesLeft with
        | O => inl (LIMIT_UNEXPECTED_FILE (fieldname file))
        | S left_ =>
            if negb (fileFilter file) then
              inl (FilterError
                     (str "File type not supported. Allowed types: "
                      ++ join (str ", ") allowedExtensions))
            else if fileSize_limit <=? size file then
              inl (LIMIT_FILE_SIZE (fieldname file))
            else
              match multer_array env field_ left_ (S n) rest with
              | inl e => inl e
              | inr stored => inr (stored_as env n file :: stored)
              end
        end
  end.

Definition upload : Env → list Part → multer_error + list Stored :=
  λ env, multer_array env (str "files") 10 0.

(** [uploadToOpenAI(filePath, filename)]. *)
Definition uploadToOpenAI (env : Env) (filePath name : jsstring) : M jsstring :=
  emit (StagingAttempt filePath name);;
  match files_api env filePath name with
  | Staged id => mret id
  | StagingFailure message => throw message
  end.

(** [prisma.file.create({ data: { ..., status: 'uploading' } })]. *)
Definition file_create (projectId : N) (file : Stored) : M (N * File.t) :=
  d ← get_db;
  let id := new_id (files d) in
  let row := File.mk projectId (filename file) (originalname (part file))
               (mimetype (part file)) (size (part file))
               None Uploading None (clock d) in
  put_db (tick (set_files d (<[id := row]> (files d))));;
  emit (FileCreated id row);;
  mret (id, row).

(** [prisma.file.update({ where: { id }, data })]. *)
Definition file_update (id : N) (change : File.t → File.t) : M unit :=
  d ← get_db;
  match files d !! id with
  | None => throw (str "Record to update not found.")
  | Some old =>
      put_db (set_files d (<[id := change old]> (files d)));;
      emit (FileUpdated id (change old))
  end.

Definition mark_processed (openaiFileId : jsstring) (f : File.t) : File.t :=
  File.mk (File.projectId f) (File.filename f) (File.originalName f)
    (File.mimeType f) (File.size f) (Some openaiFileId) Processed
    (File.errorMessage f) (File.createdAt f).

Definition mark_error (f : File.t) : File.t :=
  File.mk (File.projectId f) (File.filename f) (File.originalName f)
    (File.mimeType f) (File.size f) (File.openaiFileId f) Errored
    (Some (str "Failed to upload to OpenAI")) (File.createdAt f).

Definition Results : Type := list (N * File.t) * list (jsstring * jsstring).

(** The body of the [for (const file of files)] loop of the upload
    route.  (The removal of the local copy is left out: the disk is not
    modelled.) *)
Definition process_file (env : Env) (projectId : N) (file : Stored)
    (acc : Results) : M Results :=
  try_catch
    (fileRecord ← file_create projectId file;
     pushed ← try_catch
       (openaiFile ← uploadToOpenAI env (path file) (originalname (part file));
        file_update fileRecord.1 (mark_processed openaiFile);;
        mret (fileRecord.1, mark_processed openaiFile fileRecord.2))
       (λ _,
        file_update fileRecord.1 mark_error;;
        mret (fileRecord.1, mark_error fileRecord.2));
     mret (acc.1 ++ [pushed], acc.2))
    (λ message, mret (acc.1, acc.2 ++ [(originalname (part file), message)])).

Fixpoint process_files (env : Env) (projectId : N) (files : list Stored)
    (acc : Results) : M Results :=
  match files with
  | [] => mret acc
  | file :: rest =>
      acc' ← process_file env projectId file acc;
      process_files env projectId rest acc'
  end.

(** The handler of [router.post('/projects/:projectId/upload', ...)],
    run once multer has stored the files. *)
Definition upload_handler (env : Env) (uid projectId : N) (files : list Stored)
  : M response :=
  try_catch
    (if bool_decide (length files = 0%nat)
     then mret (failure 400 "No files provided")
     else
       d ← get_db;
       match project_findFirst d projectId uid with
       | None => mret (failure 404 "Project not found")
       | Some project =>
           results ← process_files env projectId files ([], []);
           mret (mkResponse 200 true
                   (Some (decimal (length results.1)
                          ++ str " files uploaded successfully"))
                   (FilesData results.1 results.2))
       end)
    (λ _, mret (failure 500 "File upload failed")).

(** The route: the multer middleware, then the handler; an error of the
    middleware goes to the error handler of the application, and the
    handler is not run. *)
Definition upload_route (env : Env) (uid projectId : N) (parts : list Part)
  : M response :=
  match upload env parts with
  | inl _ => mret (failure 500 "Internal server error")
  | inr files => upload_handler env uid projectId files
  end.

(** [prisma.file.findFirst({ where: { id, project: { userId } } })]. *)
Definition file_findFirst (d : DB) (id uid : N) : option File.t :=
  f ← files d !! id;
  if owned_by d uid f then Some f else None.

(** [router.delete('/files/:fileId', ...)]; the answer of the remote
    delete is not looked at. *)
Definition delete_file (env : Env) (uid fileId : N) : M response :=
  try_catch
    (d ← get_db;
     match file_findFirst d fileId uid with
     | None => mret (failure 404 "File not found")
     | Some file =>
         match File.openaiFileId file with
         | Some x =>
             if truthy (JStr x) && configured (OPENAI_API_KEY env)
             then emit (RemoteDeleteAttempt x) else mret ()
         | None => mret ()
         end;;
         put_db (set_files d (delete fileId (files d)));;
         emit (FileDeleted fileId);;
         mret (mkResponse 200 true (Some (str "File deleted successfully")) NoData)
     end)
    (λ _, mret (failure 500 "Failed to delete file")).

End FileRoutes.

(** * The chat-creation route of server/routes/chat.js *)

Module ChatCreation.

(** [router.post('/projects/:projectId/chats', ...)]. *)
Definition create_chat (uid projectId : N) (body : gmap string jsval) : M response :=
  try_catch
    (let title := field body "title" in
     d ← get_db;
     match project_findFirst d projectId uid with
     | None => mret (failure 404 "Project not found")
     | Some project =>
         title ← as_text (or_val title (JStr (str "New Chat")));
         let id := new_id (chats d) in
         let row := Chat.mk projectId title (clock d) in
         put_db (tick (set_chats d (<[id := row]> (chats d))));;
         emit (ChatCreated id row);;
         mret (mkResponse 201 true None (ChatData id row))
     end)
    (λ _, mret (failure 500 "Internal server error")).

End ChatCreation.

(** ** The server as a state machine *)

Module Server.
Import ChatRoutes ProjectRoutes FileRoutes ChatCreation.

(** The requests of the three route files that write to the store, and
    the read of one project, each with the user the authentication guard
    resolved.  The other routes only read. *)
Inductive request :=
| CreateProject (uid : N) (body : gmap string jsval)
| GetProject (uid id : N)
| UpdateProject (uid id : N) (body : gmap string jsval)
| DeleteProject (uid id : N)
| CreateChat (uid projectId : N) (body : gmap string jsval)
| SendMessage (uid chatId : N) (body : gmap string jsval)
| UploadFiles (uid projectId : N) (parts : list Part)
| DeleteFile (uid fileId : N).

Definition handle (env : Env) (r : request) : M response :=
  match r with
  | CreateProject uid body => create_project uid body
  | GetProject uid id => get_project uid id
  | UpdateProject uid id body => update_project uid id body
  | DeleteProject uid id => delete_project uid id
  | CreateChat uid projectId body => create_chat uid projectId body
  | SendMessage uid chatId body => send_message env uid chatId body
  | UploadFiles uid projectId parts => upload_route env uid projectId parts
  | DeleteFile uid fileId => delete_file env uid fileId
  end.

(** The databases the server can be in: one with empty tables, whatever
    its clock reads and however time will pass, and the one any request
    leaves behind, in whatever environment it is served. *)
Inductive reachable : DB → Prop :=
| reachable_empty now later : reachable (mkDB ∅ ∅ ∅ ∅ now later)
| reachable_step d env r tr :
    reachable d →
    reachable (db (handle env r (mkState d tr)).2).

(** The response a run ends with; an exception that leaves a handler is
    answered by the error handler of the application. *)
Definition answer (run : outcome response * state) : response :=
  match run.1 with
  | Ret r => r
  | Throw _ => failure 500 "Internal server error"
  end.

(** The invariants of the data model. *)
Definition project_ok (p : Project.t) : Prop :=
  Project.name p ≠ [] ∧ Project.systemPrompt p ≠ [].

Definition file_ok (f : File.t) : Prop :=
  (File.status f = Processed ∧ File.openaiFileId f ≠ None)
  ∨ (File.status f = Errored ∧ File.openaiFileId f = None).

(** The row the upload route creates for a stored file, and the row it
    leaves once the Files API has answered. *)
Definition created_row (projectId : N) (file : Stored) (d : DB) : File.t :=
  File.mk projectId (filename file) (originalname (part file))
    (mimetype (part file)) (size (part file)) None Uploading None (clock d).

Definition final_row (env : Env) (file : Stored) (created : File.t) : File.t :=
  match files_api env (path file) (originalname (part file)) with
  | Staged x => mark_processed x created
  | StagingFailure _ => mark_error created
  end.

Definition db_inv (d : DB) : Prop :=
  map_Forall (λ _ f, file_ok f) (files d).

End Server.

(** ** Reading a run of the send-message route *)

Module ChatRun.
Import ChatRoutes.

(** The services a run of the loop sends a request to, and the reply it
    ends with, if any. *)
Fixpoint attempted (env : Env) (messages : list ChatEntry)
    (services : list service) : list service :=
  match services with
  | [] => []
  | s :: rest =>
      s :: match llm env s messages with
           | LlmReply _ _ => []
           | LlmFailure => attempted env messages rest
           end
  end.

Fixpoint first_reply (env : Env) (messages : list ChatEntry)
    (services : list service) : option AiResult :=
  match services with
  | [] => None
  | s :: rest =>
      match llm env s messages with
      | LlmReply content usage => Some (mkAiResult content (service_label s) usage)
      | LlmFailure => first_reply env messages rest
      end
  end.

Definition attempts_as_events (messages : list ChatEntry) (l : list service)
  : list event := (λ s, LlmAttempt s messages) <$> l.

(** The file context is a read: it neither writes nor throws. *)
Definition file_context_of (d : DB) (fileIds : jsval) (uid : N) : jsstring :=
  match file_context fileIds uid (mkState d []) with
  | (Ret text, _) => text
  | (Throw _, _) => []
  end.

(** The text a value is, when it is one. *)
Definition text_of (v : jsval) : option jsstring :=
  match v with
  | JStr s => Some s
  | _ => None
  end.

(** What one accepted send-message request does, step by step; the
    assistant row is the one written when the content of the result is
    text. *)
Section SendRun.
Variables (env : Env) (uid chatId : N) (content : jsstring) (fileIds : jsval).
Variables (d : DB) (project : Project.t) (recent : list (N * Message.t)).

Definition sent_history : list ChatEntry :=
  conversationHistory project (file_context_of d fileIds uid) recent content.
Definition sent_result : AiResult :=
  default (fallback_result env project content)
          (first_reply env sent_history (service_order env JNull)).
Definition user_id : N := new_id (messages d).
Definition user_row : Message.t :=
  Message.mk chatId User (trim content) (clock d).
Definition db_after_user : DB :=
  tick (set_messages d (<[user_id := user_row]> (messages d))).
Definition assistant_id : N := new_id (messages db_after_user).
Definition assistant_row : Message.t :=
  Message.mk chatId Assistant (default [] (text_of (ai_content sent_result)))
    (clock db_after_user).
Definition db_after_send : DB :=
  tick (set_messages db_after_user
          (<[assistant_id := assistant_row]> (messages db_after_user))).
Definition sent_attempts : list event :=
  attempts_as_events sent_history
    (attempted env sent_history (service_order env JNull)).
End SendRun.

(** The services the trace records a request to, in order. *)
Definition attempts_of (tr : list event) : list service :=
  omap (λ e, match e with LlmAttempt s _ => Some s | _ => None end) tr.

(** The conversations the trace records as sent, in order. *)
Definition contexts_of (tr : list event) : list (list ChatEntry) :=
  omap (λ e, match e with LlmAttempt _ msgs => Some msgs | _ => None end) tr.

(** The backend label of a send-message response. *)
Definition response_label (r : response) : option jsstring :=
  match res_data r with
  | SendData _ _ label _ => Some label
  | _ => None
  end.

(** The response a request gets on a given database; a handler that
    throws past its own [catch] is answered by the error middleware of
    the application. *)
Definition send_message_response (env : Env) (uid chatId : N)
    (body : gmap string jsval) (d : DB) : response :=
  match send_message env uid chatId body (mkState d []) with
  | (Ret r, _) => r
  | (Throw _, _) => failure 500 "Internal server error"
  end.

(** The chat belongs to a project of the user. *)
Definition chat_owned_by (d : DB) (uid cid : N) : Prop :=
  ∃ c p, chats d !! cid = Some c
         ∧ projects d !! Chat.projectId c = Some p
         ∧ Project.userId p = uid.

(** The attempt order as the specification words it: the hinted service
    first, when the hint names a service whose credential is configured,
    then every other configured service in the secondary order. *)
Definition hinted (env : Env) (preferredService : jsval) : option service :=
  head (filter (λ s, preferredService = JStr (LLM_SERVICES s)
                     ∧ configured (api_key env s) = true)
               [OPENAI; OPENROUTER]).

Definition spec_order (env : Env) (preferredService : jsval) : list service :=
  match hinted env preferredService with
  | Some h =>
      h :: filter (λ s, s ≠ h ∧ configured (api_key env s) = true)
                  [OPENAI; OPENROUTER]
  | None => filter (λ s, configured (api_key env s) = true) [OPENAI; OPENROUTER]
  end.

(** Chronological order of message rows. *)
Definition older_first (a b : N * Message.t) : Prop :=
  (Message.timestamp a.2 ≤ Message.timestamp b.2)%N.


(** The secondary order: the configured services, OpenAI first. *)
Definition fixed_order (env : Env) : list service :=
  filter (λ s, configured (api_key env s) = true) [OPENAI; OPENROUTER].

End ChatRun.

(** ** Sample inputs *)

Module Demo.

Definition project1 : Project.t :=
  Project.mk 7 (str "bot") None (str "Be kind.") 0.

Definition db1 : DB :=
  mkDB {[ 1 := project1 ]}
       {[ 1 := Chat.mk 1 (str "first chat") 1 ]}
       {[ 1 := Message.mk 1 User (str "hello") 2;
          2 := Message.mk 1 Assistant (str "hi, how can I help?") 3 ]}
       ∅ 4 [].

(** The same store, at a moment when the next two inserts fall in the
    same millisecond. *)
Definition db1_busy : DB :=
  mkDB (projects db1) (chats db1) (messages db1) (files db1) (clock db1) [0].

(** Both credentials set; each endpoint answers as given. *)
Definition env_with (openai openrouter : llm_outcome) : Env :=
  mkEnv (Some (str "sk-1")) (Some (str "sk-or-2"))
        (λ s _, match s with OPENAI => openai | OPENROUTER => openrouter end)
        (1 # 2)
        (λ _ _, StagingFailure (str "timeout of 60000ms exceeded"))
        (λ n, decimal n).

Definition env_down : Env := env_with LlmFailure LlmFailure.

(** The Files API accepts every upload. *)
Definition env_staging : Env :=
  mkEnv (Some (str "sk-1")) None (λ _ _, LlmFailure) (1 # 2)
        (λ _ _, Staged (str "file-abc123"))
        (λ n, decimal n).

Definition create_body : gmap string jsval :=
  {[ "name" := JStr (str "bot"); "systemPrompt" := JStr (str "Be kind.") ]}.

Definition nameless_body : gmap string jsval :=
  {[ "systemPrompt" := JStr (str "Be kind.") ]}.

(** The store after user 7 has created a first project. *)
Definition db_one_project : DB :=
  db (Server.handle env_down (Server.CreateProject 7 create_body)
        (mkState empty_db [])).2.

Definition notes_xyz : FileRoutes.Part :=
  FileRoutes.mkPart (str "files") (str "notes.xyz") (str "text/plain") 120.

Definition setup_exe : FileRoutes.Part :=
  FileRoutes.mkPart (str "files") (str "setup.exe")
    (str "application/octet-stream") 4096.

Definition report_pdf : FileRoutes.Part :=
  FileRoutes.mkPart (str "files") (str "report.PDF") (str "application/pdf") 2048.

(** A file input left empty: a part without a file name. *)
Definition nameless_part : FileRoutes.Part :=
  FileRoutes.mkPart (str "files") [] (str "application/octet-stream") 0.

(** A file of exactly the size limit. *)
Definition huge_pdf : FileRoutes.Part :=
  FileRoutes.mkPart (str "files") (str "huge.pdf") (str "application/pdf")
    FileRoutes.fileSize_limit.

Definition hello_body : gmap string jsval := {[ "content" := JStr (str " hi ") ]}.
Definition blank_body : gmap string jsval := {[ "content" := JStr (str "   ") ]}.

Definition rename_body : gmap string jsval :=
  {[ "name" := JStr (str "renamed"); "systemPrompt" := JStr (str "Be terse.") ]}.

End Demo.

(** * The routes that only read *)

Module ReadRoutes.
Import ChatRoutes ProjectRoutes FileRoutes.

(** The envelope [{ success, message?, data? }] with its status, for a
    route whose [data] is a [D]. *)
Record reply (D : Type) := mkReply {
  rp_status : N;
  rp_success : bool;
  rp_message : option jsstring;
  rp_data : option D
}.
Arguments mkReply {D} _ _ _ _.
Arguments rp_status {D} _.
Arguments rp_success {D} _.
Arguments rp_message {D} _.
Arguments rp_data {D} _.

Definition refused {D} (code : N) (message : string) : reply D :=
  mkReply code false (Some (str message)) None.

Definition granted {D} (data : D) : reply D := mkReply 200 true None (Some data).

(** [orderBy: { timestamp: 'asc' }]. *)
#[global] Instance older_first_dec a b : Decision (ChatRun.older_first a b).
Proof. unfold ChatRun.older_first. apply _. Defined.

(** [prisma.chat.findFirst({ where: { id, project: { userId } },
    include: { messages: { orderBy: { timestamp: 'asc' } } } })]. *)
Definition chat_with_messages (d : DB) (cid uid : N)
  : option (Chat.t * list (N * Message.t)) :=
  c ← chats d !! cid;
  p ← projects d !! Chat.projectId c;
  if bool_decide (Project.userId p = uid)
  then Some (c, merge_sort ChatRun.older_first (messages_of_chat d cid))
  else None.

(** [router.get('/chats/:chatId/messages', ...)] of chat.js. *)
Definition get_messages (uid chatId : N) : M (reply (list (N * Message.t))) :=
  try_catch
    (d ← get_db;
     match chat_with_messages d chatId uid with
     | None => mret (refused 404 "Chat not found")
     | Some (chat, msgs) => mret (granted msgs)
     end)
    (λ _, mret (refused 500 "Internal server error")).

(** [orderBy: { createdAt: 'desc' }] on projects and on files. *)
Definition newer_project_first (a b : N * Project.t) : Prop :=
  Project.createdAt b.2 ≤ Project.createdAt a.2.

#[global] Instance newer_project_first_dec a b : Decision (newer_project_first a b).
Proof. unfold newer_project_first. apply _. Defined.

Definition newer_file_first (a b : N * File.t) : Prop :=
  File.createdAt b.2 ≤ File.createdAt a.2.

#[global] Instance newer_file_first_dec a b : Decision (newer_file_first a b).
Proof. unfold newer_file_first. apply _. Defined.

Definition chats_of_project (d : DB) (pid : N) : list (N * Chat.t) :=
  filter (λ ic, Chat.projectId ic.2 = pid) (map_to_list (chats d)).

(** One element of the project list: the row, [_count.chats], and the
    latest chat ([take: 1]) as [{ id, title, updatedAt }].  No route
    updates a chat, so its [updatedAt] is the time it was created. *)
Record ProjectListItem := mkItem {
  item_id : N;
  item_row : Project.t;
  item_count : nat;
  item_chats : list (N * jsstring * N)
}.

Definition list_item (d : DB) (ip : N * Project.t) : ProjectListItem :=
  mkItem ip.1 ip.2 (length (chats_of_project d ip.1))
    ((λ ic : N * Chat.t, (ic.1, Chat.title ic.2, Chat.createdAt ic.2))
       <$> take 1 (merge_sort newer_chat_first (chats_of_project d ip.1))).

Definition projects_of_user (d : DB) (uid : N) : list (N * Project.t) :=
  filter (λ ip, Project.userId ip.2 = uid) (map_to_list (projects d)).

(** [router.get('/', ...)] of projects.js. *)
Definition list_projects (uid : N) : M (reply (list ProjectListItem)) :=
  try_catch
    (d ← get_db;
     mret (granted (list_item d <$> merge_sort newer_project_first
                                      (projects_of_user d uid))))
    (λ _, mret (refused 500 "Internal server error")).

Definition files_of_project (d : DB) (pid : N) : list (N * File.t) :=
  filter (λ i_f, File.projectId i_f.2 = pid) (map_to_list (files d)).

(** [router.get('/projects/:projectId/files', ...)] of files.js. *)
Definition list_files (uid projectId : N) : M (reply (list (N * File.t))) :=
  try_catch
    (d ← get_db;
     match project_findFirst d projectId uid with
     | None => mret (refused 404 "Project not found")
     | Some project =>
         mret (granted (merge_sort newer_file_first (files_of_project d projectId)))
     end)
    (λ _, mret (refused 500 "Failed to retrieve files")).

(** The data of the content route: [{ content, filename, mimeType }]. *)
Record FileContent := mkContent {
  fc_content : jsstring;
  fc_filename : jsstring;
  fc_mimeType : jsstring
}.

Inductive remote_event := ContentRequested (openaiFileId : jsstring).

(** [router.get('/:fileId/content', ...)] of files.js.  [fetch] is the
    answer of the Files API to [GET /v1/files/:id/content]: the body, or
    nothing when the call throws.  The route writes nothing; the second
    component lists the requests it sends. *)
Definition get_file_content (fetch : jsstring → option jsstring)
    (uid fileId : N) (d : DB) : reply FileContent * list remote_event :=
  match file_findFirst d fileId uid with
  | None => (refused 404 "File not found", [])
  | Some file =>
      match File.openaiFileId file with
      | Some x =>
          if truthy (JStr x) then
            match fetch x with
            | Some body =>
                (granted (mkContent body (File.originalName file) (File.mimeType file)),
                 [ContentRequested x])
            | None => (refused 500 "Failed to retrieve file content",
                       [ContentRequested x])
            end
          else (refused 400 "File not processed yet", [])
      | None => (refused 400 "File not processed yet", [])
      end
  end.

End ReadRoutes.

(** ** More sample inputs *)

Module Demo2.

Definition project_a : Project.t :=
  Project.mk 7 (str "bot") (Some (str "a helper")) (str "Be kind.") 0.
Definition project_b : Project.t :=
  Project.mk 8 (str "other") None (str "Be brief.") 1.

Definition file_a : File.t :=
  File.mk 1 (str "files-0.pdf") (str "a.pdf") (str "application/pdf") 10
    (Some (str "file-a")) Processed None 2.
Definition file_b : File.t :=
  File.mk 2 (str "files-1.txt") (str "b.txt") (str "text/plain") 20
    (Some (str "file-b")) Processed None 3.
Definition file_c : File.t :=
  File.mk 1 (str "files-2.md") (str "c.md") (str "text/markdown") 30
    None Errored (Some (str "Failed to upload to OpenAI")) 4.

(** Two users, one project each; two files of user 7, one of user 8. *)
Definition db_files : DB :=
  mkDB {[ 1 := project_a; 2 := project_b ]}
       {[ 1 := Chat.mk 1 (str "first chat") 1 ]}
       ∅
       {[ 1 := file_a; 2 := file_b; 3 := file_c ]}
       5 [].

End Demo2.

(** ** Reading an update of a project *)

Module ProjectRun.

(** A field of the update body that is a string or is missing. *)
Definition text_or_missing (v : jsval) : Prop :=
  match v with
  | JUndefined | JNull | JStr _ => True
  | _ => False
  end.

(** The text an update leaves in a required column: the text given when
    it is not empty, the stored one otherwise. *)
Definition text_after (given : jsval) (stored : jsstring) : jsstring :=
  match given with
  | JStr (c :: s) => c :: s
  | _ => stored
  end.

(** The description an update leaves: the stored one when the field is
    absent, none when it is null, the text given otherwise. *)
Definition description_after (given : jsval) (stored : option jsstring)
  : option jsstring :=
  match given with
  | JUndefined => stored
  | JStr s => Some s
  | _ => None
  end.

Definition updated_row (body : gmap string jsval) (old : Project.t) : Project.t :=
  Project.mk (Project.userId old)
    (text_after (field body "name") (Project.name old))
    (description_after (field body "description") (Project.description old))
    (text_after (field body "systemPrompt") (Project.systemPrompt old))
    (Project.createdAt old).

(** The user a request of the server is made by. *)
Definition requester (r : Server.request) : N :=
  match r with
  | Server.CreateProject uid _ | Server.GetProject uid _
  | Server.UpdateProject uid _ _ | Server.DeleteProject uid _
  | Server.CreateChat uid _ _ | Server.SendMessage uid _ _
  | Server.UploadFiles uid _ _ | Server.DeleteFile uid _ => uid
  end.

End ProjectRun.

(** ** Reading the file filter *)

Module FileRun.
Import FileRoutes.

(** The parts multer takes as files: those that carry a file name. *)
Definition named (p : Part) : Prop := originalname p ≠ [].

#[global] Instance named_dec p : Decision (named p).
Proof. unfold named. apply _. Defined.

Definition files_in (parts : list Part) : list Part := filter named parts.

(** A row holds what its stored file came with. *)
Definition row_of (projectId : N) (r : N * File.t) (file : Stored) : Prop :=
  File.projectId r.2 = projectId
  ∧ File.filename r.2 = filename file
  ∧ File.originalName r.2 = originalname (part file)
  ∧ File.mimeType r.2 = mimetype (part file)
  ∧ File.size r.2 = size (part file).

(** Each allowed extension is a dot and a plain lower-case suffix. *)
Definition plain_extension (e : jsstring) : bool :=
  match e with
  | c :: ext =>
      (c =? dot) && negb (bool_decide (ext = []))
      && forallb (λ u, negb (u =? slash) && negb (u =? dot)) ext
      && bool_decide (toLowerCase e = e)
  | [] => false
  end.

End FileRun.

(** ** What belongs to a user *)

Module Tenancy.

(** The project is a project of [owner]. *)
Definition project_of (d : DB) (owner pid : N) : Prop :=
  ∃ p, projects d !! pid = Some p ∧ Project.userId p = owner.

(** Every row that [d] holds under a project of [owner] (the project
    itself, its chats, its files, the messages of its chats) is in [d']
    as it was. *)
Definition untouched (owner : N) (d d' : DB) : Prop :=
  (∀ pid p, projects d !! pid = Some p → Project.userId p = owner →
            projects d' !! pid = Some p)
  ∧ (∀ cid c, chats d !! cid = Some c →
              project_of d owner (Chat.projectId c) →
              chats d' !! cid = Some c)
  ∧ (∀ fid f, files d !! fid = Some f →
              project_of d owner (File.projectId f) →
              files d' !! fid = Some f)
  ∧ (∀ mid m c, messages d !! mid = Some m →
                chats d !! Message.chatId m = Some c →
                project_of d owner (Chat.projectId c) →
                messages d' !! mid = Some m).

(** No table of [d'] misses or changes a row of [d]. *)
Definition grown (d d' : DB) : Prop :=
  projects d ⊆ projects d' ∧ chats d ⊆ chats d'
  ∧ files d ⊆ files d' ∧ messages d ⊆ messages d'.

End Tenancy.

Module Demo3.

(** The store after user 7 has created a project, opened a chat in it
    and sent a first message while both backends were down. *)
Definition db_with_chat : DB :=
  db (Server.handle Demo.env_down (Server.CreateChat 7 0 ∅)
        (mkState Demo.db_one_project [])).2.

Definition db_chatted : DB :=
  db (Server.handle Demo.env_down (Server.SendMessage 7 0 Demo.hello_body)
        (mkState db_with_chat [])).2.

End Demo3.

(** * The client: src/lib/api.ts and the forms that call it *)

Module Client.

(** ** src/lib/api.ts: the request bodies

    axios serialises the body with [JSON.stringify], which leaves out a
    property whose value is [undefined]. *)

Definition with_optional (k : string) (v : option jsstring)
    (body : gmap string jsval) : gmap string jsval :=
  match v with
  | Some s => <[k := JStr s]> body
  | None => body
  end.

(** [projectsAPI.createProject(projectData)]. *)
Definition createProject_body (name : jsstring) (description : option jsstring)
    (systemPrompt : jsstring) : gmap string jsval :=
  with_optional "description" description
    {[ "name" := JStr name; "systemPrompt" := JStr systemPrompt ]}.

(** [projectsAPI.updateProject(projectId, updates)]. *)
Definition updateProject_body (name description systemPrompt : option jsstring)
  : gmap string jsval :=
  with_optional "name" name
    (with_optional "description" description
       (with_optional "systemPrompt" systemPrompt ∅)).

(** [chatAPI.sendMessage(chatId, content)]: the body is [{ content }]. *)
Definition sendMessage_body (content : jsstring) : gmap string jsval :=
  {[ "content" := JStr content ]}.

(** [s || undefined]. *)
Definition or_undefined (s : jsstring) : option jsstring :=
  if truthy (JStr s) then Some s else None.

(** ** CreateProjectModal.tsx and EditProjectModal.tsx *)

Record ProjectForm := mkProjectForm {
  form_name : jsstring;
  form_description : jsstring;
  form_systemPrompt : jsstring
}.

(** The [newErrors] record of [handleSubmit], the same in both forms. *)
Definition project_form_errors (formData : ProjectForm) : gmap string jsstring :=
  let newErrors : gmap string jsstring := ∅ in
  let newErrors :=
    if negb (truthy (JStr (trim (form_name formData))))
    then <["name" := str "Project name is required"]> newErrors
    else newErrors in
  let newErrors :=
    if negb (truthy (JStr (trim (form_systemPrompt formData))))
    then <["systemPrompt" := str "System prompt is required"]> newErrors
    else newErrors in
  newErrors.

(** [handleSubmit] of the create form: the errors shown, or the body of
    the request that [onCreateProject] sends. *)
Definition create_submit (formData : ProjectForm)
  : gmap string jsstring + gmap string jsval :=
  let newErrors := project_form_errors formData in
  if bool_decide (0 < size newErrors)%nat then inl newErrors
  else inr (createProject_body (trim (form_name formData))
              (or_undefined (trim (form_description formData)))
              (trim (form_systemPrompt formData))).

(** [handleSubmit] of the edit form. *)
Definition edit_submit (formData : ProjectForm)
  : gmap string jsstring + gmap string jsval :=
  let newErrors := project_form_errors formData in
  if bool_decide (0 < size newErrors)%nat then inl newErrors
  else inr (updateProject_body (Some (trim (form_name formData)))
              (or_undefined (trim (form_description formData)))
              (Some (trim (form_systemPrompt formData)))).

(** ** ChatInterface.tsx *)

(** [selectedFiles.map(f => f.openaiFileId).filter(Boolean)], or
    [undefined] when no file is selected. *)
Definition selected_ids (selectedFiles : list (option jsstring))
  : option (list jsstring) :=
  if bool_decide (0 < length selectedFiles)%nat
  then Some (omap (λ o, o ≫= or_undefined) selectedFiles)
  else None.

(** [handleSendMessage]: nothing is sent for a blank input, without a
    chat, or while a send is under way; otherwise the trimmed input goes
    to [chatAPI.sendMessage].  The call passes the selected ids as a third
    argument, for which [chatAPI.sendMessage] has no parameter. *)
Definition handleSendMessage (inputMessage : jsstring) (currentChat : option N)
    (isLoading : bool) (selectedFiles : list (option jsstring))
  : option (N * gmap string jsval) :=
  match currentChat with
  | Some chatId =>
      if negb (truthy (JStr (trim inputMessage))) || isLoading then None
      else
        let messageContent := trim inputMessage in
        let third_argument := selected_ids selectedFiles in
        Some (chatId, sendMessage_body messageContent)
  | None => None
  end.

(** ** RegisterForm.tsx *)

Record RegisterFields := mkRegister {
  reg_name : jsstring;
  reg_email : jsstring;
  reg_password : jsstring;
  reg_confirmPassword : jsstring
}.

(** The [newErrors] record of [handleSubmit]. *)
Definition register_errors (f : RegisterFields) : gmap string jsstring :=
  let newErrors : gmap string jsstring := ∅ in
  let newErrors :=
    if negb (truthy (JStr (reg_name f)))
    then <["name" := str "Name is required"]> newErrors else newErrors in
  let newErrors :=
    if negb (truthy (JStr (reg_email f)))
    then <["email" := str "Email is required"]> newErrors else newErrors in
  let newErrors :=
    if negb (truthy (JStr (reg_password f)))
    then <["password" := str "Password is required"]> newErrors else newErrors in
  let newErrors :=
    if negb (truthy (JStr (reg_confirmPassword f)))
    then <["confirmPassword" := str "Confirm Password is required"]> newErrors
    else newErrors in
  let newErrors :=
    if truthy (JStr (reg_password f))
       && bool_decide (length (reg_password f) < 6)%nat
    then <["password" := str "Password must be at least 6 characters long"]> newErrors
    else newErrors in
  let newErrors :=
    if truthy (JStr (reg_password f)) && truthy (JStr (reg_confirmPassword f))
       && negb (bool_decide (reg_password f = reg_confirmPassword f))
    then <["confirmPassword" := str "Passwords do not match"]> newErrors
    else newErrors in
  newErrors.

(** [handleSubmit]: the errors shown, or the arguments of [register]. *)
Definition register_submit (f : RegisterFields)
  : gmap string jsstring + (jsstring * jsstring * jsstring) :=
  let newErrors := register_errors f in
  if bool_decide (0 < size newErrors)%nat then inl newErrors
  else inr (reg_email f, reg_password f, reg_name f).

(** ** AuthContext.tsx *)

Record AuthState (U : Type) := mkAuth {
  user : option U;
  token : option jsstring;
  isLoading : bool;
  isAuthenticated : bool
}.
Arguments mkAuth {U} _ _ _ _.
Arguments user {U} _.
Arguments token {U} _.
Arguments isLoading {U} _.
Arguments isAuthenticated {U} _.

Inductive AuthAction (U : Type) :=
| SET_LOADING (payload : bool)
| SET_USER (payload_user : U) (payload_token : jsstring)
| CLEAR_USER.
Arguments SET_LOADING {U} _.
Arguments SET_USER {U} _ _.
Arguments CLEAR_USER {U}.

Definition authReducer {U} (state : AuthState U) (action : AuthAction U)
  : AuthState U :=
  match action with
  | SET_LOADING payload =>
      mkAuth (user state) (token state) payload (isAuthenticated state)
  | SET_USER u t => mkAuth (Some u) (Some t) false true
  | CLEAR_USER => mkAuth None None false false
  end.

Definition initialState {U} : AuthState U := mkAuth None None true false.

(** ** The token in [localStorage]: AuthContext.tsx and the interceptors
    of api.ts *)








End Client.

(** * Dashboard.tsx: the project list the client keeps *)

Module DashboardView.
Import ProjectRoutes ReadRoutes.







Inductive action :=
| Create (projectData : gmap string jsval)
| Update (projectId : N) (updates : gmap string jsval)
| Delete (projectId : N) (confirmed : bool).



End DashboardView.

(** * FileList.tsx: the selection of files *)

Module FileSelection.

(** [handleFileSelect] on a selectable list: the new selection handed to
    [onFileSelect].  A file is its id and the rest of its fields. *)
Definition handleFileSelect {F} (selectedFiles : list (N * F)) (file : N * F)
  : list (N * F) :=
  let isSelected := bool_decide (Exists (λ f, f.1 = file.1) selectedFiles) in
  if isSelected
  then filter (λ f, f.1 ≠ file.1) selectedFiles
  else selectedFiles ++ [file].

End FileSelection.
(** * Running the monad *)

Section MonadFacts.
Context {A B : Type}.

Lemma run_bind (m : M A) (f : A → M B) st :
  (m ≫= f) st =
  match m st with
  | (Ret a, st') => f a st'
  | (Throw e, st') => (Throw e, st')
  end.
Proof. reflexivity. Qed.
End MonadFacts.

(** Runs the next steps of a computation whose head is known. *)
Ltac run_steps :=
  repeat first
    [ rewrite run_bind
    | progress unfold get_db, put_db, emit, throw, M_ret
    | progress change (@mret M _) with M_ret
    | progress cbv beta iota
    | progress cbn [db trace fst snd] ].

(** New keys are new. *)
Lemma new_id_fresh {V} (t : gmap N V) : t !! new_id t = None.
Proof. apply not_elem_of_dom, is_fresh. Qed.

Lemma message_create_run cid r content st :
  message_create cid r (JStr content) st =
  let d := db st in
  let id := new_id (messages d) in
  let row := Message.mk cid r content (clock d) in
  (Ret (id, row),
   mkState (tick (set_messages d (<[id := row]> (messages d))))
           (trace st ++ [MessageCreated id row])).
Proof. reflexivity. Qed.

Import ChatRoutes ChatRun.

(** A content that is not text is refused before anything is written. *)
Lemma message_create_refused cid r v st :
  text_of v = None → ∃ e, message_create cid r v st = (Throw e, st).
Proof. destruct v; try done; intros _; eexists; reflexivity. Qed.

Lemma text_of_Some v s : text_of v = Some s ↔ v = JStr s.
Proof. destruct v; cbn; split; congruence. Qed.

Lemma try_services_run env msgs services st :
  try_services env msgs services st =
  (match first_reply env msgs services with
   | Some r => Ret r
   | None => Throw (str "All LLM services are currently unavailable")
   end,
   mkState (db st)
           (trace st ++ attempts_as_events msgs (attempted env msgs services))).
Proof.
  revert st. induction services as [|s rest IH]; intros [d tr]; simpl.
  - unfold throw. by rewrite app_nil_r.
  - rewrite run_bind. unfold emit at 1. simpl.
    destruct (llm env s msgs) as [content usage|]; simpl.
    + reflexivity.
    + rewrite IH. simpl. by rewrite <- app_assoc.
Qed.

Lemma attempted_prefix env msgs services :
  attempted env msgs services `prefix_of` services.
Proof.
  induction services as [|s rest IH]; simpl; [done|].
  destruct (llm env s msgs).
  - exists rest. reflexivity.
  - by apply prefix_cons.
Qed.

Lemma attempted_all_when_none_replies env msgs services :
  first_reply env msgs services = None → attempted env msgs services = services.
Proof.
  induction services as [|s rest IH]; simpl; [done|].
  destruct (llm env s msgs); [done|]. intros H. by rewrite IH.
Qed.

Lemma first_reply_none env msgs services :
  (∀ s, s ∈ services → llm env s msgs = LlmFailure) →
  first_reply env msgs services = None.
Proof.
  induction services as [|s rest IH]; simpl; [done|]. intros H.
  rewrite (H s) by left. apply IH. intros s' Hs'. apply H. by right.
Qed.

(** The reply the loop returns is the answer of the last service it
    asked. *)
Lemma first_reply_last env msgs services r :
  first_reply env msgs services = Some r →
  ∃ svc usage,
    last (attempted env msgs services) = Some svc
    ∧ llm env svc msgs = LlmReply (ai_content r) usage.
Proof.
  induction services as [|s rest IH]; simpl; [done|].
  destruct (llm env s msgs) as [content usage|] eqn:Hllm.
  - intros [= <-]. exists s, usage. by split.
  - intros Hr. destruct (IH Hr) as (svc & usage & Hlast & Hsvc).
    exists svc, usage. split; [|done].
    destruct (attempted env msgs rest); [done|]. by rewrite last_cons, Hlast.
Qed.


Lemma file_context_run fileIds uid st :
  file_context fileIds uid st = (Ret (file_context_of (db st) fileIds uid), st).
Proof.
  destruct st as [d tr]. unfold file_context_of, file_context.
  destruct fileIds as [| | | |[|c s]|[|x rest]| |v]; try reflexivity.
  unfold try_catch, file_findMany_in.
  rewrite !run_bind. unfold get_db. cbn [db].
  destruct (mapM id (x :: rest)) as [ids|]; [|reflexivity].
  unfold mret, M_ret. by case_bool_decide.
Qed.

Lemma file_context_of_messages d t fileIds uid :
  file_context_of (tick (set_messages d t)) fileIds uid = file_context_of d fileIds uid.
Proof.
  destruct fileIds as [| | | |[|c s]|[|x rest]| |v]; try reflexivity.
  unfold file_context_of, file_context, try_catch, file_findMany_in.
  rewrite !run_bind. unfold get_db. cbn [db].
  unfold owned_by, tick, set_messages. cbn [files projects].
  destruct (mapM id (x :: rest)) as [ids|]; [|reflexivity].
  unfold mret, M_ret. by case_bool_decide.
Qed.

(** An accepted request up to the point where the assistant row is to be
    written: the user row is stored and the backends have been asked. *)
Lemma send_message_body_steps env uid chatId content fileIds d tr chat project recent :
  chat_findFirst d chatId uid = Some (chat, project, recent) →
  send_message_body env uid chatId content fileIds (mkState d tr) =
  (assistantMessage ← message_create chatId Assistant
       (ai_content (sent_result env uid content fileIds d project recent));
   mret (mkResponse 200 true None
           (SendData (user_id d, user_row chatId content d) assistantMessage
              (ai_service (sent_result env uid content fileIds d project recent))
              (ai_usage (sent_result env uid content fileIds d project recent)))))
    (mkState (db_after_user chatId content d)
       (tr ++ MessageCreated (user_id d) (user_row chatId content d)
           :: sent_attempts env uid content fileIds d project recent)).
Proof.
  intros Hchat.
  unfold sent_attempts, sent_result, sent_history, db_after_user, user_row,
    user_id, send_message_body.
  rewrite run_bind. unfold get_db at 1. cbn [db]. rewrite Hchat.
  rewrite run_bind, message_create_run. cbn zeta. cbn [db trace].
  rewrite run_bind, file_context_run. cbn [db].
  rewrite file_context_of_messages.
  rewrite run_bind. unfold try_catch, getAIResponse.
  rewrite try_services_run. cbn [db trace].
  rewrite <- app_assoc. cbn [app].
  by destruct (first_reply env _ _) as [r|]; cbn [default].
Qed.

(** The content of the result is text: the assistant row is written and
    the request answered. *)
Lemma send_message_body_run env uid chatId content fileIds d tr chat project recent :
  chat_findFirst d chatId uid = Some (chat, project, recent) →
  is_Some (text_of (ai_content (sent_result env uid content fileIds d project recent))) →
  send_message_body env uid chatId content fileIds (mkState d tr) =
  (Ret (mkResponse 200 true None
          (SendData (user_id d, user_row chatId content d)
                    (assistant_id chatId content d,
                     assistant_row env uid chatId content fileIds d project recent)
                    (ai_service (sent_result env uid content fileIds d project recent))
                    (ai_usage (sent_result env uid content fileIds d project recent)))),
   mkState (db_after_send env uid chatId content fileIds d project recent)
           (tr ++ MessageCreated (user_id d) (user_row chatId content d)
               :: sent_attempts env uid content fileIds d project recent
               ++ [MessageCreated (assistant_id chatId content d)
                     (assistant_row env uid chatId content fileIds d project recent)])).
Proof.
  intros Hchat [text Htext].
  rewrite (send_message_body_steps _ _ _ _ _ _ _ chat project recent) by done.
  unfold db_after_send, assistant_row, assistant_id. rewrite Htext.
  apply text_of_Some in Htext. rewrite Htext.
  rewrite run_bind, message_create_run. cbn zeta. cbn [db trace default].
  unfold mret, M_ret. by rewrite <- app_assoc.
Qed.

(** The content of the result is not text: the insert of the assistant
    row throws, with the user row stored and the backends asked. *)
Lemma send_message_body_crash env uid chatId content fileIds d tr chat project recent :
  chat_findFirst d chatId uid = Some (chat, project, recent) →
  text_of (ai_content (sent_result env uid content fileIds d project recent)) = None →
  ∃ e,
    send_message_body env uid chatId content fileIds (mkState d tr) =
    (Throw e,
     mkState (db_after_user chatId content d)
       (tr ++ MessageCreated (user_id d) (user_row chatId content d)
           :: sent_attempts env uid content fileIds d project recent)).
Proof.
  intros Hchat Htext.
  rewrite (send_message_body_steps _ _ _ _ _ _ _ chat project recent) by done.
  rewrite run_bind.
  destruct (message_create_refused chatId Assistant _
              (mkState (db_after_user chatId content d)
                 (tr ++ MessageCreated (user_id d) (user_row chatId content d)
                     :: sent_attempts env uid content fileIds d project recent))
              Htext) as [e ->].
  by exists e.
Qed.

(** When no service replies, the result is the canned reply, which is
    text. *)
Lemma sent_result_fallback env uid content fileIds d project recent :
  first_reply env (sent_history uid content fileIds d project recent)
    (service_order env JNull) = None →
  sent_result env uid content fileIds d project recent
  = fallback_result env project content.
Proof. intros H. unfold sent_result. by rewrite H. Qed.

Lemma fallback_is_text env project content :
  is_Some (text_of (ai_content (fallback_result env project content))).
Proof. unfold fallback_result. cbn. eauto. Qed.


(** * The send-message route *)

Lemma trim_nonempty s : trim s ≠ [] → s ≠ [].
Proof. by intros H ->. Qed.

Lemma send_message_accepted env uid chatId body s st :
  field body "content" = JStr s → trim s ≠ [] →
  send_message env uid chatId body st =
  try_catch (send_message_body env uid chatId s (field body "fileIds"))
            (λ _, mret (failure 500 "Internal server error")) st.
Proof.
  intros Hc Ht. unfold send_message. rewrite Hc. cbn [truthy].
  rewrite !bool_decide_eq_false_2 by eauto using trim_nonempty.
  reflexivity.
Qed.

Lemma send_message_body_not_found env uid chatId s fileIds st :
  chat_findFirst (db st) chatId uid = None →
  send_message_body env uid chatId s fileIds st =
  (Ret (failure 404 "Chat not found"), st).
Proof.
  intros H. unfold send_message_body. rewrite run_bind. unfold get_db at 1.
  rewrite H. reflexivity.
Qed.

(** An accepted request whose result is text. *)
Lemma send_message_run env uid chatId body s d tr chat project recent :
  field body "content" = JStr s → trim s ≠ [] →
  chat_findFirst d chatId uid = Some (chat, project, recent) →
  is_Some (text_of (ai_content
             (sent_result env uid s (field body "fileIds") d project recent))) →
  send_message env uid chatId body (mkState d tr) =
  send_message_body env uid chatId s (field body "fileIds") (mkState d tr).
Proof.
  intros Hc Ht Hf Htext.
  rewrite (send_message_accepted _ _ _ _ s) by done. unfold try_catch.
  by rewrite (send_message_body_run _ _ _ _ _ _ _ chat project recent).
Qed.

(** An accepted request whose result is not text: the route answers 500
    and keeps what it had done. *)
Lemma send_message_crash env uid chatId body s d tr chat project recent :
  field body "content" = JStr s → trim s ≠ [] →
  chat_findFirst d chatId uid = Some (chat, project, recent) →
  text_of (ai_content
             (sent_result env uid s (field body "fileIds") d project recent)) = None →
  send_message env uid chatId body (mkState d tr) =
  (Ret (failure 500 "Internal server error"),
   mkState (db_after_user chatId s d)
     (tr ++ MessageCreated (user_id d) (user_row chatId s d)
         :: sent_attempts env uid s (field body "fileIds") d project recent)).
Proof.
  intros Hc Ht Hf Htext.
  rewrite (send_message_accepted _ _ _ _ s) by done. unfold try_catch.
  destruct (send_message_body_crash env uid chatId s (field body "fileIds")
              d tr chat project recent Hf Htext) as [e ->].
  reflexivity.
Qed.

(** Every request falls in one of four cases: rejected as invalid,
    crashed on a [content] that is not text, chat not found, or accepted
    and carried out. *)
Lemma send_message_cases env uid chatId body d tr :
  let result := send_message env uid chatId body (mkState d tr) in
  result = (Ret (failure 400 "Message content is required"), mkState d tr)
  ∨ result = (Ret (failure 500 "Internal server error"), mkState d tr)
  ∨ result = (Ret (failure 404 "Chat not found"), mkState d tr)
  ∨ ∃ s chat project recent,
      field body "content" = JStr s ∧ trim s ≠ []
      ∧ chat_findFirst d chatId uid = Some (chat, project, recent).
Proof.
  cbn zeta. destruct (field body "content") as [| |b|z|s|items| |v] eqn:Hc.
  1-4,6-8: unfold send_message; rewrite Hc; cbn [truthy];
    try (left; reflexivity);
    try (destruct b; [right; left | left]; reflexivity);
    try (destruct (z =? 0)%Z; [left | right; left]; reflexivity);
    try (right; left; reflexivity).
  destruct (decide (trim s = [])) as [Ht|Ht].
  - left. unfold send_message. rewrite Hc, Ht.
    change (truthy (JStr [])) with false.
    by rewrite orb_true_r.
  - rewrite (send_message_accepted _ _ _ _ s) by done.
    destruct (chat_findFirst d chatId uid) as [[[chat project] recent]|] eqn:Hf.
    + right; right; right. by exists s, chat, project, recent.
    + right; right; left. unfold try_catch.
      by rewrite send_message_body_not_found.
Qed.

Lemma user_key_is_new chatId s d :
  messages d !! user_id d = None
  ∧ messages d !! assistant_id chatId s d = None
  ∧ user_id d ≠ assistant_id chatId s d.
Proof.
  pose proof (new_id_fresh (messages (db_after_user chatId s d))) as Hfresh.
  change (messages (db_after_user chatId s d))
    with (<[user_id d := user_row chatId s d]> (messages d)) in Hfresh.
  fold (assistant_id chatId s d) in Hfresh.
  apply lookup_insert_None in Hfresh as [Hfresh Hne].
  split; [apply new_id_fresh|]. by split.
Qed.

Lemma clock_after_user chatId s d : clock d ≤ clock (db_after_user chatId s d).
Proof. unfold db_after_user, tick. cbn [clock set_messages]. lia. Qed.

(** C1, on the code.  An accepted send-message request first persists
    one user-role row under a new key, then asks backends and does
    nothing else until it has a result: the first reply, or the canned
    reply when no service replies.  When the content of that result is
    text, the request then persists one assistant-role row under another
    new key, and these two rows are all it adds; the trace is the
    user-row write, then only backend requests, then the assistant-row
    write.  When a service replies with a content that is not text
    ([null], say), the route writes no assistant row: it answers 500 and
    the user row stays, so the request has added one row, not two. *)
Theorem send_message_writes_user_then_assistant
    env uid chatId body s d tr chat project recent :
  field body "content" = JStr s →
  trim s ≠ [] →
  chat_findFirst d chatId uid = Some (chat, project, recent) →
  ∃ ukey urow requests,
    Forall (λ e, ∃ svc msgs, e = LlmAttempt svc msgs) requests
    ∧ Message.role_ urow = User ∧ Message.chatId urow = chatId
    ∧ Message.content urow = trim s
    ∧ messages d !! ukey = None
    ∧ match text_of (ai_content
               (sent_result env uid s (field body "fileIds") d project recent)) with
      | Some text =>
          ∃ d' akey arow label usage,
            send_message env uid chatId body (mkState d tr) =
              (Ret (mkResponse 200 true None
                      (SendData (ukey, urow) (akey, arow) label usage)),
               mkState d' (tr ++ MessageCreated ukey urow :: requests
                              ++ [MessageCreated akey arow]))
            ∧ Message.role_ arow = Assistant ∧ Message.chatId arow = chatId
            ∧ Message.content arow = text
            ∧ messages d !! akey = None ∧ ukey ≠ akey
            ∧ messages d' = <[akey := arow]> (<[ukey := urow]> (messages d))
            ∧ base.size (messages d') = S (S (base.size (messages d)))
            ∧ (Message.timestamp urow ≤ Message.timestamp arow)%N
            ∧ projects d' = projects d ∧ chats d' = chats d ∧ files d' = files d
      | None =>
          ∃ d' svc content usage,
            send_message env uid chatId body (mkState d tr) =
              (Ret (failure 500 "Internal server error"),
               mkState d' (tr ++ MessageCreated ukey urow :: requests))
            ∧ last requests
              = Some (LlmAttempt svc
                        (sent_history uid s (field body "fileIds") d project recent))
            ∧ llm env svc (sent_history uid s (field body "fileIds") d project recent)
              = LlmReply content usage
            ∧ text_of content = None
            ∧ messages d' = <[ukey := urow]> (messages d)
            ∧ base.size (messages d') = S (base.size (messages d))
            ∧ projects d' = projects d ∧ chats d' = chats d ∧ files d' = files d
      end.
Proof.
  intros Hc Ht Hf.
  set (fileIds := field body "fileIds").
  destruct (user_key_is_new chatId s d) as (Hu & Ha & Hne).
  exists (user_id d), (user_row chatId s d),
    (sent_attempts env uid s fileIds d project recent).
  split.
  { unfold sent_attempts, attempts_as_events. apply Forall_fmap, Forall_true.
    intros svc. simpl. eauto. }
  do 4 (split; [done|]).
  destruct (text_of (ai_content (sent_result env uid s fileIds d project recent)))
    as [text|] eqn:Htext.
  - eexists (db_after_send env uid chatId s fileIds d project recent),
      (assistant_id chatId s d),
      (assistant_row env uid chatId s fileIds d project recent), _, _.
    split.
    { rewrite (send_message_run _ _ _ _ s _ _ chat project recent) by eauto.
      apply (send_message_body_run _ _ _ _ _ _ _ chat project recent); eauto. }
    split; [done|]. split; [done|].
    split. { unfold assistant_row. cbn [Message.content]. fold fileIds. by rewrite Htext. }
    split; [done|]. split; [done|]. split; [done|].
    split.
    { change (messages (db_after_send env uid chatId s fileIds d project recent))
        with (<[assistant_id chatId s d :=
                  assistant_row env uid chatId s fileIds d project recent]>
                (<[user_id d := user_row chatId s d]> (messages d))).
      rewrite !map_size_insert_None; [done | done |].
      by apply lookup_insert_None. }
    split; [apply clock_after_user|done].
  - assert (∃ r, first_reply env (sent_history uid s fileIds d project recent)
                   (service_order env JNull) = Some r
                 ∧ text_of (ai_content r) = None) as (r & Hr & Hrt).
    { unfold sent_result in Htext.
      destruct (first_reply env _ _) as [r|]; [by exists r|].
      cbn [default] in Htext.
      destruct (fallback_is_text env project s) as [? Hfb]. congruence. }
    destruct (first_reply_last env _ _ r Hr) as (svc & usage & Hlast & Hllm).
    exists (db_after_user chatId s d), svc, (ai_content r), usage.
    split.
    { by apply (send_message_crash _ _ _ _ s _ _ chat project recent). }
    split.
    { unfold sent_attempts, attempts_as_events. rewrite fmap_last, Hlast. done. }
    split; [done|]. split; [done|]. split; [done|].
    split; [|done].
    change (messages (db_after_user chatId s d))
      with (<[user_id d := user_row chatId s d]> (messages d)).
    by rewrite map_size_insert_None.
Qed.

(** The witness: the sample chat, once with both backends down, once with
    an OpenAI that answers 200 with a [null] content. *)
Lemma send_message_writes_user_then_assistant_witness :
  (∃ ukey urow requests d' akey arow label usage,
     send_message Demo.env_down 7 1 Demo.hello_body (mkState Demo.db1 []) =
       (Ret (mkResponse 200 true None
               (SendData (ukey, urow) (akey, arow) label usage)),
        mkState d' ([] ++ MessageCreated ukey urow :: requests
                       ++ [MessageCreated akey arow]))
     ∧ base.size (messages d') = S (S (base.size (messages Demo.db1))))
  ∧ (∃ ukey urow requests d',
       send_message (Demo.env_with (LlmReply JNull None) LlmFailure) 7 1
         Demo.hello_body (mkState Demo.db1 []) =
         (Ret (failure 500 "Internal server error"),
          mkState d' ([] ++ MessageCreated ukey urow :: requests))
       ∧ messages d' = <[ukey := urow]> (messages Demo.db1)
       ∧ base.size (messages d') = S (base.size (messages Demo.db1))).
Proof.
  split.
  - destruct (send_message_writes_user_then_assistant
                Demo.env_down 7 1 Demo.hello_body (str " hi ") Demo.db1 []
                (Chat.mk 1 (str "first chat") 1) Demo.project1
                (latest_messages Demo.db1 1))
      as (ukey & urow & requests & _ & _ & _ & _ & _ & H).
    + reflexivity.
    + vm_compute. discriminate.
    + vm_compute. reflexivity.
    + match type of H with
      | match ?x with _ => _ end => destruct x as [text|] eqn:E
      end; [|vm_compute in E; discriminate E].
      destruct H as (d' & akey & arow & label & usage & Hrun & _ & _ & _ & _ & _ & _ & Hsize & _).
      by exists ukey, urow, requests, d', akey, arow, label, usage.
  - destruct (send_message_writes_user_then_assistant
                (Demo.env_with (LlmReply JNull None) LlmFailure)
                7 1 Demo.hello_body (str " hi ") Demo.db1 []
                (Chat.mk 1 (str "first chat") 1) Demo.project1
                (latest_messages Demo.db1 1))
      as (ukey & urow & requests & _ & _ & _ & _ & _ & H).
    + reflexivity.
    + vm_compute. discriminate.
    + vm_compute. reflexivity.
    + match type of H with
      | match ?x with _ => _ end => destruct x as [text|] eqn:E
      end; [vm_compute in E; discriminate E|].
      destruct H as (d' & svc & content & usage & Hrun & _ & _ & _ & Hm & Hsize & _).
      by exists ukey, urow, requests, d'.
Defined.

Lemma chat_findFirst_None d cid uid :
  chat_findFirst d cid uid = None ↔ ¬ chat_owned_by d uid cid.
Proof.
  unfold chat_findFirst, chat_owned_by. split.
  - intros H (c & p & Hc & Hp & Hu). rewrite Hc in H. cbn in H.
    rewrite Hp in H. cbn in H. by rewrite bool_decide_eq_true_2 in H.
  - intros H. destruct (chats d !! cid) as [c|] eqn:Hc; [|done]. cbn.
    destruct (projects d !! Chat.projectId c) as [p|] eqn:Hp; [|done]. cbn.
    case_bool_decide; [|done]. destruct H. eauto.
Qed.

(** C8. A message text that is empty after trimming is answered with the
    validation error; a non-empty text sent to a chat that does not
    resolve to a chat of the user's projects is answered with the
    not-found error; and a request to such a chat, whatever its body, is
    answered with a failure.  In each case the database and the trace are
    left as they were, so no message row is persisted. *)
Theorem send_message_rejections env uid chatId body d tr :
  (∀ s, field body "content" = JStr s → trim s = [] →
     send_message env uid chatId body (mkState d tr) =
     (Ret (failure 400 "Message content is required"), mkState d tr))
  ∧ (∀ s, field body "content" = JStr s → trim s ≠ [] →
       ¬ chat_owned_by d uid chatId →
       send_message env uid chatId body (mkState d tr) =
       (Ret (failure 404 "Chat not found"), mkState d tr))
  ∧ (¬ chat_owned_by d uid chatId →
       ∃ resp, send_message env uid chatId body (mkState d tr) = (Ret resp, mkState d tr)
               ∧ res_success resp = false
               ∧ res_status resp ∈ [400; 404; 500]).
Proof.
  split; [|split].
  - intros s Hc Ht. unfold send_message. rewrite Hc, Ht.
    change (truthy (JStr [])) with false. by rewrite orb_true_r.
  - intros s Hc Ht Hown. apply chat_findFirst_None in Hown.
    rewrite (send_message_accepted _ _ _ _ s) by done. unfold try_catch.
    by rewrite send_message_body_not_found.
  - intros Hown. apply chat_findFirst_None in Hown.
    destruct (send_message_cases env uid chatId body d tr)
      as [H|[H|[H|(s & chat & project & recent & _ & _ & Hf)]]];
      try (eexists; split; [exact H|]; split; [reflexivity|]; set_solver).
    congruence.
Qed.

(** The witness: a blank text on the user's own chat, a proper text on a
    stranger's chat, and a blank text on a stranger's chat. *)
Lemma send_message_rejections_witness :
  send_message Demo.env_down 7 1 Demo.blank_body (mkState Demo.db1 []) =
    (Ret (failure 400 "Message content is required"), mkState Demo.db1 [])
  ∧ send_message Demo.env_down 8 1 Demo.hello_body (mkState Demo.db1 []) =
      (Ret (failure 404 "Chat not found"), mkState Demo.db1 [])
  ∧ ∃ resp, send_message Demo.env_down 8 1 Demo.blank_body (mkState Demo.db1 []) =
              (Ret resp, mkState Demo.db1 [])
            ∧ res_success resp = false ∧ res_status resp ∈ [400; 404; 500].
Proof.
  assert (¬ chat_owned_by Demo.db1 8 1) as Hstranger.
  { apply chat_findFirst_None. vm_compute. reflexivity. }
  split; [|split].
  - apply (proj1 (send_message_rejections Demo.env_down 7 1 Demo.blank_body Demo.db1 [])
             (str "   ")); vm_compute; reflexivity.
  - apply (proj1 (proj2 (send_message_rejections Demo.env_down 8 1 Demo.hello_body Demo.db1 []))
             (str " hi ")); [reflexivity | vm_compute; discriminate | exact Hstranger].
  - apply (proj2 (proj2 (send_message_rejections Demo.env_down 8 1 Demo.blank_body Demo.db1 []))).
    exact Hstranger.
Defined.

(** * The backend selector *)


Lemma no_hint env p :
  p ≠ JStr (LLM_SERVICES OPENAI) → p ≠ JStr (LLM_SERVICES OPENROUTER) →
  hinted env p = None.
Proof.
  intros Hai Hor. unfold hinted.
  rewrite filter_cons, decide_False by (intros [? ?]; done).
  rewrite filter_cons, decide_False by (intros [? ?]; done).
  reflexivity.
Qed.

Lemma service_order_is_spec_order env p : service_order env p = spec_order env p.
Proof.
  destruct (decide (p = JStr (LLM_SERVICES OPENAI))) as [->|Hai];
    [|destruct (decide (p = JStr (LLM_SERVICES OPENROUTER))) as [->|Hor]].
  - destruct env as [[[|c1 k1]|] [[|c2 k2]|] ? ? ? ?]; vm_compute; reflexivity.
  - destruct env as [[[|c1 k1]|] [[|c2 k2]|] ? ? ? ?]; vm_compute; reflexivity.
  - unfold spec_order. rewrite no_hint by done. unfold service_order.
    rewrite (bool_decide_eq_false_2 (p = JStr (LLM_SERVICES OPENAI))) by done.
    rewrite (bool_decide_eq_false_2 (p = JStr (LLM_SERVICES OPENROUTER))) by done.
    destruct env as [[[|c1 k1]|] [[|c2 k2]|] ? ? ? ?]; vm_compute; reflexivity.
Qed.


Lemma spec_order_configured env p s :
  s ∈ spec_order env p → configured (api_key env s) = true.
Proof.
  unfold spec_order, hinted.
  destruct (head _) as [h|] eqn:Hh.
  - intros [->|Hin]%elem_of_cons.
    + apply head_Some_elem_of, list_elem_of_filter in Hh. tauto.
    + apply list_elem_of_filter in Hin. tauto.
  - intros Hin%list_elem_of_filter. tauto.
Qed.




(** * Total failure of the backends *)

Lemma str_app_nonempty a r (l : jsstring) : str (String a r) ++ l ≠ [].
Proof. discriminate. Qed.

Lemma str_nonempty a r : str (String a r) ≠ [].
Proof. discriminate. Qed.

Lemma index_as_text_nonempty content i :
  index_as_text (responses content) i ≠ [].
Proof.
  unfold index_as_text. destruct (i <? 0)%Z; [apply str_nonempty|].
  unfold responses.
  destruct (Z.to_nat i) as [|[|[|[|n]]]]; cbn [lookup list_lookup default];
    first [apply str_nonempty | apply str_app_nonempty].
Qed.

Lemma fallback_content_nonempty env project content :
  ∃ text, ai_content (fallback_result env project content) = JStr text ∧ text ≠ [].
Proof.
  unfold fallback_result. cbn [ai_content]. eexists. split; [reflexivity|].
  intros H. apply app_eq_nil in H as [H _]. by apply index_as_text_nonempty in H.
Qed.

(** C2, as the code has it.  When every backend whose credential is
    configured fails (also when none is configured), an accepted request
    is still answered with status 200 and success; the assistant row is
    persisted with a non-empty text; the backend label of the metadata is
    the string [Fallback Mode] and the usage is null. *)
Theorem send_message_all_backends_fail
    env uid chatId body s d tr chat project recent :
  field body "content" = JStr s →
  trim s ≠ [] →
  chat_findFirst d chatId uid = Some (chat, project, recent) →
  (∀ svc msgs, configured (api_key env svc) = true → llm env svc msgs = LlmFailure) →
  ∃ urow arow st',
    send_message env uid chatId body (mkState d tr) =
      (Ret (mkResponse 200 true None
              (SendData urow arow (str "Fallback Mode") None)), st')
    ∧ Message.content arow.2 ≠ []
    ∧ Message.role_ arow.2 = Assistant
    ∧ messages (db st') !! arow.1 = Some arow.2.
Proof.
  intros Hc Ht Hf Hdown.
  set (fileIds := field body "fileIds").
  assert (sent_result env uid s fileIds d project recent
          = fallback_result env project s) as Hres.
  { apply sent_result_fallback, first_reply_none.
    intros svc Hin. apply Hdown.
    rewrite service_order_is_spec_order in Hin.
    by apply spec_order_configured in Hin. }
  destruct (fallback_content_nonempty env project s) as (text & Htext & Hne).
  assert (text_of (ai_content (sent_result env uid s fileIds d project recent))
          = Some text) as Hsome.
  { rewrite Hres, Htext. done. }
  rewrite (send_message_run _ _ _ _ s _ _ chat project recent) by eauto.
  rewrite (send_message_body_run _ _ _ _ _ _ _ chat project recent) by eauto.
  fold fileIds.
  eexists _, (_, _), _. rewrite Hres. split; [reflexivity|].
  cbn [fst snd db]. split; [|split; [reflexivity|]].
  - unfold assistant_row. cbn [Message.content]. by rewrite Hsome.
  - unfold db_after_send. cbn [tick set_messages messages].
    apply lookup_insert_eq.
Qed.

Lemma send_message_all_backends_fail_witness :
  ∃ urow arow st',
    send_message Demo.env_down 7 1 Demo.hello_body (mkState Demo.db1 []) =
      (Ret (mkResponse 200 true None
              (SendData urow arow (str "Fallback Mode") None)), st')
    ∧ Message.content arow.2 ≠ []
    ∧ Message.role_ arow.2 = Assistant
    ∧ messages (db st') !! arow.1 = Some arow.2.
Proof.
  eapply (send_message_all_backends_fail
            Demo.env_down 7 1 Demo.hello_body (str " hi ") Demo.db1 []).
  - reflexivity.
  - vm_compute. discriminate.
  - vm_compute. reflexivity.
  - intros svc msgs _. by destruct svc.
Defined.

(** C2, as the specification states it, fails on the label: with both
    backends down, the request is answered with status 200 and the label
    [Fallback Mode], which is not the string [fallback]. *)
Lemma fallback_label_is_not_fallback :
  (∀ svc msgs, llm Demo.env_down svc msgs = LlmFailure)
  ∧ res_status (send_message_response Demo.env_down 7 1 Demo.hello_body Demo.db1) = 200
  ∧ response_label (send_message_response Demo.env_down 7 1 Demo.hello_body Demo.db1)
    = Some (str "Fallback Mode")
  ∧ response_label (send_message_response Demo.env_down 7 1 Demo.hello_body Demo.db1)
    ≠ Some (str "fallback").
Proof.
  split; [by intros []|]. vm_compute. repeat split. discriminate.
Qed.

(** * What the route sends to the backends *)

Lemma attempts_of_events msgs l : attempts_of (attempts_as_events msgs l) = l.
Proof.
  unfold attempts_of, attempts_as_events.
  induction l as [|s l IH]; [done|]. cbn. by rewrite IH.
Qed.

Lemma contexts_of_events msgs l :
  Forall (λ sent, sent = msgs) (contexts_of (attempts_as_events msgs l)).
Proof.
  unfold contexts_of, attempts_as_events.
  induction l as [|s l IH]; [constructor|]. cbn. by constructor.
Qed.

Lemma attempts_of_run u urow events a arow :
  attempts_of (MessageCreated u urow :: events ++ [MessageCreated a arow])
  = attempts_of events.
Proof.
  unfold attempts_of. cbn. rewrite omap_app. cbn. by rewrite app_nil_r.
Qed.

Lemma contexts_of_run u urow events a arow :
  contexts_of (MessageCreated u urow :: events ++ [MessageCreated a arow])
  = contexts_of events.
Proof.
  unfold contexts_of. cbn. rewrite omap_app. cbn. by rewrite app_nil_r.
Qed.

Lemma contexts_of_replicate msgs l :
  contexts_of (attempts_as_events msgs l) = replicate (length l) msgs.
Proof.
  unfold contexts_of, attempts_as_events.
  induction l as [|s l IH]; [done|]. cbn. by rewrite IH.
Qed.

(** The trace of an accepted request: the user-row write, one request per
    service asked, each with the same conversation, and at most one more
    write. *)
Lemma send_message_trace env uid chatId body s d tr chat project recent :
  field body "content" = JStr s → trim s ≠ [] →
  chat_findFirst d chatId uid = Some (chat, project, recent) →
  ∃ new,
    trace (send_message env uid chatId body (mkState d tr)).2 = tr ++ new
    ∧ head new = Some (MessageCreated (user_id d) (user_row chatId s d))
    ∧ attempts_of new
      = attempted env (sent_history uid s (field body "fileIds") d project recent)
          (service_order env JNull)
    ∧ contexts_of new
      = replicate (length (attempts_of new))
          (sent_history uid s (field body "fileIds") d project recent).
Proof.
  intros Hc Ht Hf.
  destruct (text_of (ai_content
              (sent_result env uid s (field body "fileIds") d project recent)))
    as [text|] eqn:Htext.
  - rewrite (send_message_run _ _ _ _ s _ _ chat project recent) by eauto.
    rewrite (send_message_body_run _ _ _ _ _ _ _ chat project recent) by eauto.
    cbn [snd trace]. eexists. split; [reflexivity|]. split; [done|].
    rewrite attempts_of_run, contexts_of_run. unfold sent_attempts.
    by rewrite attempts_of_events, contexts_of_replicate.
  - rewrite (send_message_crash _ _ _ _ s _ _ chat project recent) by done.
    cbn [snd trace]. eexists. split; [reflexivity|]. split; [done|].
    unfold sent_attempts.
    change (attempts_of (MessageCreated ?u ?r :: ?l)) with (attempts_of l).
    change (contexts_of (MessageCreated ?u ?r :: ?l)) with (contexts_of l).
    by rewrite attempts_of_events, contexts_of_replicate.
Qed.

Lemma attempted_head env msgs s rest :
  head (attempted env msgs (s :: rest)) = Some s.
Proof. done. Qed.

Lemma fixed_order_unfold env :
  fixed_order env =
  (if configured (OPENAI_API_KEY env) then [OPENAI] else [])
  ++ (if configured (OPENROUTER_API_KEY env) then [OPENROUTER] else []).
Proof.
  unfold fixed_order. rewrite !filter_cons, filter_nil. cbn [api_key].
  destruct (configured (OPENAI_API_KEY env)),
           (configured (OPENROUTER_API_KEY env)); reflexivity.
Qed.

Lemma service_order_without_hint env : service_order env JNull = fixed_order env.
Proof.
  rewrite service_order_is_spec_order. unfold spec_order.
  by rewrite no_hint.
Qed.

(** C10. The route calls the selector without a hint, so the order is
    the fixed one: OpenAI when its credential is configured, then
    OpenRouter when its is.  An accepted request asks the services of
    that order, from its start and up to the first that replies: OpenAI
    first whenever its credential is configured, and OpenRouter only when
    OpenAI is not configured or has failed.  The call reads nothing of
    the body but [content] and [fileIds]: no field of the request can
    name a preferred backend. *)
Theorem send_message_attempt_order_fixed env uid chatId body d tr :
  service_order env JNull = fixed_order env
  ∧ fixed_order env =
      (if configured (OPENAI_API_KEY env) then [OPENAI] else [])
      ++ (if configured (OPENROUTER_API_KEY env) then [OPENROUTER] else [])
  ∧ (∃ new,
       trace (send_message env uid chatId body (mkState d tr)).2 = tr ++ new
       ∧ attempts_of new `prefix_of` fixed_order env)
  ∧ (∀ s chat project recent,
       field body "content" = JStr s → trim s ≠ [] →
       chat_findFirst d chatId uid = Some (chat, project, recent) →
       ∃ new history,
         trace (send_message env uid chatId body (mkState d tr)).2 = tr ++ new
         ∧ attempts_of new = attempted env history (fixed_order env)
         ∧ (configured (OPENAI_API_KEY env) = true →
            head (attempts_of new) = Some OPENAI)
         ∧ (configured (OPENAI_API_KEY env) = false →
            configured (OPENROUTER_API_KEY env) = true →
            attempts_of new = [OPENROUTER])
         ∧ (configured (OPENAI_API_KEY env) = true →
            configured (OPENROUTER_API_KEY env) = true →
            attempts_of new
            = match llm env OPENAI history with
              | LlmReply _ _ => [OPENAI]
              | LlmFailure => [OPENAI; OPENROUTER]
              end)
         ∧ (configured (OPENAI_API_KEY env) = false →
            configured (OPENROUTER_API_KEY env) = false →
            attempts_of new = []))
  ∧ (∀ body' : gmap string jsval,
       field body' "content" = field body "content" →
       field body' "fileIds" = field body "fileIds" →
       send_message env uid chatId body' = send_message env uid chatId body).
Proof.
  split; [apply service_order_without_hint|].
  split; [apply fixed_order_unfold|]. split; [|split].
  - destruct (send_message_cases env uid chatId body d tr)
      as [H|[H|[H|(s & chat & project & recent & Hc & Ht & Hf)]]];
      try (cbn zeta in H; rewrite H; exists []; cbn [snd trace];
           rewrite app_nil_r; split; [reflexivity | apply prefix_nil]).
    destruct (send_message_trace env uid chatId body s d tr chat project recent)
      as (new & Hnew & _ & Hattempts & _); [done..|].
    exists new. split; [done|]. rewrite Hattempts.
    rewrite <- service_order_without_hint. apply attempted_prefix.
  - intros s chat project recent Hc Ht Hf.
    destruct (send_message_trace env uid chatId body s d tr chat project recent)
      as (new & Hnew & _ & Hattempts & _); [done..|].
    set (history := sent_history uid s (field body "fileIds") d project recent) in *.
    exists new, history.
    split; [done|]. rewrite Hattempts, service_order_without_hint.
    split; [done|]. rewrite fixed_order_unfold.
    split; [|split; [|split]].
    + intros Hai. by rewrite Hai.
    + intros Hai Hor. rewrite Hai, Hor. cbn.
      by destruct (llm env OPENROUTER history).
    + intros Hai Hor. rewrite Hai, Hor. cbn.
      destruct (llm env OPENAI history); [done|].
      by destruct (llm env OPENROUTER history).
    + intros Hai Hor. by rewrite Hai, Hor.
  - intros body' Hc Hi. unfold send_message. by rewrite Hc, Hi.
Qed.

(** The witness: with both credentials set and both backends down, the
    sample chat asks OpenAI and then OpenRouter; and a body that carries
    a [preferredService] field is handled as the same body without it. *)
Lemma send_message_attempt_order_fixed_witness :
  (∃ new history,
     trace (send_message Demo.env_down 7 1 Demo.hello_body
              (mkState Demo.db1 [])).2 = [] ++ new
     ∧ attempts_of new = attempted Demo.env_down history (fixed_order Demo.env_down)
     ∧ attempts_of new = [OPENAI; OPENROUTER])
  ∧ send_message Demo.env_down 7 1
      (<["preferredService" := JStr (LLM_SERVICES OPENROUTER)]> Demo.hello_body)
    = send_message Demo.env_down 7 1 Demo.hello_body.
Proof.
  destruct (send_message_attempt_order_fixed Demo.env_down 7 1 Demo.hello_body
              Demo.db1 []) as (_ & _ & _ & Hrun & Hbody).
  split.
  - destruct (Hrun (str " hi ") (Chat.mk 1 (str "first chat") 1) Demo.project1
                (latest_messages Demo.db1 1))
      as (new & history & Hnew & Hattempts & _ & _ & Hboth & _).
    + reflexivity.
    + vm_compute. discriminate.
    + vm_compute. reflexivity.
    + exists new, history. split; [exact Hnew|]. split; [exact Hattempts|].
      exact (Hboth eq_refl eq_refl).
  - apply Hbody; reflexivity.
Defined.

(** * The conversation window *)

(** The [n] first rows of a sort, read backwards. *)
Section RecentWindow.
Context {A : Type} (R : relation A) `{∀ x y, Decision (R x y)}.
Context `{!Total R} `{!Transitive R}.





End RecentWindow.

#[local] Instance newer_first_total : Total newer_first.
Proof. intros a b. unfold newer_first. lia. Qed.

#[local] Instance newer_first_trans : Transitive newer_first.
Proof. intros a b c. unfold newer_first. lia. Qed.

Lemma messages_of_chat_NoDup d cid : NoDup (messages_of_chat d cid).
Proof. apply NoDup_filter, NoDup_map_to_list. Qed.

Lemma messages_of_chat_elem d cid im :
  im ∈ messages_of_chat d cid ↔
  messages d !! im.1 = Some im.2 ∧ Message.chatId im.2 = cid.
Proof.
  unfold messages_of_chat. rewrite list_elem_of_filter.
  destruct im as [i m]. rewrite elem_of_map_to_list. cbn. tauto.
Qed.

Lemma chat_findFirst_Some d cid uid chat project recent :
  chat_findFirst d cid uid = Some (chat, project, recent) →
  recent = latest_messages d cid
  ∧ chats d !! cid = Some chat
  ∧ projects d !! Chat.projectId chat = Some project
  ∧ Project.userId project = uid.
Proof.
  unfold chat_findFirst.
  destruct (chats d !! cid) as [c|]; [|done]. cbn.
  destruct (projects d !! Chat.projectId c) as [p|] eqn:Hp; [|done]. cbn.
  case_bool_decide; [|done]. intros [= <- <- <-]. done.
Qed.




(** * The project routes *)

Import ProjectRoutes.

Lemma project_findFirst_foreign d id p uid :
  projects d !! id = Some p → Project.userId p ≠ uid →
  project_findFirst d id uid = None.
Proof.
  intros Hp Hne. unfold project_findFirst. rewrite Hp. cbn.
  by rewrite bool_decide_eq_false_2.
Qed.

Lemma project_findFirst_missing d id uid :
  projects d !! id = None → project_findFirst d id uid = None.
Proof. intros Hp. unfold project_findFirst. by rewrite Hp. Qed.

Lemma project_findFirst_Some d id uid p :
  project_findFirst d id uid = Some p →
  projects d !! id = Some p ∧ Project.userId p = uid.
Proof.
  unfold project_findFirst. destruct (projects d !! id) as [q|]; [|done]. cbn.
  case_bool_decide; [|done]. by intros [= ->].
Qed.

(** What the three routes answer when the lookup finds nothing. *)
Lemma project_routes_not_found d tr uid id body :
  project_findFirst d id uid = None →
  get_project uid id (mkState d tr)
    = (Ret (failure 404 "Project not found"), mkState d tr)
  ∧ update_project uid id body (mkState d tr)
    = (Ret (failure 404 "Project not found"), mkState d tr)
  ∧ delete_project uid id (mkState d tr)
    = (Ret (failure 404 "Project not found"), mkState d tr).
Proof.
  intros Hf. unfold get_project, update_project, delete_project, try_catch.
  rewrite !run_bind. unfold get_db. cbn [db]. by rewrite Hf.
Qed.

(** C5. When user B asks for, updates or deletes a project that belongs
    to another user A, each of the three routes answers 404 with the
    not-found message and no data, and leaves the database and the trace
    as they were; the answer is the one B gets for an id that names no
    project at all. *)
Theorem foreign_project_not_found d tr A B id p body :
  projects d !! id = Some p →
  Project.userId p = A →
  B ≠ A →
  get_project B id (mkState d tr)
    = (Ret (failure 404 "Project not found"), mkState d tr)
  ∧ update_project B id body (mkState d tr)
    = (Ret (failure 404 "Project not found"), mkState d tr)
  ∧ delete_project B id (mkState d tr)
    = (Ret (failure 404 "Project not found"), mkState d tr)
  ∧ res_data (failure 404 "Project not found") = NoData
  ∧ ∀ missing, projects d !! missing = None →
      get_project B missing (mkState d tr)
        = (Ret (failure 404 "Project not found"), mkState d tr)
      ∧ update_project B missing body (mkState d tr)
        = (Ret (failure 404 "Project not found"), mkState d tr)
      ∧ delete_project B missing (mkState d tr)
        = (Ret (failure 404 "Project not found"), mkState d tr).
Proof.
  intros Hp HA HB.
  assert (project_findFirst d id B = None) as Hf.
  { apply (project_findFirst_foreign d id p); [done|]. congruence. }
  destruct (project_routes_not_found d tr B id body Hf) as (Hg & Hu & Hd).
  repeat split; try done;
    by apply project_routes_not_found, project_findFirst_missing.
Qed.

(** The witness: user 8 on the sample project of user 7. *)
Lemma foreign_project_not_found_witness :
  get_project 8 1 (mkState Demo.db1 [])
    = (Ret (failure 404 "Project not found"), mkState Demo.db1 [])
  ∧ update_project 8 1 Demo.rename_body (mkState Demo.db1 [])
    = (Ret (failure 404 "Project not found"), mkState Demo.db1 [])
  ∧ delete_project 8 1 (mkState Demo.db1 [])
    = (Ret (failure 404 "Project not found"), mkState Demo.db1 []).
Proof.
  destruct (foreign_project_not_found Demo.db1 [] 7 8 1 Demo.project1
              Demo.rename_body) as (Hg & Hu & Hd & _).
  - reflexivity.
  - reflexivity.
  - discriminate.
  - repeat split; assumption.
Defined.

Lemma truthy_text s : truthy (JStr s) = true ↔ s ≠ [].
Proof.
  cbn. rewrite negb_true_iff, bool_decide_eq_false. done.
Qed.

(** A text column takes a string or refuses. *)
Lemma as_text_run v st :
  (∃ s, v = JStr s ∧ as_text v st = (Ret s, st))
  ∨ (∃ e, as_text v st = (Throw e, st)).
Proof. destruct v; eauto. Qed.

Lemma as_optional_text_run v st :
  (∃ o, as_optional_text v st = (Ret o, st))
  ∨ (∃ e, as_optional_text v st = (Throw e, st)).
Proof. destruct v; eauto. Qed.

Lemma as_text_or_val_run v dflt st :
  (∃ s, as_text (or_val v (JStr dflt)) st = (Ret s, st)
        ∧ (s = dflt ∨ (v = JStr s ∧ s ≠ [])))
  ∨ (∃ e, as_text (or_val v (JStr dflt)) st = (Throw e, st)).
Proof.
  unfold or_val. destruct (truthy v) eqn:Hv.
  - destruct v; eauto. left. eexists. split; [reflexivity|].
    right. split; [done|]. by apply truthy_text.
  - left. eauto.
Qed.

(** An update takes a string, or the operation that sets one; the
    operation is truthy whatever it sets. *)
Lemma as_text_update_or_val_run v dflt st :
  (∃ s, as_text_update (or_val v (JStr dflt)) st = (Ret s, st)
        ∧ (s = dflt ∨ (v = JStr s ∧ s ≠ []) ∨ v = JSet (JStr s)))
  ∨ (∃ e, as_text_update (or_val v (JStr dflt)) st = (Throw e, st)).
Proof.
  unfold or_val. destruct (truthy v) eqn:Hv.
  - destruct v as [| |b|z|s|items| |[| |b|z|s|items| |w]]; eauto.
    + left. eexists. split; [reflexivity|].
      right. left. split; [done|]. by apply truthy_text.
    + left. eexists. split; [reflexivity|]. by right; right.
  - left. eauto.
Qed.

Lemma as_optional_text_update_run v st :
  (∃ o, as_optional_text_update v st = (Ret o, st))
  ∨ (∃ e, as_optional_text_update v st = (Throw e, st)).
Proof. destruct v as [| |b|z|s|items| |[| |b|z|s|items| |w]]; eauto. Qed.

(** The outcomes of the create route. *)
Lemma create_project_cases uid body d tr :
  let result := create_project uid body (mkState d tr) in
  result = (Ret (failure 400 "Name and system prompt are required"), mkState d tr)
  ∨ result = (Ret (failure 500 "Internal server error"), mkState d tr)
  ∨ ∃ name description systemPrompt,
      field body "name" = JStr name ∧ name ≠ []
      ∧ field body "systemPrompt" = JStr systemPrompt ∧ systemPrompt ≠ []
      ∧ let id := new_id (projects d) in
        let row := Project.mk uid name description systemPrompt (clock d) in
        result =
        (Ret (mkResponse 201 true (Some (str "Project created successfully"))
                (ProjectRow id row)),
         mkState (tick (set_projects d (<[id := row]> (projects d))))
                 (tr ++ [ProjectCreated id row])).
Proof.
  cbn zeta. unfold create_project, try_catch.
  destruct (truthy (field body "name")) eqn:Hn; [|by left].
  destruct (truthy (field body "systemPrompt")) eqn:Hs; [|by left].
  cbn [negb orb]. unfold project_create. rewrite !run_bind.
  destruct (as_text_run (field body "name") (mkState d tr))
    as [(name & Hname & ->)|(e & ->)]; [|by right; left].
  cbv beta iota. rewrite run_bind.
  destruct (as_optional_text_run (field body "description") (mkState d tr))
    as [(description & ->)|(e & ->)]; [|by right; left].
  cbv beta iota. rewrite run_bind.
  destruct (as_text_run (field body "systemPrompt") (mkState d tr))
    as [(prompt & Hprompt & ->)|(e & ->)]; [|by right; left].
  right; right. exists name, description, prompt.
  rewrite Hname in Hn. rewrite Hprompt in Hs.
  apply truthy_text in Hn, Hs. done.
Qed.

(** The outcomes of the update route on a project of the user. *)
Lemma update_project_cases uid id body d tr old :
  project_findFirst d id uid = Some old →
  let result := update_project uid id body (mkState d tr) in
  result = (Ret (failure 500 "Internal server error"), mkState d tr)
  ∨ ∃ row,
      result =
        (Ret (mkResponse 200 true (Some (str "Project updated successfully"))
                (ProjectRow id row)),
         mkState (set_projects d (<[id := row]> (projects d)))
                 (tr ++ [ProjectUpdated id row]))
      ∧ Project.userId row = Project.userId old
      ∧ (Project.name row = Project.name old
         ∨ (field body "name" = JStr (Project.name row) ∧ Project.name row ≠ [])
         ∨ field body "name" = JSet (JStr (Project.name row)))
      ∧ (Project.systemPrompt row = Project.systemPrompt old
         ∨ (field body "systemPrompt" = JStr (Project.systemPrompt row)
            ∧ Project.systemPrompt row ≠ [])
         ∨ field body "systemPrompt" = JSet (JStr (Project.systemPrompt row))).
Proof.
  intros Hf. cbn zeta. unfold update_project, try_catch.
  rewrite run_bind. unfold get_db. cbv beta iota. cbn [db]. rewrite Hf.
  apply project_findFirst_Some in Hf as [Hold _].
  unfold project_update. rewrite !run_bind.
  destruct (as_text_update_or_val_run (field body "name") (Project.name old)
              (mkState d tr))
    as [(name & -> & Hname)|(e & ->)]; [|by left].
  cbv beta iota. rewrite run_bind.
  destruct (as_optional_text_update_run (field body "description") (mkState d tr))
    as [(description & ->)|(e & ->)]; [|by left].
  cbv beta iota. rewrite run_bind.
  destruct (as_text_update_or_val_run (field body "systemPrompt")
              (Project.systemPrompt old) (mkState d tr))
    as [(prompt & -> & Hprompt)|(e & ->)]; [|by left].
  cbv beta iota. rewrite run_bind. unfold get_db. cbv beta iota. cbn [db].
  rewrite Hold.
  right. eexists. split; [reflexivity|]. cbn.
  split; [done|]. split; [destruct Hname as [->|?]|destruct Hprompt as [->|?]]; auto.
Qed.

(** * The upload route *)

Import FileRoutes Server FileRun.

Lemma process_file_run env projectId file acc d tr :
  let id := new_id (files d) in
  let created := created_row projectId file d in
  let final := final_row env file created in
  process_file env projectId file acc (mkState d tr) =
  (Ret (acc.1 ++ [(id, final)], acc.2),
   mkState (tick (set_files d (<[id := final]> (files d))))
           (tr ++ [FileCreated id created;
                   StagingAttempt (path file) (originalname (part file));
                   FileUpdated id final])).
Proof.
  cbn zeta. unfold process_file, final_row, file_create, uploadToOpenAI.
  unfold try_catch at 1. run_steps. fold (created_row projectId file d).
  unfold try_catch. run_steps.
  destruct (files_api env (path file) (originalname (part file))) as [x|message];
    run_steps; unfold file_update; run_steps;
    cbn [tick set_files files]; rewrite lookup_insert_eq; run_steps;
    unfold set_files, tick; cbn [projects chats messages files clock];
    rewrite insert_insert_eq, <- !app_assoc; reflexivity.
Qed.

Lemma final_row_ok env file created :
  File.status created = Uploading → File.openaiFileId created = None →
  file_ok (final_row env file created).
Proof.
  intros Hs Ho. unfold final_row, file_ok.
  destruct (files_api env _ _); cbn; [left|right]; done.
Qed.

Lemma final_row_of env projectId file d :
  row_of projectId (new_id (files d), final_row env file (created_row projectId file d))
         file.
Proof.
  unfold row_of, final_row, created_row.
  by destruct (files_api env _ _).
Qed.

(** The loop adds one row per stored file, each under a new key, each
    in a final status, and touches nothing else. *)
Lemma process_files_run env projectId files_ acc d tr :
  ∃ rows d' tr',
    process_files env projectId files_ acc (mkState d tr)
      = (Ret (acc.1 ++ rows, acc.2), mkState d' tr')
    ∧ Forall2 (row_of projectId) rows files_
    ∧ projects d' = projects d ∧ chats d' = chats d ∧ messages d' = messages d
    ∧ files d ⊆ files d'
    ∧ Forall (λ r : N * File.t,
                file_ok r.2 ∧ files d' !! r.1 = Some r.2 ∧ files d !! r.1 = None)
             rows
    ∧ (map_Forall (λ _ f, file_ok f) (files d) →
       map_Forall (λ _ f, file_ok f) (files d')).
Proof.
  revert acc d tr. induction files_ as [|file rest IH]; intros acc d tr.
  - exists [], d, tr. rewrite app_nil_r. destruct acc. repeat split; done.
  - cbn [process_files]. rewrite run_bind, process_file_run. cbn zeta.
    pose proof (final_row_of env projectId file d) as Hrow.
    set (id := new_id (files d)) in *.
    set (final := final_row env file (created_row projectId file d)) in *.
    set (d1 := tick (set_files d (<[id := final]> (files d)))).
    destruct (IH (acc.1 ++ [(id, final)], acc.2) d1
                 (tr ++ [FileCreated id (created_row projectId file d);
                         StagingAttempt (path file) (originalname (part file));
                         FileUpdated id final]))
      as (rows & d' & tr' & Hrun & Hlen & Hp & Hc & Hm & Hsub & Hrows & Hinv).
    assert (files d !! id = None) as Hfresh by apply new_id_fresh.
    assert (file_ok final) as Hok by by apply final_row_ok.
    assert (files d ⊆ files d1) as Hsub1 by by apply insert_subseteq.
    exists ((id, final) :: rows), d', tr'. rewrite Hrun. cbn [fst snd].
    rewrite <- app_assoc. split; [reflexivity|].
    split; [by constructor|].
    repeat split; try done.
    + by transitivity (files d1).
    + constructor.
      * cbn [fst snd]. repeat split; [done| |done].
        apply (lookup_weaken (files d1)); [apply lookup_insert_eq | done].
      * eapply Forall_impl; [exact Hrows|]. intros [j row] (? & ? & Hnone).
        repeat split; [done..|].
        cbn [fst snd] in *. destruct (files d !! j) eqn:Hj; [|done].
        apply (lookup_weaken _ (files d1)) in Hj; [congruence | done].
    + intros Hall. apply Hinv. cbn [d1 tick set_files files].
      by apply map_Forall_insert_2.
Qed.

(** ** What multer lets through *)

Lemma multer_array_cons env field_ filesLeft n file rest :
  multer_array env field_ filesLeft n (file :: rest) =
  if negb (truthy (JStr (originalname file))) then
    multer_array env field_ filesLeft n rest
  else if negb (bool_decide (fieldname file = field_)) then
    inl (LIMIT_UNEXPECTED_FILE (fieldname file))
  else
    match filesLeft with
    | O => inl (LIMIT_UNEXPECTED_FILE (fieldname file))
    | S left_ =>
        if negb (fileFilter file) then
          inl (FilterError
                 (str "File type not supported. Allowed types: "
                  ++ join (str ", ") allowedExtensions))
        else if fileSize_limit <=? size file then
          inl (LIMIT_FILE_SIZE (fieldname file))
        else
          match multer_array env field_ left_ (S n) rest with
          | inl e => inl e
          | inr stored => inr (stored_as env n file :: stored)
          end
    end.
Proof. reflexivity. Qed.

Lemma named_truthy p : truthy (JStr (originalname p)) = true ↔ named p.
Proof. apply truthy_text. Qed.

Lemma not_named_truthy p : truthy (JStr (originalname p)) = false ↔ ¬ named p.
Proof. rewrite <- named_truthy. by destruct (truthy _). Qed.

(** A part without a name is passed over. *)
Lemma multer_array_passes_over env field_ filesLeft n file rest :
  ¬ named file →
  multer_array env field_ filesLeft n (file :: rest)
  = multer_array env field_ filesLeft n rest.
Proof.
  intros H%not_named_truthy. rewrite multer_array_cons. by rewrite H.
Qed.

Lemma multer_array_named env field_ filesLeft n file rest :
  named file →
  multer_array env field_ filesLeft n (file :: rest) =
  if negb (bool_decide (fieldname file = field_)) then
    inl (LIMIT_UNEXPECTED_FILE (fieldname file))
  else
    match filesLeft with
    | O => inl (LIMIT_UNEXPECTED_FILE (fieldname file))
    | S left_ =>
        if negb (fileFilter file) then
          inl (FilterError
                 (str "File type not supported. Allowed types: "
                  ++ join (str ", ") allowedExtensions))
        else if fileSize_limit <=? size file then
          inl (LIMIT_FILE_SIZE (fieldname file))
        else
          match multer_array env field_ left_ (S n) rest with
          | inl e => inl e
          | inr stored => inr (stored_as env n file :: stored)
          end
    end.
Proof.
  intros H%named_truthy. rewrite multer_array_cons. by rewrite H.
Qed.

Lemma multer_array_rejects_filtered env field_ filesLeft n parts file :
  file ∈ parts → named file → fileFilter file = false →
  ∃ e, multer_array env field_ filesLeft n parts = inl e.
Proof.
  revert filesLeft n.
  induction parts as [|p rest IH]; intros filesLeft n Hin Hname Hbad.
  - by apply elem_of_nil in Hin.
  - destruct (decide (named p)) as [Hp|Hp].
    + rewrite multer_array_named by done.
      destruct (negb (bool_decide (fieldname p = field_))); [eauto|].
      destruct filesLeft as [|left_]; [eauto|].
      apply elem_of_cons in Hin as [Heq|Hin].
      * subst p. rewrite Hbad. cbn [negb]. eauto.
      * destruct (negb (fileFilter p)); [eauto|].
        destruct (fileSize_limit <=? size p); [eauto|].
        destruct (IH left_ (S n) Hin Hname Hbad) as [e ->]. eauto.
    + rewrite multer_array_passes_over by done.
      apply elem_of_cons in Hin as [->|Hin]; [done|]. by apply IH.
Qed.

Lemma multer_array_rejects_large env field_ filesLeft n parts file :
  file ∈ parts → named file → fileSize_limit ≤ size file →
  ∃ e, multer_array env field_ filesLeft n parts = inl e.
Proof.
  revert filesLeft n.
  induction parts as [|p rest IH]; intros filesLeft n Hin Hname Hbig.
  - by apply elem_of_nil in Hin.
  - destruct (decide (named p)) as [Hp|Hp].
    + rewrite multer_array_named by done.
      destruct (negb (bool_decide (fieldname p = field_))); [eauto|].
      destruct filesLeft as [|left_]; [eauto|].
      destruct (negb (fileFilter p)); [eauto|].
      apply elem_of_cons in Hin as [Heq|Hin].
      * subst p. rewrite (proj2 (N.leb_le _ _) Hbig). eauto.
      * destruct (fileSize_limit <=? size p); [eauto|].
        destruct (IH left_ (S n) Hin Hname Hbig) as [e ->]. eauto.
    + rewrite multer_array_passes_over by done.
      apply elem_of_cons in Hin as [->|Hin]; [done|]. by apply IH.
Qed.

Lemma multer_array_rejects_excess env field_ filesLeft n parts :
  (filesLeft < length (files_in parts))%nat →
  ∃ e, multer_array env field_ filesLeft n parts = inl e.
Proof.
  revert filesLeft n. induction parts as [|p rest IH]; intros filesLeft n Hlen.
  - cbn in Hlen. lia.
  - unfold files_in in Hlen. destruct (decide (named p)) as [Hp|Hp].
    + rewrite filter_cons_True in Hlen by done.
      rewrite multer_array_named by done.
      destruct (negb (bool_decide (fieldname p = field_))); [eauto|].
      destruct filesLeft as [|left_]; [eauto|].
      destruct (negb (fileFilter p)); [eauto|].
      destruct (fileSize_limit <=? size p); [eauto|].
      destruct (IH left_ (S n)) as [e ->]; [cbn in Hlen; unfold files_in; lia | eauto].
    + rewrite filter_cons_False in Hlen by done.
      rewrite multer_array_passes_over by done. by apply IH.
Qed.

Lemma multer_array_accepts env field_ filesLeft n parts stored :
  multer_array env field_ filesLeft n parts = inr stored →
  part <$> stored = files_in parts
  ∧ (length (files_in parts) ≤ filesLeft)%nat
  ∧ Forall (λ p, fileFilter p = true ∧ fieldname p = field_
                 ∧ size p < fileSize_limit) (files_in parts).
Proof.
  revert filesLeft n stored. unfold files_in.
  induction parts as [|p rest IH]; intros filesLeft n stored.
  - intros [= <-]. repeat split; [cbn; lia | constructor].
  - destruct (decide (named p)) as [Hp|Hp].
    + rewrite multer_array_named, filter_cons_True by done.
      case_bool_decide as Hfield; cbn [negb]; [|done].
      destruct filesLeft as [|left_]; [done|].
      destruct (fileFilter p) eqn:Hfilter; cbn [negb]; [|done].
      destruct (fileSize_limit <=? size p) eqn:Hsize; [done|].
      destruct (multer_array env field_ left_ (S n) rest) as [e|tail] eqn:Hrest;
        [done|].
      intros [= <-]. destruct (IH _ _ _ Hrest) as (Hparts & Hlen & Hall).
      apply N.leb_gt in Hsize.
      repeat split; [cbn; by rewrite Hparts | cbn; lia | by constructor].
    + rewrite multer_array_passes_over, filter_cons_False by done. apply IH.
Qed.

Lemma upload_route_rejected env uid projectId parts e st :
  upload env parts = inl e →
  upload_route env uid projectId parts st =
  (Ret (failure 500 "Internal server error"), st).
Proof. intros H. unfold upload_route. by rewrite H. Qed.

Lemma fileFilter_false file :
  fileFilter file = false ↔
  ((mimetype file ∉ allowedTypes)
   ∧ (toLowerCase (extname (originalname file)) ∉ allowedExtensions)).
Proof.
  unfold fileFilter. rewrite orb_false_iff, !bool_decide_eq_false. done.
Qed.

Lemma fileFilter_true file :
  fileFilter file = true ↔
  ((mimetype file ∈ allowedTypes)
   ∨ (toLowerCase (extname (originalname file)) ∈ allowedExtensions)).
Proof.
  unfold fileFilter. rewrite orb_true_iff, !bool_decide_eq_true. done.
Qed.

(** A request the middleware lets through, on a project of the user. *)
Lemma upload_route_run env uid projectId parts stored project d tr :
  upload env parts = inr stored →
  stored ≠ [] →
  project_findFirst d projectId uid = Some project →
  ∃ rows d' tr',
    upload_route env uid projectId parts (mkState d tr) =
      (Ret (mkResponse 200 true
              (Some (decimal (length rows) ++ str " files uploaded successfully"))
              (FilesData rows [])),
       mkState d' tr')
    ∧ Forall2 (row_of projectId) rows stored
    ∧ projects d' = projects d ∧ chats d' = chats d ∧ messages d' = messages d
    ∧ files d ⊆ files d'
    ∧ Forall (λ r : N * File.t,
                file_ok r.2 ∧ files d' !! r.1 = Some r.2 ∧ files d !! r.1 = None)
             rows
    ∧ (map_Forall (λ _ f, file_ok f) (files d) →
       map_Forall (λ _ f, file_ok f) (files d')).
Proof.
  intros Hup Hne Hf. unfold upload_route. rewrite Hup.
  unfold upload_handler, try_catch.
  rewrite bool_decide_eq_false_2 by (by destruct stored).
  run_steps. rewrite Hf. run_steps.
  destruct (process_files_run env projectId stored ([], []) d tr)
    as (rows & d' & tr' & Hrun & Hrest).
  rewrite Hrun. run_steps. by exists rows, d', tr'.
Qed.

(** The outcomes of the upload route. *)
Lemma upload_route_cases env uid projectId parts d tr :
  let result := upload_route env uid projectId parts (mkState d tr) in
  (∃ e, upload env parts = inl e
        ∧ result = (Ret (failure 500 "Internal server error"), mkState d tr))
  ∨ (upload env parts = inr []
     ∧ result = (Ret (failure 400 "No files provided"), mkState d tr))
  ∨ (∃ stored, upload env parts = inr stored ∧ stored ≠ []
               ∧ project_findFirst d projectId uid = None
               ∧ result = (Ret (failure 404 "Project not found"), mkState d tr))
  ∨ (∃ stored project rows d' tr',
       upload env parts = inr stored ∧ stored ≠ []
       ∧ project_findFirst d projectId uid = Some project
       ∧ result =
           (Ret (mkResponse 200 true
                   (Some (decimal (length rows)
                          ++ str " files uploaded successfully"))
                   (FilesData rows [])),
            mkState d' tr')
       ∧ Forall2 (row_of projectId) rows stored).
Proof.
  cbn zeta. destruct (upload env parts) as [e|stored] eqn:Hup.
  { left. exists e. split; [done|]. by apply (upload_route_rejected _ _ _ _ e). }
  destruct (decide (stored = [])) as [->|Hne].
  { right; left. split; [done|]. unfold upload_route. by rewrite Hup. }
  destruct (project_findFirst d projectId uid) as [project|] eqn:Hf.
  - right; right; right.
    destruct (upload_route_run env uid projectId parts stored project d tr)
      as (rows & d' & tr' & Hrun & Hrows & _); [done..|].
    by exists stored, project, rows, d', tr'.
  - right; right; left. exists stored. repeat split; try done.
    unfold upload_route. rewrite Hup. unfold upload_handler, try_catch.
    rewrite bool_decide_eq_false_2 by (by destruct stored).
    run_steps. by rewrite Hf.
Qed.

(** C7, as the code has it.  A file of a request is a part that carries a
    file name; multer passes over the others.  A request that holds a
    file whose MIME type is not an allowed type and whose extension (in
    lower case) is not an allowed extension, or that holds more than 10
    files, is turned down by the upload middleware: the handler is not
    run, the answer is the error handler's, and the database and the
    trace are left as they were.  So whatever the request, a row the
    route answers with belongs to a file with a name and an allowed MIME
    type or extension, and there are at most 10 of them. *)
Theorem upload_rejected_before_any_row env uid projectId parts d tr :
  (((∃ file, file ∈ parts ∧ named file
             ∧ (mimetype file ∉ allowedTypes)
             ∧ (toLowerCase (extname (originalname file)) ∉ allowedExtensions))
    ∨ (10 < length (files_in parts))%nat) →
   upload_route env uid projectId parts (mkState d tr) =
   (Ret (failure 500 "Internal server error"), mkState d tr))
  ∧ (∀ status success message rows errors st',
       upload_route env uid projectId parts (mkState d tr) =
         (Ret (mkResponse status success message (FilesData rows errors)), st') →
       (length rows ≤ 10)%nat
       ∧ Forall (λ r : N * File.t,
            File.originalName r.2 ≠ []
            ∧ (∃ file, file ∈ parts
                       ∧ originalname file = File.originalName r.2
                       ∧ mimetype file = File.mimeType r.2)
            ∧ (File.mimeType r.2 ∈ allowedTypes
               ∨ toLowerCase (extname (File.originalName r.2)) ∈ allowedExtensions))
           rows).
Proof.
  split.
  - intros [(file & Hin & Hname & Hbad)|Hmany].
    + apply fileFilter_false in Hbad.
      destruct (multer_array_rejects_filtered env (str "files") 10 0 parts file)
        as [e He]; [done..|].
      by apply (upload_route_rejected _ _ _ _ e).
    + destruct (multer_array_rejects_excess env (str "files") 10 0 parts)
        as [e He]; [done|].
      by apply (upload_route_rejected _ _ _ _ e).
  - intros status success message rows errors st' Hrun.
    destruct (upload_route_cases env uid projectId parts d tr)
      as [(e & _ & H)|[[_ H]|[(stored & _ & _ & _ & H)
          |(stored & project & rows' & d' & tr' & Hup & _ & _ & H & Hrows)]]];
      cbn zeta in H; rewrite H in Hrun; try discriminate Hrun.
    injection Hrun as _ _ _ <- _ _.
    apply multer_array_accepts in Hup as (Hparts & Hlen & Hall).
    split.
    { rewrite (Forall2_length _ _ _ Hrows), <- (length_fmap part), Hparts. done. }
    apply Forall_forall. intros r Hr.
    destruct (proj1 (list_elem_of_lookup _ _) Hr) as [k Hk].
    destruct (Forall2_lookup_l _ _ _ _ _ Hrows Hk) as (file & Hfile & Hrow).
    destruct Hrow as (_ & _ & Hname & Hmime & _).
    assert (part file ∈ files_in parts) as Hin.
    { rewrite <- Hparts. apply list_elem_of_fmap. exists file. split; [done|].
      by eapply list_elem_of_lookup_2. }
    pose proof (proj1 (Forall_forall _ _) Hall _ Hin) as (Hfilter & _ & _).
    apply list_elem_of_filter in Hin as [Hnamed Hin].
    rewrite Hname, Hmime. split; [done|]. split; [by exists (part file)|].
    by apply fileFilter_true.
Qed.

Lemma not_elem_of_by_decide {A} `{EqDecision A} (x : A) (l : list A) :
  bool_decide (x ∈ l) = false → x ∉ l.
Proof. by intros H%bool_decide_eq_false. Qed.

(** The witnesses: an installer in a request of two files, and a request
    of eleven PDF files. *)
Lemma upload_rejected_before_any_row_witness :
  upload_route Demo.env_down 7 1 [Demo.report_pdf; Demo.setup_exe]
    (mkState Demo.db1 [])
  = (Ret (failure 500 "Internal server error"), mkState Demo.db1 [])
  ∧ upload_route Demo.env_down 7 1 (replicate 11 Demo.report_pdf)
      (mkState Demo.db1 [])
    = (Ret (failure 500 "Internal server error"), mkState Demo.db1 []).
Proof.
  split.
  - apply (proj1 (upload_rejected_before_any_row Demo.env_down 7 1
                    [Demo.report_pdf; Demo.setup_exe] Demo.db1 [])).
    left. exists Demo.setup_exe.
    split; [right; left|]. split; [discriminate|].
    split; apply not_elem_of_by_decide; vm_compute; reflexivity.
  - apply (proj1 (upload_rejected_before_any_row Demo.env_down 7 1
                    (replicate 11 Demo.report_pdf) Demo.db1 [])).
    right. vm_compute. lia.
Defined.

(** C7, as the specification states it, fails: [notes.xyz] has an
    extension that is not allowed, yet with the MIME type [text/plain] it
    passes the filter and a row is created for it. *)
Lemma unsupported_extension_accepted :
  (toLowerCase (extname (originalname Demo.notes_xyz)) ∉ allowedExtensions)
  ∧ ∃ id row st',
      upload_route Demo.env_down 7 1 [Demo.notes_xyz] (mkState Demo.db1 [])
      = (Ret (mkResponse 200 true (Some (str "1 files uploaded successfully"))
                (FilesData [(id, row)] [])), st')
      ∧ File.originalName row = str "notes.xyz"
      ∧ files Demo.db1 !! id = None
      ∧ files (db st') !! id = Some row.
Proof.
  split.
  - apply not_elem_of_by_decide. vm_compute. reflexivity.
  - eexists _, _, _. split; [vm_compute; reflexivity|].
    repeat split; vm_compute; reflexivity.
Qed.

(** ** Every route keeps the invariants *)

Lemma map_Forall_subseteq {V} (P : N → V → Prop) (m1 m2 : gmap N V) :
  m1 ⊆ m2 → map_Forall P m2 → map_Forall P m1.
Proof.
  intros Hsub Hall i x Hi. apply Hall. by apply (lookup_weaken m1).
Qed.

Lemma get_project_reads uid id st : (get_project uid id st).2 = st.
Proof.
  unfold get_project, try_catch. run_steps.
  by destruct (project_findFirst (db st) id uid).
Qed.

Lemma create_chat_tables uid projectId body d tr :
  let d' := db (ChatCreation.create_chat uid projectId body (mkState d tr)).2 in
  projects d' = projects d ∧ files d' = files d.
Proof.
  cbn zeta. unfold ChatCreation.create_chat, try_catch. run_steps.
  destruct (project_findFirst d projectId uid); [|done]. run_steps.
  destruct (as_text_run (or_val (field body "title") (JStr (str "New Chat")))
              (mkState d tr)) as [(s & _ & ->)|(e & ->)]; by run_steps.
Qed.

Lemma delete_project_tables uid id d tr :
  let d' := db (delete_project uid id (mkState d tr)).2 in
  projects d' ⊆ projects d ∧ files d' ⊆ files d.
Proof.
  cbn zeta. unfold delete_project, try_catch. run_steps.
  destruct (project_findFirst d id uid) as [p|] eqn:Hf; [|done].
  apply project_findFirst_Some in Hf as [Hp _].
  unfold project_delete. run_steps. rewrite Hp. run_steps.
  split; [apply delete_subseteq | apply map_filter_subseteq].
Qed.

Lemma delete_file_tables env uid fileId d tr :
  let d' := db (delete_file env uid fileId (mkState d tr)).2 in
  projects d' = projects d ∧ files d' ⊆ files d.
Proof.
  cbn zeta. unfold delete_file, try_catch. run_steps.
  destruct (file_findFirst d fileId uid) as [f|]; [|done]. run_steps.
  destruct (File.openaiFileId f) as [x|];
    [destruct (truthy (JStr x) && configured (OPENAI_API_KEY env))|];
    run_steps; (split; [done | apply delete_subseteq]).
Qed.

Lemma upload_route_tables env uid projectId parts d tr :
  let d' := db (upload_route env uid projectId parts (mkState d tr)).2 in
  projects d' = projects d
  ∧ (map_Forall (λ _ f, file_ok f) (files d) →
     map_Forall (λ _ f, file_ok f) (files d')).
Proof.
  cbn zeta. destruct (upload env parts) as [e|stored] eqn:Hup.
  { by rewrite (upload_route_rejected _ _ _ _ e). }
  destruct (decide (stored = [])) as [->|Hne].
  { unfold upload_route. rewrite Hup. done. }
  destruct (project_findFirst d projectId uid) as [project|] eqn:Hf.
  - destruct (upload_route_run env uid projectId parts stored project d tr)
      as (rows & d' & tr' & -> & _ & Hp & _ & _ & _ & _ & Hinv); done.
  - unfold upload_route, upload_handler, try_catch. rewrite Hup.
    rewrite bool_decide_eq_false_2 by (by destruct stored).
    run_steps. by rewrite Hf.
Qed.

(** The database a send-message request leaves: the one it found, or that
    one with the user row, or that one with both rows. *)
Lemma send_message_db env uid chatId body d tr :
  let d' := db (send_message env uid chatId body (mkState d tr)).2 in
  d' = d
  ∨ ∃ s project recent,
      trim s ≠ []
      ∧ (d' = db_after_user chatId s d
         ∨ d' = db_after_send env uid chatId s (field body "fileIds") d project recent).
Proof.
  cbn zeta.
  destruct (send_message_cases env uid chatId body d tr)
    as [H|[H|[H|(s & chat & project & recent & Hc & Ht & Hf)]]];
    try (cbn zeta in H; rewrite H; by left).
  right. exists s, project, recent. split; [done|].
  destruct (text_of (ai_content
              (sent_result env uid s (field body "fileIds") d project recent)))
    as [text|] eqn:Htext.
  - right. rewrite (send_message_run _ _ _ _ s _ _ chat project recent) by eauto.
    by rewrite (send_message_body_run _ _ _ _ _ _ _ chat project recent) by eauto.
  - left. by rewrite (send_message_crash _ _ _ _ s _ _ chat project recent).
Qed.

Lemma send_message_tables env uid chatId body d tr :
  let d' := db (send_message env uid chatId body (mkState d tr)).2 in
  projects d' = projects d ∧ chats d' = chats d ∧ files d' = files d.
Proof.
  cbn zeta.
  destruct (send_message_cases env uid chatId body d tr)
    as [H|[H|[H|(s & chat & project & recent & Hc & Ht & Hf)]]];
    try (cbn zeta in H; by rewrite H).
  destruct (text_of (ai_content
              (sent_result env uid s (field body "fileIds") d project recent)))
    as [text|] eqn:Htext.
  - rewrite (send_message_run _ _ _ _ s _ _ chat project recent) by eauto.
    by rewrite (send_message_body_run _ _ _ _ _ _ _ chat project recent) by eauto.
  - by rewrite (send_message_crash _ _ _ _ s _ _ chat project recent).
Qed.

Lemma handle_keeps_invariants env r d tr :
  db_inv d → db_inv (db (handle env r (mkState d tr)).2).
Proof.
  unfold db_inv. intros Hfiles.
  destruct r as [uid body|uid id|uid id body|uid id|uid pid body
                |uid chatId body|uid pid parts|uid fileId]; cbn [handle].
  - destruct (create_project_cases uid body d tr)
      as [H|[H|(name & description & prompt & _ & Hn & _ & Hs & H)]];
      cbn zeta in H; rewrite H; done.
  - by rewrite get_project_reads.
  - destruct (project_findFirst d id uid) as [old|] eqn:Hf.
    + destruct (update_project_cases uid id body d tr old Hf)
        as [H|(row & H & _)]; cbn zeta in H; rewrite H; done.
    + destruct (project_routes_not_found d tr uid id body Hf) as (_ & -> & _).
      done.
  - destruct (delete_project_tables uid id d tr) as [Hp Hf].
    eapply map_Forall_subseteq; eauto.
  - destruct (create_chat_tables uid pid body d tr) as [_ ->]. done.
  - destruct (send_message_tables env uid chatId body d tr) as (_ & _ & ->). done.
  - destruct (upload_route_tables env uid pid parts d tr) as [_ Hinv]. auto.
  - destruct (delete_file_tables env uid fileId d tr) as [_ Hf].
    eapply map_Forall_subseteq; eauto.
Qed.

Lemma reachable_invariants d : reachable d → db_inv d.
Proof.
  induction 1 as [now later|d env r tr _ IH].
  - apply map_Forall_empty.
  - by apply handle_keeps_invariants.
Qed.

(** C9, on the code.  A create request whose name or system prompt is
    missing (absent, null or empty) is answered with the validation error
    and creates nothing; a create request that succeeds stores the name
    and the system prompt of the request, both non-empty.  An update that
    succeeds on a project whose name and prompt are not empty takes each
    of the two from the stored row, from a non-empty string of the
    request, or from an operation [{ set: text }] of the request; so it
    leaves both non-empty unless the request sets an empty text that way.
    It can: the owner's update with the name [{ set: '' }] is answered
    200 and stores an empty name, and a database with a project without a
    name can be reached. *)
Theorem project_name_and_prompt_required :
  (∀ uid body d tr,
       truthy (field body "name") = false
       ∨ truthy (field body "systemPrompt") = false →
       create_project uid body (mkState d tr) =
       (Ret (failure 400 "Name and system prompt are required"), mkState d tr))
  ∧ (∀ uid body d tr resp st',
       create_project uid body (mkState d tr) = (Ret resp, st') →
       res_success resp = true →
       ∃ id row,
         res_data resp = ProjectRow id row
         ∧ projects d !! id = None
         ∧ projects (db st') = <[id := row]> (projects d)
         ∧ project_ok row
         ∧ field body "name" = JStr (Project.name row)
         ∧ field body "systemPrompt" = JStr (Project.systemPrompt row))
  ∧ (∀ uid id body d tr old resp st',
       project_findFirst d id uid = Some old →
       project_ok old →
       update_project uid id body (mkState d tr) = (Ret resp, st') →
       res_success resp = true →
       ∃ row,
         res_data resp = ProjectRow id row
         ∧ projects (db st') = <[id := row]> (projects d)
         ∧ (Project.name row = Project.name old
            ∨ (field body "name" = JStr (Project.name row) ∧ Project.name row ≠ [])
            ∨ field body "name" = JSet (JStr (Project.name row)))
         ∧ (Project.systemPrompt row = Project.systemPrompt old
            ∨ (field body "systemPrompt" = JStr (Project.systemPrompt row)
               ∧ Project.systemPrompt row ≠ [])
            ∨ field body "systemPrompt" = JSet (JStr (Project.systemPrompt row)))
         ∧ (field body "name" ≠ JSet (JStr []) →
            field body "systemPrompt" ≠ JSet (JStr []) →
            project_ok row))
  ∧ (∀ uid id d tr old,
       project_findFirst d id uid = Some old →
       let row := Project.mk (Project.userId old) [] (Project.description old)
                    (Project.systemPrompt old) (Project.createdAt old) in
       update_project uid id {[ "name" := JSet (JStr []) ]} (mkState d tr) =
         (Ret (mkResponse 200 true (Some (str "Project updated successfully"))
                 (ProjectRow id row)),
          mkState (set_projects d (<[id := row]> (projects d)))
                  (tr ++ [ProjectUpdated id row])))
  ∧ (∃ d, reachable d ∧ ¬ map_Forall (λ _ p, project_ok p) (projects d)).
Proof.
  assert (Hset : ∀ uid id d tr old,
       project_findFirst d id uid = Some old →
       let row := Project.mk (Project.userId old) [] (Project.description old)
                    (Project.systemPrompt old) (Project.createdAt old) in
       update_project uid id {[ "name" := JSet (JStr []) ]} (mkState d tr) =
         (Ret (mkResponse 200 true (Some (str "Project updated successfully"))
                 (ProjectRow id row)),
          mkState (set_projects d (<[id := row]> (projects d)))
                  (tr ++ [ProjectUpdated id row]))).
  { intros uid id d tr old Hf. cbn zeta.
    pose proof Hf as [Hold _]%project_findFirst_Some.
    unfold update_project, try_catch. run_steps. rewrite Hf.
    assert (field {[ "name" := JSet (JStr []) ]} "name" = JSet (JStr [])) as ->
      by reflexivity.
    assert (field {[ "name" := JSet (JStr []) ]} "description" = JUndefined) as ->
      by reflexivity.
    assert (field {[ "name" := JSet (JStr []) ]} "systemPrompt" = JUndefined) as ->
      by reflexivity.
    cbn [or_val truthy].
    unfold project_update, as_text_update, as_optional_text_update. run_steps.
    rewrite Hold. by run_steps. }
  split; [|split; [|split; [|split; [exact Hset|]]]].
  - intros uid body d tr Hmissing. unfold create_project, try_catch.
    destruct Hmissing as [-> | ->]; [done|]. by rewrite orb_true_r.
  - intros uid body d tr resp st' Hrun Hok.
    destruct (create_project_cases uid body d tr)
      as [H|[H|(name & description & prompt & Hn & Hne & Hs & Hse & H)]];
      cbn zeta in H; rewrite H in Hrun; injection Hrun as <- <-;
      [done..|].
    eexists _, _. split; [reflexivity|]. split; [apply new_id_fresh|].
    repeat split; done.
  - intros uid id body d tr old resp st' Hf [Hn Hs] Hrun Hok.
    destruct (update_project_cases uid id body d tr old Hf)
      as [H|(row & H & _ & Hname & Hprompt)];
      cbn zeta in H; rewrite H in Hrun; injection Hrun as <- <-; [done|].
    exists row. split; [done|]. split; [done|]. split; [done|]. split; [done|].
    intros Hnset Hsset. split.
    + destruct Hname as [->|[[_ ?]|Hset']]; [done..|].
      intros Hnil. by rewrite Hnil in Hset'.
    + destruct Hprompt as [->|[[_ ?]|Hset']]; [done..|].
      intros Hnil. by rewrite Hnil in Hset'.
  - exists (db (update_project 7 0 {[ "name" := JSet (JStr []) ]}
                  (mkState Demo.db_one_project [])).2).
    split.
    + apply (reachable_step Demo.db_one_project Demo.env_down
               (UpdateProject 7 0 {[ "name" := JSet (JStr []) ]}) []).
      apply (reachable_step empty_db Demo.env_down
               (CreateProject 7 Demo.create_body) []).
      apply (reachable_empty 0 []).
    + rewrite (Hset 7 0 Demo.db_one_project []
                 (Project.mk 7 (str "bot") None (str "Be kind.") 0))
        by (vm_compute; reflexivity).
      cbn [snd db set_projects projects]. intros Hall.
      specialize (Hall 0 _ (lookup_insert_eq _ _ _)). by destruct Hall as [Hbad _].
Qed.

(** The witness: a create without a name; a rename of the project that
    create left; and the same project after its owner has set the name
    to the empty text. *)
Lemma project_name_and_prompt_required_witness :
  create_project 7 Demo.nameless_body (mkState empty_db []) =
    (Ret (failure 400 "Name and system prompt are required"), mkState empty_db [])
  ∧ (∃ row,
       projects (db (update_project 7 0 Demo.rename_body
                       (mkState Demo.db_one_project [])).2)
         = <[0 := row]> (projects Demo.db_one_project)
       ∧ project_ok row)
  ∧ (update_project 7 0 {[ "name" := JSet (JStr []) ]}
       (mkState Demo.db_one_project [])).1
    = Ret (mkResponse 200 true (Some (str "Project updated successfully"))
             (ProjectRow 0 (Project.mk 7 [] None (str "Be kind.") 0))).
Proof.
  destruct project_name_and_prompt_required
    as (Hmissing & _ & Hupdate & Hset & _).
  split; [|split].
  - apply Hmissing. left. reflexivity.
  - destruct (Hupdate 7 0 Demo.rename_body Demo.db_one_project []
                (Project.mk 7 (str "bot") None (str "Be kind.") 0)
                (answer (update_project 7 0 Demo.rename_body
                           (mkState Demo.db_one_project [])))
                (update_project 7 0 Demo.rename_body (mkState Demo.db_one_project [])).2)
      as (row & _ & Hp & _ & _ & Hok).
    + vm_compute. reflexivity.
    + split; discriminate.
    + vm_compute. reflexivity.
    + vm_compute. reflexivity.
    + exists row. split; [exact Hp|]. apply Hok; discriminate.
  - exact (f_equal fst
             (Hset 7 0 Demo.db_one_project []
                (Project.mk 7 (str "bot") None (str "Be kind.") 0)
                ltac:(vm_compute; reflexivity))).
Defined.

(** C6. For every stored file of an upload, the route creates one row
    under a new key, with status [uploading] and no external id; asks the
    Files API once; and updates that row once: to [processed] with the id
    the API returned when the call succeeds, to [error] with the error
    message when it fails.  The final row keeps the project, the stored
    and original names, the MIME type and the size it was created with,
    and stays in the table.  A request the middleware lets through, on a
    project of the user, answers with one such row per file, a file being
    a part that carries a file name.  In every database the server can
    reach, a row is [processed] with an external id, or [error]. *)
Theorem uploaded_file_lifecycle :
  (∀ env projectId file acc d tr,
     ∃ id created final st',
       process_file env projectId file acc (mkState d tr)
         = (Ret (acc.1 ++ [(id, final)], acc.2), st')
       ∧ trace st' = tr ++ [FileCreated id created;
                            StagingAttempt (path file) (originalname (part file));
                            FileUpdated id final]
       ∧ files d !! id = None
       ∧ File.status created = Uploading
       ∧ File.openaiFileId created = None
       ∧ ((∃ x, files_api env (path file) (originalname (part file)) = Staged x
                ∧ File.status final = Processed
                ∧ File.openaiFileId final = Some x
                ∧ File.errorMessage final = None)
          ∨ (∃ m, files_api env (path file) (originalname (part file))
                    = StagingFailure m
                  ∧ File.status final = Errored
                  ∧ File.openaiFileId final = None
                  ∧ File.errorMessage final = Some (str "Failed to upload to OpenAI")))
       ∧ (File.status final = Processed → File.openaiFileId final ≠ None)
       ∧ File.projectId final = projectId
       ∧ File.filename final = filename file
       ∧ File.originalName final = originalname (part file)
       ∧ File.mimeType final = mimetype (part file)
       ∧ File.size final = size (part file)
       ∧ File.createdAt final = File.createdAt created
       ∧ files (db st') = <[id := final]> (files d))
  ∧ (∀ env uid projectId parts stored project d tr,
       upload env parts = inr stored →
       stored ≠ [] →
       project_findFirst d projectId uid = Some project →
       ∃ rows st',
         upload_route env uid projectId parts (mkState d tr) =
           (Ret (mkResponse 200 true
                   (Some (decimal (length rows)
                          ++ str " files uploaded successfully"))
                   (FilesData rows [])), st')
         ∧ part <$> stored = files_in parts
         ∧ Forall2 (row_of projectId) rows stored
         ∧ length rows = length (files_in parts)
         ∧ files d ⊆ files (db st')
         ∧ Forall (λ r : N * File.t,
                     file_ok r.2 ∧ files (db st') !! r.1 = Some r.2
                     ∧ files d !! r.1 = None) rows)
  ∧ (∀ d, reachable d → map_Forall (λ _ f, file_ok f) (files d)).
Proof.
  split; [|split].
  - intros env projectId file acc d tr.
    eexists _, (created_row projectId file d), _, _.
    split; [apply process_file_run|]. cbn [trace db tick set_files files].
    split; [reflexivity|]. split; [apply new_id_fresh|].
    split; [reflexivity|]. split; [reflexivity|].
    unfold final_row.
    destruct (files_api env (path file) (originalname (part file))) as [x|m].
    + split; [left; by exists x|]. repeat split; done.
    + split; [right; by exists m|]. repeat split; done.
  - intros env uid projectId parts stored project d tr Hup Hne Hf.
    destruct (upload_route_run env uid projectId parts stored project d tr)
      as (rows & d' & tr' & Hrun & Hof & _ & _ & _ & Hsub & Hrows & _);
      [done..|].
    apply multer_array_accepts in Hup as (Hparts & _).
    exists rows, (mkState d' tr'). split; [done|]. split; [done|].
    split; [done|]. split; [|done].
    by rewrite (Forall2_length _ _ _ Hof), <- (length_fmap part), Hparts.
  - intros d Hd. by apply reachable_invariants.
Qed.

(** The witness: a PDF, and a part without a file name, sent while the
    Files API accepts uploads. *)
Lemma uploaded_file_lifecycle_witness :
  ∃ rows st',
    upload_route Demo.env_staging 7 1 [Demo.nameless_part; Demo.report_pdf]
      (mkState Demo.db1 []) =
      (Ret (mkResponse 200 true
              (Some (decimal (length rows) ++ str " files uploaded successfully"))
              (FilesData rows [])), st')
    ∧ length rows = 1%nat
    ∧ Forall (λ r : N * File.t,
                file_ok r.2 ∧ files (db st') !! r.1 = Some r.2
                ∧ files Demo.db1 !! r.1 = None) rows.
Proof.
  destruct uploaded_file_lifecycle as (_ & Hroute & _).
  destruct (Hroute Demo.env_staging 7 1 [Demo.nameless_part; Demo.report_pdf]
              [stored_as Demo.env_staging 0 Demo.report_pdf]
              Demo.project1 Demo.db1 [])
    as (rows & st' & Hrun & _ & _ & Hlen & _ & Hrows).
  - vm_compute. reflexivity.
  - discriminate.
  - vm_compute. reflexivity.
  - exists rows, st'. split; [exact Hrun|]. split; [exact Hlen | exact Hrows].
Defined.

(** * Further properties of the chat routes *)

Import ReadRoutes.

#[local] Instance older_first_total : Total older_first.
Proof. intros a b. unfold older_first. lia. Qed.

#[local] Instance older_first_trans : Transitive older_first.
Proof. intros a b c. unfold older_first. lia. Qed.

#[local] Instance older_first_refl : Reflexive older_first.
Proof. intros a. unfold older_first. lia. Qed.

Lemma chat_with_messages_None d cid uid :
  chat_with_messages d cid uid = None ↔ ¬ chat_owned_by d uid cid.
Proof.
  rewrite <- chat_findFirst_None. unfold chat_with_messages, chat_findFirst.
  destruct (chats d !! cid) as [c|]; [|done]. cbn.
  destruct (projects d !! Chat.projectId c) as [p|]; [|done]. cbn.
  by case_bool_decide.
Qed.

Lemma chat_with_messages_Some d cid uid chat msgs :
  chat_with_messages d cid uid = Some (chat, msgs) →
  msgs = merge_sort older_first (messages_of_chat d cid).
Proof.
  unfold chat_with_messages.
  destruct (chats d !! cid) as [c|]; [|done]. cbn.
  destruct (projects d !! Chat.projectId c) as [p|]; [|done]. cbn.
  case_bool_decide; [|done]. by intros [= _ <-].
Qed.

Lemma get_messages_run uid chatId st :
  get_messages uid chatId st =
  (Ret (match chat_with_messages (db st) chatId uid with
        | Some (_, msgs) => granted msgs
        | None => refused 404 "Chat not found"
        end), st).
Proof.
  unfold get_messages, try_catch. run_steps.
  by destruct (chat_with_messages (db st) chatId uid) as [[chat msgs]|].
Qed.

(** X1. The message list of a chat: a user who does not own the chat's
    project gets 404; the owner gets every row of the chat, each once, in
    ascending timestamp order.  The route changes nothing. *)
Theorem get_messages_lists_chat uid chatId d tr :
  (¬ chat_owned_by d uid chatId →
     get_messages uid chatId (mkState d tr) =
     (Ret (refused 404 "Chat not found"), mkState d tr))
  ∧ (chat_owned_by d uid chatId →
       ∃ msgs,
         get_messages uid chatId (mkState d tr) = (Ret (granted msgs), mkState d tr)
         ∧ msgs ≡ₚ messages_of_chat d chatId
         ∧ NoDup msgs
         ∧ Sorted older_first msgs
         ∧ ∀ im, im ∈ msgs ↔
             messages d !! im.1 = Some im.2 ∧ Message.chatId im.2 = chatId).
Proof.
  rewrite get_messages_run. cbn [db]. split.
  - intros Hno. apply chat_with_messages_None in Hno. by rewrite Hno.
  - intros Hown.
    destruct (chat_with_messages d chatId uid) as [[chat msgs]|] eqn:Hc.
    + apply chat_with_messages_Some in Hc as ->.
      eexists. split; [reflexivity|].
      split; [apply merge_sort_Permutation|].
      split; [rewrite merge_sort_Permutation; apply messages_of_chat_NoDup|].
      split; [apply Sorted_merge_sort; apply _|].
      intros im. rewrite merge_sort_Permutation. apply messages_of_chat_elem.
    + by apply chat_with_messages_None in Hc.
Qed.

Lemma get_messages_lists_chat_witness :
  get_messages 8 1 (mkState Demo.db1 []) =
    (Ret (refused 404 "Chat not found"), mkState Demo.db1 [])
  ∧ ∃ msgs,
      get_messages 7 1 (mkState Demo.db1 []) = (Ret (granted msgs), mkState Demo.db1 [])
      ∧ msgs ≡ₚ messages_of_chat Demo.db1 1
      ∧ Sorted older_first msgs.
Proof.
  destruct (get_messages_lists_chat 8 1 Demo.db1 []) as [Hno _].
  destruct (get_messages_lists_chat 7 1 Demo.db1 []) as [_ Hown].
  split.
  - apply Hno. apply chat_findFirst_None. vm_compute. reflexivity.
  - destruct Hown as (msgs & Hrun & Hperm & _ & Hsorted & _).
    + exists (Chat.mk 1 (str "first chat") 1), Demo.project1.
      repeat split; vm_compute; reflexivity.
    + exists msgs. split; [exact Hrun|]. split; [exact Hperm | exact Hsorted].
Defined.

Lemma messages_of_chat_insert d cid k row :
  messages d !! k = None → Message.chatId row = cid →
  messages_of_chat (tick (set_messages d (<[k := row]> (messages d)))) cid
  ≡ₚ (k, row) :: messages_of_chat d cid.
Proof.
  intros Hk Hc. unfold messages_of_chat. cbn [tick set_messages messages].
  rewrite map_to_list_insert by done.
  rewrite filter_cons, decide_True by done. reflexivity.
Qed.

(** In a sorted list, an element that may not follow another precedes it. *)
Lemma sorted_places {A} (R : relation A) `{!Reflexive R} (l : list A) x y :
  StronglySorted R l → x ∈ l → y ∈ l → ¬ R y x →
  ∃ l1 l2 l3, l = l1 ++ x :: l2 ++ y :: l3.
Proof.
  intros Hs Hx Hy Hxy.
  apply list_elem_of_split in Hx as (l1 & r & ->).
  apply elem_of_app in Hy as [Hy|Hy].
  - destruct Hxy. apply (StronglySorted_app_1_elem_of R l1 (x :: r)); [done..|].
    by left.
  - apply elem_of_cons in Hy as [->|Hy]; [by destruct Hxy|].
    apply list_elem_of_split in Hy as (l2 & l3 & ->). eauto.
Qed.

(** A request that was answered 200 had a result with text. *)
Lemma send_message_ok_text env uid chatId body s d tr chat project recent resp st' :
  field body "content" = JStr s → trim s ≠ [] →
  chat_findFirst d chatId uid = Some (chat, project, recent) →
  send_message env uid chatId body (mkState d tr) = (Ret resp, st') →
  res_status resp = 200 →
  is_Some (text_of (ai_content
             (sent_result env uid s (field body "fileIds") d project recent))).
Proof.
  intros Hc Ht Hf Hrun Hok.
  destruct (text_of _) as [text|] eqn:Htext; [eauto|].
  rewrite (send_message_crash _ _ _ _ s _ _ chat project recent) in Hrun by done.
  injection Hrun as <- <-. done.
Qed.

(** X2. Reading a chat back after a send that was answered 200: the list
    holds the new user row and the new assistant row, each once, and
    besides them what the chat held before; it is in ascending order of
    the stamps.  The stamp of the user row is not later than that of the
    assistant row, and when it is earlier the user row comes first in the
    list; when the two inserts fell in the same millisecond the query
    does not say which comes first. *)
Theorem sent_messages_read_back
    env uid chatId body s d tr chat project recent resp st' :
  field body "content" = JStr s →
  trim s ≠ [] →
  chat_findFirst d chatId uid = Some (chat, project, recent) →
  send_message env uid chatId body (mkState d tr) = (Ret resp, st') →
  res_status resp = 200 →
  ∃ ukey urow akey arow label usage listed,
    resp = mkResponse 200 true None (SendData (ukey, urow) (akey, arow) label usage)
    ∧ get_messages uid chatId st' = (Ret (granted listed), st')
    ∧ listed ≡ₚ (ukey, urow) :: (akey, arow) :: messages_of_chat d chatId
    ∧ ((ukey, urow) ∉ messages_of_chat d chatId)
    ∧ ((akey, arow) ∉ messages_of_chat d chatId)
    ∧ ukey ≠ akey
    ∧ Sorted older_first listed
    ∧ (Message.timestamp urow ≤ Message.timestamp arow)%N
    ∧ ((Message.timestamp urow < Message.timestamp arow)%N →
       ∃ before between after,
         listed = before ++ (ukey, urow) :: between ++ (akey, arow) :: after).
Proof.
  intros Hc Ht Hf Hrun Hok.
  pose proof (send_message_ok_text _ _ _ _ _ _ _ _ _ _ _ _ Hc Ht Hf Hrun Hok)
    as Htext.
  rewrite (send_message_run _ _ _ _ s _ _ chat project recent) in Hrun by done.
  rewrite (send_message_body_run _ _ _ _ _ _ _ chat project recent) in Hrun by done.
  injection Hrun as <- <-.
  set (fileIds := field body "fileIds").
  set (urow := user_row chatId s d).
  set (arow := assistant_row env uid chatId s fileIds d project recent).
  set (d1 := db_after_user chatId s d).
  set (d2 := db_after_send env uid chatId s fileIds d project recent).
  destruct (user_key_is_new chatId s d) as (Hu & Ha' & Hne).
  pose proof (new_id_fresh (messages d1)) as Ha.
  fold (assistant_id chatId s d) in Ha.
  assert (messages_of_chat d2 chatId
          ≡ₚ (assistant_id chatId s d, arow) :: (user_id d, urow)
             :: messages_of_chat d chatId) as Hperm.
  { unfold d2, db_after_send. rewrite messages_of_chat_insert by done.
    unfold d1, db_after_user. by rewrite messages_of_chat_insert. }
  apply chat_findFirst_Some in Hf as (_ & Hchat & Hproject & Huid).
  assert (chat_with_messages d2 chatId uid
          = Some (chat, merge_sort older_first (messages_of_chat d2 chatId))) as Hget.
  { unfold chat_with_messages.
    change (chats d2) with (chats d). change (projects d2) with (projects d).
    rewrite Hchat. cbn. rewrite Hproject. cbn.
    by rewrite bool_decide_eq_true_2. }
  exists (user_id d), urow, (assistant_id chatId s d), arow.
  eexists _, _, (merge_sort older_first (messages_of_chat d2 chatId)).
  split; [reflexivity|].
  split. { rewrite get_messages_run. cbn [db]. fold d2. by rewrite Hget. }
  split. { rewrite merge_sort_Permutation, Hperm. apply perm_swap. }
  split. { intros [Hin _]%messages_of_chat_elem. cbn in Hin. congruence. }
  split. { intros [Hin _]%messages_of_chat_elem. cbn in Hin. congruence. }
  split; [done|].
  split. { apply Sorted_merge_sort; apply _. }
  split. { apply clock_after_user. }
  intros Hlt.
  apply (sorted_places older_first).
  - apply StronglySorted_merge_sort; apply _.
  - rewrite merge_sort_Permutation, Hperm. set_solver.
  - rewrite merge_sort_Permutation, Hperm. set_solver.
  - unfold older_first. cbn [snd]. lia.
Qed.

(** The witness: the sample chat with both backends down, where a
    millisecond passes between the two inserts. *)
Lemma sent_messages_read_back_witness :
  ∃ ukey urow akey arow listed st',
    get_messages 7 1 st' = (Ret (granted listed), st')
    ∧ listed ≡ₚ (ukey, urow) :: (akey, arow) :: messages_of_chat Demo.db1 1
    ∧ ∃ before between after,
        listed = before ++ (ukey, urow) :: between ++ (akey, arow) :: after.
Proof.
  destruct (sent_messages_read_back
              Demo.env_down 7 1 Demo.hello_body (str " hi ") Demo.db1 []
              (Chat.mk 1 (str "first chat") 1) Demo.project1
              (latest_messages Demo.db1 1)
              (answer (send_message Demo.env_down 7 1 Demo.hello_body
                         (mkState Demo.db1 [])))
              (send_message Demo.env_down 7 1 Demo.hello_body
                 (mkState Demo.db1 [])).2)
    as (ukey & urow & akey & arow & label & usage & listed
        & Hresp & Hget & Hperm & _ & _ & _ & _ & _ & Horder).
  - reflexivity.
  - vm_compute. discriminate.
  - vm_compute. reflexivity.
  - vm_compute. reflexivity.
  - vm_compute. reflexivity.
  - exists ukey, urow, akey, arow, listed. eexists.
    split; [exact Hget|]. split; [exact Hperm|]. apply Horder.
    assert (Message.timestamp urow = 4 ∧ Message.timestamp arow = 5) as [-> ->].
    { vm_compute in Hresp. by injection Hresp as <- <- <- <-. }
    lia.
Defined.

(** Two rows of one send can carry the same stamp: here the sample chat
    is written to twice within a millisecond. *)
Lemma one_send_same_stamp :
  ∃ ukey urow akey arow label usage st',
    send_message Demo.env_down 7 1 Demo.hello_body (mkState Demo.db1_busy []) =
      (Ret (mkResponse 200 true None
              (SendData (ukey, urow) (akey, arow) label usage)), st')
    ∧ Message.timestamp urow = Message.timestamp arow.
Proof.
  eexists _, _, _, _, _, _, _. split; [vm_compute; reflexivity|].
  reflexivity.
Qed.

Lemma first_reply_app_failed env msgs before rest :
  (∀ x, x ∈ before → llm env x msgs = LlmFailure) →
  first_reply env msgs (before ++ rest) = first_reply env msgs rest
  ∧ attempted env msgs (before ++ rest) = before ++ attempted env msgs rest.
Proof.
  induction before as [|b before IH]; intros Hfail; [done|]. cbn.
  rewrite (Hfail b) by left.
  destruct IH as [-> ->]; [|done]. intros x Hx. apply Hfail. by right.
Qed.

(** X3. What the selector returns: when no service of the order
    replies (in particular when no credential is configured, and then
    without any request) it throws the unavailability error after one
    request to each; when the services before some service of the order
    fail and that one replies, it returns that reply under that service's
    label, having sent nothing to the services after it. *)
Theorem getAIResponse_first_reply env msgs preferredService st :
  let order := service_order env preferredService in
  ((∀ s, s ∈ order → llm env s msgs = LlmFailure) →
     getAIResponse env msgs preferredService st =
     (Throw (str "All LLM services are currently unavailable"),
      mkState (db st) (trace st ++ attempts_as_events msgs order)))
  ∧ (∀ before s after content usage,
       order = before ++ s :: after →
       (∀ x, x ∈ before → llm env x msgs = LlmFailure) →
       llm env s msgs = LlmReply content usage →
       getAIResponse env msgs preferredService st =
       (Ret (mkAiResult content (service_label s) usage),
        mkState (db st) (trace st ++ attempts_as_events msgs (before ++ [s]))))
  ∧ (configured (OPENAI_API_KEY env) = false →
     configured (OPENROUTER_API_KEY env) = false →
     getAIResponse env msgs preferredService st =
     (Throw (str "All LLM services are currently unavailable"), st)).
Proof.
  cbn zeta. unfold getAIResponse. rewrite try_services_run.
  split; [|split].
  - intros Hall. rewrite first_reply_none by done.
    by rewrite attempted_all_when_none_replies by by apply first_reply_none.
  - intros before s after content usage -> Hfail Hreply.
    destruct (first_reply_app_failed env msgs before (s :: after) Hfail)
      as [-> ->].
    cbn. by rewrite Hreply.
  - intros Hai Hor.
    assert (service_order env preferredService = []) as ->.
    { rewrite service_order_is_spec_order.
      destruct (spec_order env preferredService) as [|x l] eqn:Ho; [done|].
      assert (configured (api_key env x) = true) as Hx.
      { apply (spec_order_configured env preferredService). rewrite Ho. by left. }
      destruct x; cbn in Hx; congruence. }
    cbn. rewrite app_nil_r. by destruct st.
Qed.

(** The witness: OpenRouter hinted and down, OpenAI answering. *)
Lemma getAIResponse_first_reply_witness :
  getAIResponse (Demo.env_with (LlmReply (JStr (str "42")) None) LlmFailure) []
    (JStr (LLM_SERVICES OPENROUTER)) (mkState Demo.db1 []) =
  (Ret (mkAiResult (JStr (str "42")) (service_label OPENAI) None),
   mkState Demo.db1 ([] ++ attempts_as_events [] ([OPENROUTER] ++ [OPENAI]))).
Proof.
  apply (proj1 (proj2 (getAIResponse_first_reply
                         (Demo.env_with (LlmReply (JStr (str "42")) None) LlmFailure) []
                         (JStr (LLM_SERVICES OPENROUTER)) (mkState Demo.db1 [])))
           [OPENROUTER] OPENAI []).
  - vm_compute. reflexivity.
  - intros x Hx. apply list_elem_of_singleton in Hx. subst x. reflexivity.
  - reflexivity.
Defined.

Import ChatCreation.

(** X4. Creating a chat: on a project that is not the user's the route
    answers 404 and creates nothing; on the user's project it creates one
    chat row under a new key, in that project, titled as asked or
    [New Chat] when no title is given (absent, null or empty), and
    touches no other table.  The new chat is the creator's and nobody
    else's. *)
Theorem chat_creation uid projectId body d tr :
  (project_findFirst d projectId uid = None →
     create_chat uid projectId body (mkState d tr) =
     (Ret (failure 404 "Project not found"), mkState d tr))
  ∧ (∀ project t,
       project_findFirst d projectId uid = Some project →
       (truthy (field body "title") = false ∧ t = str "New Chat")
       ∨ (field body "title" = JStr t ∧ t ≠ []) →
       let id := new_id (chats d) in
       let row := Chat.mk projectId t (clock d) in
       let d' := tick (set_chats d (<[id := row]> (chats d))) in
       create_chat uid projectId body (mkState d tr) =
         (Ret (mkResponse 201 true None (ChatData id row)),
          mkState d' (tr ++ [ChatCreated id row]))
       ∧ chats d !! id = None
       ∧ chat_owned_by d' uid id
       ∧ ∀ other, other ≠ uid → ¬ chat_owned_by d' other id).
Proof.
  split.
  - intros Hf. unfold create_chat, try_catch. run_steps. by rewrite Hf.
  - intros project t Hf Htitle. cbn zeta.
    assert (or_val (field body "title") (JStr (str "New Chat")) = JStr t) as Hor.
    { unfold or_val. destruct Htitle as [[-> ->]|[-> Ht]]; [done|].
      by rewrite (proj2 (truthy_text t)). }
    pose proof Hf as [Hp Hu]%project_findFirst_Some.
    assert (chats (tick (set_chats d (<[new_id (chats d) :=
                     Chat.mk projectId t (clock d)]> (chats d))))
              !! new_id (chats d) = Some (Chat.mk projectId t (clock d))) as Hnew.
    { cbn [tick set_chats chats]. apply lookup_insert_eq. }
    split; [|split; [apply new_id_fresh|split]].
    + unfold create_chat, try_catch. run_steps. rewrite Hf. run_steps.
      rewrite Hor. unfold as_text. run_steps. reflexivity.
    + exists (Chat.mk projectId t (clock d)), project. done.
    + intros other Hother (c & p & Hc & Hp' & Hu').
      rewrite Hnew in Hc. injection Hc as <-.
      cbn [tick set_chats projects Chat.projectId] in Hp'. congruence.
Qed.

Lemma chat_creation_witness :
  create_chat 8 1 ∅ (mkState Demo.db1 []) =
    (Ret (failure 404 "Project not found"), mkState Demo.db1 [])
  ∧ ∃ id row d',
      create_chat 7 1 ∅ (mkState Demo.db1 []) =
        (Ret (mkResponse 201 true None (ChatData id row)),
         mkState d' ([] ++ [ChatCreated id row]))
      ∧ Chat.title row = str "New Chat"
      ∧ chat_owned_by d' 7 id.
Proof.
  destruct (chat_creation 8 1 ∅ Demo.db1 []) as [Hno _].
  destruct (chat_creation 7 1 ∅ Demo.db1 []) as [_ Hyes].
  split.
  - apply Hno. reflexivity.
  - destruct (Hyes Demo.project1 (str "New Chat")) as (Hrun & _ & Hown & _).
    + reflexivity.
    + left. split; reflexivity.
    + eexists _, _, _. split; [exact Hrun|]. split; [reflexivity | exact Hown].
Defined.

Lemma mapM_id_Some (ids : list jsstring) : mapM id (Some <$> ids) = Some ids.
Proof. induction ids as [|x ids IH]; [done|]. cbn. by rewrite IH. Qed.

Lemma mapM_id_None (items : list (option jsstring)) :
  None ∈ items → mapM id items = None.
Proof.
  induction items as [|x items IH]; [by intros ?%elem_of_nil|].
  intros [<-|Hin]%elem_of_cons; [done|]. cbn.
  destruct x; [|done]. cbn. by rewrite IH.
Qed.

(** X5. The file context of a send-message request.  A [fileIds] array
    with an element that is not a string gives no context; so does a
    string, a number, a boolean, null or an object.  For an array of
    strings, the files named are exactly the rows whose external id is in
    the array and whose project belongs to the requesting user, each
    once: a file of another user is never named, even when its id is
    listed. *)
Theorem file_context_names_own_files d uid :
  (∀ items, None ∈ items → file_context_of d (JArr items) uid = [])
  ∧ (∀ v, match v with JArr _ => False | _ => True end →
          file_context_of d v uid = [])
  ∧ (∀ ids,
       ∃ found,
         file_context_of d (JArr (Some <$> ids)) uid =
           (if bool_decide (found = []) then [] else file_context_text found)
         ∧ NoDup found
         ∧ ∀ i f, (i, f) ∈ found ↔
             files d !! i = Some f
             ∧ (∃ x, File.openaiFileId f = Some x ∧ x ∈ ids)
             ∧ (∃ p, projects d !! File.projectId f = Some p
                     ∧ Project.userId p = uid)).
Proof.
  split; [|split].
  - intros [|x rest] Hin; [done|].
    unfold file_context_of, file_context, try_catch, file_findMany_in.
    run_steps. by rewrite mapM_id_None.
  - intros [| | | |[|c s]| | |v] Hv; done.
  - intros ids.
    exists (filter (λ x : N * File.t,
                      file_referenced ids x.2 && owned_by d uid x.2 = true)
                   (map_to_list (files d))).
    split; [|split].
    + destruct ids as [|x ids].
      * case_bool_decide as Hnil; [done|]. destruct Hnil.
        destruct (filter _ _) as [|y found] eqn:Hfound; [done|].
        assert (y ∈ y :: found) as Hy by left. rewrite <- Hfound in Hy.
        apply list_elem_of_filter in Hy as [Hy _].
        apply andb_true_iff in Hy as [Hy _]. unfold file_referenced in Hy.
        destruct (File.openaiFileId y.2); [|done].
        apply bool_decide_eq_true in Hy. by apply elem_of_nil in Hy.
      * change (Some <$> x :: ids) with (Some x :: (Some <$> ids)).
        unfold file_context_of, file_context, try_catch, file_findMany_in.
        run_steps. change (Some x :: (Some <$> ids)) with (Some <$> x :: ids).
        rewrite mapM_id_Some. run_steps.
        destruct (filter _ _) as [|y found]; [done|].
        rewrite bool_decide_eq_true_2 by (cbn; lia).
        by rewrite bool_decide_eq_false_2.
    + apply NoDup_filter, NoDup_map_to_list.
    + intros i f. rewrite list_elem_of_filter, elem_of_map_to_list. cbn.
      unfold file_referenced, owned_by. rewrite andb_true_iff.
      destruct (File.openaiFileId f) as [x|];
        destruct (projects d !! File.projectId f) as [p|];
        rewrite ?bool_decide_eq_true;
        (split;
         [ intros [[? ?] ?]; try done; repeat split; eauto
         | intros (? & (? & ? & ?) & (? & ? & ?)); by simplify_eq ]).
Qed.

Lemma file_context_names_own_files_witness :
  file_context_of Demo2.db_files (JArr [Some (str "file-a"); None]) 7 = []
  ∧ file_context_of Demo2.db_files (JStr (str "file-a")) 7 = []
  ∧ ∃ found,
      file_context_of Demo2.db_files
        (JArr (Some <$> [str "file-a"; str "file-b"])) 7 =
        (if bool_decide (found = []) then [] else file_context_text found)
      ∧ ((1, Demo2.file_a) ∈ found)
      ∧ ((2, Demo2.file_b) ∉ found).
Proof.
  destruct (file_context_names_own_files Demo2.db_files 7)
    as (Hbad & Hother & Hgood).
  split; [|split].
  - apply Hbad. right. left.
  - by apply Hother.
  - destruct (Hgood [str "file-a"; str "file-b"]) as (found & Hrun & _ & Hin).
    exists found. split; [exact Hrun|]. split.
    + apply Hin. split; [reflexivity|]. split.
      * exists (str "file-a"). split; [reflexivity | left].
      * exists Demo2.project_a. split; reflexivity.
    + intros (_ & _ & (p & Hp & Hu))%Hin.
      vm_compute in Hp. injection Hp as <-. discriminate Hu.
Defined.

(** * The offline reply *)

Lemma Qfloor_unit_times (r : Q) (n : Z) :
  (0 < n)%Z → (0 <= r)%Q → (r < 1)%Q →
  (0 ≤ Qfloor (r * inject_Z n) < n)%Z.
Proof.
  intros Hn H0 H1. split.
  - change 0%Z with (Qfloor 0). apply Qfloor_resp_le.
    apply Qmult_le_0_compat; [done|].
    change 0%Q with (inject_Z 0). rewrite <- Zle_Qle. lia.
  - rewrite Zlt_Qlt. eapply Qle_lt_trans; [apply Qfloor_le|].
    rewrite <- (Qmult_1_l (inject_Z n)) at 2.
    apply Qmult_lt_compat_r; [|done].
    change 0%Q with (inject_Z 0). rewrite <- Zlt_Qlt. lia.
Qed.

(** X6. When [Math.random()] is in its range, the offline reply is one
    of the four canned texts (never the word [undefined]), followed, when
    the project has a system prompt, by the note that quotes at most its
    first 100 code units; its label is [Fallback Mode] and it has no
    usage. *)
Theorem fallback_is_a_canned_reply env project content :
  (0 <= random env)%Q → (random env < 1)%Q →
  ∃ i text,
    (i < 4)%nat
    ∧ responses content !! i = Some text
    ∧ ai_content (fallback_result env project content) =
        JStr (text ++ (if bool_decide (Project.systemPrompt project = []) then []
                       else nl ++ nl ++ str "Note: I'm configured as: "
                            ++ take 100 (Project.systemPrompt project) ++ str "..."))
    ∧ ai_service (fallback_result env project content) = str "Fallback Mode"
    ∧ ai_usage (fallback_result env project content) = None.
Proof.
  intros H0 H1. unfold fallback_result. cbn [ai_content ai_service ai_usage].
  change (length (responses content)) with 4%nat.
  destruct (Qfloor_unit_times (random env) (Z.of_nat 4)) as [Hlo Hhi];
    [lia | done | done |].
  set (z := Qfloor (random env * inject_Z (Z.of_nat 4))) in *.
  unfold index_as_text. rewrite (proj2 (Z.ltb_ge z 0)) by done.
  assert (Z.to_nat z < 4)%nat as Hi by lia.
  destruct (responses content !! Z.to_nat z) as [text|] eqn:Hget.
  - exists (Z.to_nat z), text. split; [done|]. split; [done|].
    split; [|done]. cbn [default truthy]. unfold slice0.
    by destruct (bool_decide (Project.systemPrompt project = [])).
  - apply lookup_ge_None in Hget.
    change (length (responses content)) with 4%nat in Hget. lia.
Qed.

Lemma fallback_is_a_canned_reply_witness :
  ∃ i text,
    (i < 4)%nat
    ∧ responses (str "hi") !! i = Some text
    ∧ ai_content (fallback_result Demo.env_down Demo.project1 (str "hi")) =
        JStr (text ++ (if bool_decide (Project.systemPrompt Demo.project1 = []) then []
                       else nl ++ nl ++ str "Note: I'm configured as: "
                            ++ take 100 (Project.systemPrompt Demo.project1)
                            ++ str "..."))
    ∧ ai_service (fallback_result Demo.env_down Demo.project1 (str "hi"))
      = str "Fallback Mode"
    ∧ ai_usage (fallback_result Demo.env_down Demo.project1 (str "hi")) = None.
Proof.
  apply fallback_is_a_canned_reply; vm_compute; [discriminate | reflexivity].
Defined.

(** * Further properties of the project routes *)

Import ProjectRun.

#[local] Instance newer_project_first_total : Total newer_project_first.
Proof. intros a b. unfold newer_project_first. lia. Qed.

#[local] Instance newer_project_first_trans : Transitive newer_project_first.
Proof. intros a b c. unfold newer_project_first. lia. Qed.

#[local] Instance newer_chat_first_total : Total newer_chat_first.
Proof. intros a b. unfold newer_chat_first. lia. Qed.

#[local] Instance newer_chat_first_trans : Transitive newer_chat_first.
Proof. intros a b c. unfold newer_chat_first. lia. Qed.

Lemma projects_of_user_elem d uid ip :
  ip ∈ projects_of_user d uid ↔
  projects d !! ip.1 = Some ip.2 ∧ Project.userId ip.2 = uid.
Proof.
  unfold projects_of_user. rewrite list_elem_of_filter.
  destruct ip as [i p]. rewrite elem_of_map_to_list. cbn. tauto.
Qed.

Lemma list_projects_run uid st :
  list_projects uid st =
  (Ret (granted (list_item (db st) <$> merge_sort newer_project_first
                                         (projects_of_user (db st) uid))), st).
Proof. unfold list_projects, try_catch. by run_steps. Qed.

(** X7. The project list of a user holds every project of that user,
    each once, and no project of anyone else; it is ordered newest first;
    each item carries the number of chats of the project and at most one
    chat.  The route changes nothing. *)
Theorem list_projects_only_own uid d tr :
  ∃ items,
    list_projects uid (mkState d tr) = (Ret (granted items), mkState d tr)
    ∧ NoDup (item_id <$> items)
    ∧ (∀ id p, (∃ it, it ∈ items ∧ item_id it = id ∧ item_row it = p) ↔
               projects d !! id = Some p ∧ Project.userId p = uid)
    ∧ Sorted (λ a b, Project.createdAt (item_row b) ≤ Project.createdAt (item_row a))
             items
    ∧ Forall (λ it, item_count it = length (chats_of_project d (item_id it))
                    ∧ (length (item_chats it) ≤ 1)%nat) items.
Proof.
  rewrite list_projects_run. cbn [db].
  set (sorted := merge_sort newer_project_first (projects_of_user d uid)).
  assert (sorted ≡ₚ projects_of_user d uid) as Hperm
    by apply merge_sort_Permutation.
  eexists. split; [reflexivity|]. split; [|split; [|split]].
  - rewrite <- list_fmap_compose.
    change (item_id ∘ list_item d) with (@fst N Project.t).
    rewrite Hperm. unfold projects_of_user.
    apply (sublist_NoDup _ (map_to_list (projects d)).*1).
    + apply NoDup_fst_map_to_list.
    + apply fmap_sublist, sublist_filter.
  - intros id p. split.
    + intros (it & (ip & -> & Hip)%list_elem_of_fmap & <- & <-).
      rewrite Hperm in Hip. by apply projects_of_user_elem in Hip.
    + intros Hrow. exists (list_item d (id, p)). split; [|done].
      apply list_elem_of_fmap. exists (id, p). split; [done|].
      rewrite Hperm. by apply projects_of_user_elem.
  - apply Sorted_fmap with (R1 := newer_project_first); [done|].
    apply Sorted_merge_sort; apply _.
  - apply Forall_fmap, Forall_true. intros ip. cbn. split; [done|].
    rewrite length_fmap, length_take. lia.
Qed.

Lemma list_projects_only_own_witness :
  ∃ items,
    list_projects 7 (mkState Demo2.db_files []) =
      (Ret (granted items), mkState Demo2.db_files [])
    ∧ (∃ it, it ∈ items ∧ item_id it = 1 ∧ item_row it = Demo2.project_a)
    ∧ ¬ (∃ it, it ∈ items ∧ item_id it = 2 ∧ item_row it = Demo2.project_b).
Proof.
  destruct (list_projects_only_own 7 Demo2.db_files [])
    as (items & Hrun & _ & Hin & _).
  exists items. split; [exact Hrun|]. split.
  - apply Hin. split; reflexivity.
  - intros [_ Hu]%Hin. discriminate Hu.
Defined.

(** The [n] first rows of a sort. *)
Section NewestFirst.
Context {A : Type} (R : relation A) `{∀ x y, Decision (R x y)}.
Context `{!Total R} `{!Transitive R}.

Lemma newest_length n (l : list A) :
  length (take n (merge_sort R l)) = (n `min` length l)%nat.
Proof.
  rewrite length_take. by rewrite (Permutation_length (merge_sort_Permutation R l)).
Qed.

Lemma newest_NoDup n (l : list A) : NoDup l → NoDup (take n (merge_sort R l)).
Proof.
  intros Hnd. apply (sublist_NoDup _ (merge_sort R l)); [|apply sublist_take].
  by rewrite merge_sort_Permutation.
Qed.

Lemma newest_elem n (l : list A) x : x ∈ take n (merge_sort R l) → x ∈ l.
Proof. intros Hx%subseteq_take. by rewrite merge_sort_Permutation in Hx. Qed.

Lemma newest_sorted n (l : list A) : Sorted R (take n (merge_sort R l)).
Proof.
  apply StronglySorted_Sorted.
  apply (StronglySorted_app_1_l R _ (drop n (merge_sort R l))).
  rewrite take_drop. apply StronglySorted_merge_sort; apply _.
Qed.

Lemma newest_left_out n (l : list A) x y :
  x ∈ l → x ∉ take n (merge_sort R l) → y ∈ take n (merge_sort R l) → R y x.
Proof.
  intros Hx Hout Hy.
  pose proof (StronglySorted_merge_sort R l) as Hs.
  rewrite <- (take_drop n (merge_sort R l)) in Hs.
  apply (StronglySorted_app_1_elem_of R _ _ y x Hs Hy).
  rewrite <- (merge_sort_Permutation R l) in Hx.
  rewrite <- (take_drop n (merge_sort R l)) in Hx.
  by apply elem_of_app in Hx as [Hx|Hx].
Qed.
End NewestFirst.

Lemma chats_of_project_elem d pid ic :
  ic ∈ chats_of_project d pid ↔
  chats d !! ic.1 = Some ic.2 ∧ Chat.projectId ic.2 = pid.
Proof.
  unfold chats_of_project. rewrite list_elem_of_filter.
  destruct ic as [i c]. rewrite elem_of_map_to_list. cbn. tauto.
Qed.

Lemma get_project_run uid id st :
  get_project uid id st =
  (Ret (match project_findFirst (db st) id uid with
        | Some project =>
            mkResponse 200 true None (ProjectData id project (recent_chats (db st) id))
        | None => failure 404 "Project not found"
        end), st).
Proof.
  unfold get_project, try_catch. run_steps.
  by destruct (project_findFirst (db st) id uid).
Qed.

(** X8. Reading one's own project: the answer carries the stored row and
    the chats of that project only, at most 10 (all of them when there
    are fewer), none twice, newest first, and no chat left out is newer
    than one returned.  The route changes nothing. *)
Theorem get_project_owner uid id d tr project :
  project_findFirst d id uid = Some project →
  ∃ recent,
    get_project uid id (mkState d tr) =
      (Ret (mkResponse 200 true None (ProjectData id project recent)), mkState d tr)
    ∧ projects d !! id = Some project
    ∧ length recent = (10 `min` length (chats_of_project d id))%nat
    ∧ NoDup recent
    ∧ Forall (λ ic, chats d !! ic.1 = Some ic.2 ∧ Chat.projectId ic.2 = id) recent
    ∧ Sorted newer_chat_first recent
    ∧ (∀ ic c, chats d !! ic.1 = Some ic.2 → Chat.projectId ic.2 = id →
         ic ∉ recent → c ∈ recent → Chat.createdAt ic.2 ≤ Chat.createdAt c.2).
Proof.
  intros Hf. rewrite get_project_run. cbn [db]. rewrite Hf.
  exists (recent_chats d id). split; [reflexivity|].
  split; [by apply project_findFirst_Some in Hf as [? _]|].
  unfold recent_chats. fold (chats_of_project d id).
  split; [apply newest_length|].
  split; [apply newest_NoDup, NoDup_filter, NoDup_map_to_list|].
  split.
  { apply Forall_forall. intros ic Hic%newest_elem.
    by apply chats_of_project_elem. }
  split; [apply newest_sorted; apply _|].
  intros ic c Hrow Hp Hout Hc.
  apply (newest_left_out newer_chat_first 10 (chats_of_project d id) ic c);
    [|done..].
  by apply chats_of_project_elem.
Qed.

Lemma get_project_owner_witness :
  ∃ recent,
    get_project 7 1 (mkState Demo.db1 []) =
      (Ret (mkResponse 200 true None (ProjectData 1 Demo.project1 recent)),
       mkState Demo.db1 [])
    ∧ length recent = (10 `min` length (chats_of_project Demo.db1 1))%nat
    ∧ Sorted newer_chat_first recent.
Proof.
  destruct (get_project_owner 7 1 Demo.db1 [] Demo.project1)
    as (recent & Hrun & _ & Hlen & _ & _ & Hsorted & _).
  - reflexivity.
  - exists recent. split; [exact Hrun|]. split; [exact Hlen | exact Hsorted].
Defined.

Lemma project_findFirst_created d id row u :
  project_findFirst (tick (set_projects d (<[id := row]> (projects d)))) id u =
  if bool_decide (Project.userId row = u) then Some row else None.
Proof.
  unfold project_findFirst. cbn [tick set_projects projects].
  by rewrite lookup_insert_eq.
Qed.

(** X9. A project that was just created can be read back by its creator
    as the row the create route answered with, and by nobody else. *)
Theorem created_project_read_back uid body d tr resp st' :
  create_project uid body (mkState d tr) = (Ret resp, st') →
  res_success resp = true →
  ∃ id row,
    res_data resp = ProjectRow id row
    ∧ Project.userId row = uid
    ∧ (∃ recent,
         get_project uid id st' =
         (Ret (mkResponse 200 true None (ProjectData id row recent)), st'))
    ∧ ∀ other, other ≠ uid →
        get_project other id st' = (Ret (failure 404 "Project not found"), st').
Proof.
  intros Hrun Hok.
  destruct (create_project_cases uid body d tr)
    as [H|[H|(name & description & prompt & _ & _ & _ & _ & H)]];
    cbn zeta in H; rewrite H in Hrun; injection Hrun as <- <-; [done..|].
  eexists _, _. split; [reflexivity|]. split; [reflexivity|].
  split.
  - eexists. rewrite get_project_run. cbn [db].
    rewrite project_findFirst_created, bool_decide_eq_true_2 by done.
    reflexivity.
  - intros other Hother. rewrite get_project_run. cbn [db].
    by rewrite project_findFirst_created, bool_decide_eq_false_2.
Qed.

Lemma created_project_read_back_witness :
  ∃ id row,
    Project.userId row = 7
    ∧ (∃ recent,
         get_project 7 id
           (create_project 7 Demo.create_body (mkState empty_db [])).2 =
         (Ret (mkResponse 200 true None (ProjectData id row recent)),
          (create_project 7 Demo.create_body (mkState empty_db [])).2))
    ∧ get_project 8 id (create_project 7 Demo.create_body (mkState empty_db [])).2
      = (Ret (failure 404 "Project not found"),
         (create_project 7 Demo.create_body (mkState empty_db [])).2).
Proof.
  destruct (created_project_read_back 7 Demo.create_body empty_db []
              (answer (create_project 7 Demo.create_body (mkState empty_db [])))
              (create_project 7 Demo.create_body (mkState empty_db [])).2)
    as (id & row & _ & Hu & Hget & Hother).
  - vm_compute. reflexivity.
  - vm_compute. reflexivity.
  - exists id, row. split; [exact Hu|]. split; [exact Hget|].
    apply Hother. discriminate.
Defined.

Lemma truthy_cons c s : truthy (JStr (c :: s)) = true.
Proof. by apply truthy_text. Qed.

Lemma or_val_text v stored :
  text_or_missing v → or_val v (JStr stored) = JStr (text_after v stored).
Proof.
  unfold or_val. by destruct v as [| | | |[|c s]| | |v].
Qed.

Lemma as_optional_text_given v stored st :
  text_or_missing v →
  as_optional_text_update v st
  = (Ret (if bool_decide (v = JUndefined) then None
          else description_after v stored), st).
Proof. destruct v; done. Qed.

(** X10. An update by the owner, with fields that are strings or
    missing: the answer is 200 with the updated row.  A name or system
    prompt that is absent, null or empty keeps the stored text; an absent
    description keeps the stored one, a null one clears it.  The owner
    and the creation time are kept whatever the body holds, and no other
    project changes. *)
Theorem update_project_fills_blanks uid id body d tr old :
  project_findFirst d id uid = Some old →
  text_or_missing (field body "name") →
  text_or_missing (field body "description") →
  text_or_missing (field body "systemPrompt") →
  update_project uid id body (mkState d tr) =
    (Ret (mkResponse 200 true (Some (str "Project updated successfully"))
            (ProjectRow id (updated_row body old))),
     mkState (set_projects d (<[id := updated_row body old]> (projects d)))
             (tr ++ [ProjectUpdated id (updated_row body old)]))
  ∧ Project.userId (updated_row body old) = uid
  ∧ Project.createdAt (updated_row body old) = Project.createdAt old
  ∧ ∀ other, other ≠ id →
      <[id := updated_row body old]> (projects d) !! other = projects d !! other.
Proof.
  intros Hf Hn Hd Hs.
  pose proof Hf as [Hold Hu]%project_findFirst_Some.
  split; [|split; [done|split; [done|]]].
  - unfold update_project, try_catch. run_steps. rewrite Hf.
    unfold project_update. rewrite !or_val_text by done.
    unfold as_text_update. run_steps.
    rewrite (as_optional_text_given _ (Project.description old)) by done.
    run_steps. rewrite Hold. run_steps. unfold updated_row.
    by destruct (field body "description").
  - intros other Hother. by rewrite lookup_insert_ne.
Qed.

(** The witness: a body that clears the name and sets no description. *)
Lemma update_project_fills_blanks_witness :
  update_project 7 1 {[ "name" := JStr [] ; "systemPrompt" := JStr (str "Be terse.") ]}
    (mkState Demo2.db_files []) =
  (Ret (mkResponse 200 true (Some (str "Project updated successfully"))
          (ProjectRow 1 (Project.mk 7 (str "bot") (Some (str "a helper"))
                           (str "Be terse.") 0))),
   mkState (set_projects Demo2.db_files
              (<[1 := Project.mk 7 (str "bot") (Some (str "a helper"))
                        (str "Be terse.") 0]> (projects Demo2.db_files)))
           ([] ++ [ProjectUpdated 1
                     (Project.mk 7 (str "bot") (Some (str "a helper"))
                        (str "Be terse.") 0)])).
Proof.
  apply (proj1 (update_project_fills_blanks 7 1
                  {[ "name" := JStr [] ; "systemPrompt" := JStr (str "Be terse.") ]}
                  Demo2.db_files [] Demo2.project_a
                  ltac:(reflexivity) ltac:(exact I) ltac:(exact I) ltac:(exact I))).
Defined.

Lemma project_delete_run id d tr p :
  projects d !! id = Some p →
  ∃ d', project_delete id (mkState d tr) = (Ret (), mkState d' (tr ++ [ProjectDeleted id]))
        ∧ projects d' = delete id (projects d).
Proof.
  intros Hp. unfold project_delete. run_steps. rewrite Hp. run_steps.
  eexists. split; reflexivity.
Qed.

(** X11. A delete by the owner answers 200 and removes the project row
    and no other project row; afterwards every route on that id answers
    404 to every user, the former owner included. *)
Theorem deleted_project_is_gone uid id d tr project :
  project_findFirst d id uid = Some project →
  ∃ st',
    delete_project uid id (mkState d tr) =
      (Ret (mkResponse 200 true (Some (str "Project deleted successfully")) NoData),
       st')
    ∧ projects (db st') = delete id (projects d)
    ∧ trace st' = tr ++ [ProjectDeleted id]
    ∧ ∀ u body,
        get_project u id st' = (Ret (failure 404 "Project not found"), st')
        ∧ update_project u id body st' = (Ret (failure 404 "Project not found"), st')
        ∧ delete_project u id st' = (Ret (failure 404 "Project not found"), st').
Proof.
  intros Hf. pose proof Hf as [Hp _]%project_findFirst_Some.
  destruct (project_delete_run id d tr project Hp) as (d' & Hrun & Hprojects).
  exists (mkState d' (tr ++ [ProjectDeleted id])). split.
  - unfold delete_project, try_catch. run_steps. rewrite Hf. run_steps.
    rewrite Hrun. by run_steps.
  - cbn [db trace]. split; [done|]. split; [done|].
    intros u body. apply project_routes_not_found, project_findFirst_missing.
    rewrite Hprojects. apply lookup_delete_eq.
Qed.

Lemma deleted_project_is_gone_witness :
  ∃ st',
    delete_project 7 1 (mkState Demo.db1 []) =
      (Ret (mkResponse 200 true (Some (str "Project deleted successfully")) NoData),
       st')
    ∧ projects (db st') = delete 1 (projects Demo.db1)
    ∧ get_project 7 1 st' = (Ret (failure 404 "Project not found"), st').
Proof.
  destruct (deleted_project_is_gone 7 1 Demo.db1 [] Demo.project1)
    as (st' & Hrun & Hp & _ & Hgone).
  - reflexivity.
  - exists st'. split; [exact Hrun|]. split; [exact Hp|].
    exact (proj1 (Hgone 7 ∅)).
Defined.

(** * Further properties of the file routes *)

Import FileRun.

Lemma multer_array_no_files env field_ filesLeft n parts :
  files_in parts = [] → multer_array env field_ filesLeft n parts = inr [].
Proof.
  unfold files_in. induction parts as [|p rest IH]; [done|].
  destruct (decide (named p)) as [Hp|Hp].
  - by rewrite filter_cons_True.
  - rewrite filter_cons_False, multer_array_passes_over by done. apply IH.
Qed.

(** X12. The upload route on its edges.  A request without a file (no
    part, or only parts without a file name) is answered 400 [No files
    provided], whoever the project belongs to.  A request whose files all
    pass the middleware, sent to a project that is not the user's, is
    answered 404.  A request with a file whose size reaches the limit of
    512 MiB is turned down by the middleware and answered 500.  In each
    case nothing is written and the Files API is not called. *)
Theorem upload_without_files_or_project env uid projectId parts d tr :
  (files_in parts = [] →
   upload_route env uid projectId parts (mkState d tr) =
     (Ret (failure 400 "No files provided"), mkState d tr))
  ∧ (∀ stored,
       upload env parts = inr stored → stored ≠ [] →
       project_findFirst d projectId uid = None →
       upload_route env uid projectId parts (mkState d tr) =
       (Ret (failure 404 "Project not found"), mkState d tr))
  ∧ (∀ file,
       file ∈ parts → named file → fileSize_limit ≤ size file →
       upload_route env uid projectId parts (mkState d tr) =
       (Ret (failure 500 "Internal server error"), mkState d tr)).
Proof.
  split; [|split].
  - intros Hnone. unfold upload_route, upload.
    by rewrite multer_array_no_files.
  - intros stored Hup Hne Hf. unfold upload_route. rewrite Hup.
    unfold upload_handler, try_catch.
    rewrite bool_decide_eq_false_2 by (by destruct stored).
    run_steps. by rewrite Hf.
  - intros file Hin Hname Hbig.
    destruct (multer_array_rejects_large env (str "files") 10 0 parts file)
      as [e He]; [done..|].
    by apply (upload_route_rejected _ _ _ _ e).
Qed.

(** The witness: on a project of somebody else, a part without a file
    name, then a PDF; and a PDF of exactly 512 MiB on one's own. *)
Lemma upload_without_files_or_project_witness :
  upload_route Demo.env_staging 8 1 [Demo.nameless_part] (mkState Demo.db1 []) =
    (Ret (failure 400 "No files provided"), mkState Demo.db1 [])
  ∧ upload_route Demo.env_staging 8 1 [Demo.report_pdf] (mkState Demo.db1 []) =
      (Ret (failure 404 "Project not found"), mkState Demo.db1 [])
  ∧ upload_route Demo.env_staging 7 1 [Demo.huge_pdf] (mkState Demo.db1 []) =
      (Ret (failure 500 "Internal server error"), mkState Demo.db1 []).
Proof.
  split; [|split].
  - apply (proj1 (upload_without_files_or_project Demo.env_staging 8 1
                    [Demo.nameless_part] Demo.db1 [])).
    reflexivity.
  - apply (proj1 (proj2 (upload_without_files_or_project Demo.env_staging 8 1
                           [Demo.report_pdf] Demo.db1 []))
             [stored_as Demo.env_staging 0 Demo.report_pdf]).
    + vm_compute. reflexivity.
    + discriminate.
    + reflexivity.
  - apply (proj2 (proj2 (upload_without_files_or_project Demo.env_staging 7 1
                           [Demo.huge_pdf] Demo.db1 []))
             Demo.huge_pdf).
    + left.
    + discriminate.
    + reflexivity.
Defined.

Lemma untilSlash_app ext rest :
  Forall (λ c, c ≠ slash) ext →
  untilSlash (ext ++ rest) = ext ++ untilSlash rest.
Proof.
  induction 1 as [|c ext Hc _ IH]; [done|]. cbn.
  rewrite (proj2 (N.eqb_neq c slash)) by done. by rewrite IH.
Qed.

Lemma splitAtDot_app ext rest :
  Forall (λ c, c ≠ dot) ext →
  splitAtDot (ext ++ dot :: rest) = Some (ext, rest).
Proof.
  induction 1 as [|c ext Hc _ IH]; [done|]. cbn.
  rewrite (proj2 (N.eqb_neq c dot)) by done. by rewrite IH.
Qed.

(** The extension of a name that ends in a dot and a plain suffix. *)
Lemma extname_suffix stem ext :
  stem ≠ [] → last stem ≠ Some slash →
  ext ≠ [] → Forall (λ c, c ≠ slash ∧ c ≠ dot) ext →
  extname (stem ++ dot :: ext) = dot :: ext.
Proof.
  intros Hstem Hlast Hext Hplain. unfold extname, basename_rev.
  rewrite rev_app_distr. cbn [rev]. rewrite <- app_assoc. cbn [app].
  assert (Forall (λ c, c ≠ slash ∧ c ≠ dot) (rev ext)) as Hrev.
  { apply Forall_forall. intros c Hc. rewrite Forall_forall in Hplain.
    apply Hplain. apply list_elem_of_In. apply in_rev.
    by apply list_elem_of_In. }
  assert (dropTrailingSlashes_rev (rev ext ++ dot :: rev stem)
          = rev ext ++ dot :: rev stem) as ->.
  { destruct (rev ext) as [|c r] eqn:Hr.
    - cbn. reflexivity.
    - cbn. apply Forall_cons in Hrev as [[Hc _] _].
      by rewrite (proj2 (N.eqb_neq c slash)). }
  rewrite untilSlash_app by (eapply Forall_impl; [exact Hrev|]; by intros ? [? ?]).
  cbn [untilSlash]. change (dot =? slash) with false. cbn iota.
  rewrite splitAtDot_app by (eapply Forall_impl; [exact Hrev|]; by intros ? [? ?]).
  destruct (rev stem) as [|c r] eqn:Hr.
  { apply (f_equal (@rev N)) in Hr. rewrite rev_involutive in Hr. done. }
  assert (c ≠ slash) as Hc.
  { intros ->. apply Hlast.
    apply (f_equal (@rev N)) in Hr. rewrite rev_involutive in Hr. cbn in Hr.
    rewrite Hr. apply last_snoc. }
  cbn [untilSlash]. rewrite (proj2 (N.eqb_neq c slash)) by done.
  rewrite bool_decide_eq_false_2.
  - by rewrite rev_involutive.
  - intros [Hnil _]. apply (f_equal (@rev N)) in Hnil.
    rewrite rev_involutive in Hnil. done.
Qed.

Lemma allowedExtensions_plain : forallb plain_extension allowedExtensions = true.
Proof. vm_compute. reflexivity. Qed.

(** X13. A file whose name is a non-empty stem (not ending in a slash)
    followed by one of the allowed extensions passes the file filter
    whatever MIME type the request declares for it. *)
Theorem allowed_extension_passes_filter field_ stem e mime bytes :
  e ∈ allowedExtensions →
  stem ≠ [] → last stem ≠ Some slash →
  fileFilter (mkPart field_ (stem ++ e) mime bytes) = true.
Proof.
  intros He Hstem Hlast.
  pose proof allowedExtensions_plain as Hall.
  rewrite forallb_forall in Hall.
  specialize (Hall e (proj1 (list_elem_of_In _ _) He)).
  destruct e as [|c ext]; [done|]. cbn [plain_extension] in Hall.
  apply andb_true_iff in Hall as [Hall Hlower].
  apply andb_true_iff in Hall as [Hall Hplain].
  apply andb_true_iff in Hall as [Hdot Hne].
  apply N.eqb_eq in Hdot as ->.
  apply negb_true_iff, bool_decide_eq_false in Hne.
  apply bool_decide_eq_true in Hlower.
  unfold fileFilter. cbn [originalname mimetype].
  rewrite extname_suffix; [| done | done | done |].
  - rewrite Hlower. rewrite (bool_decide_eq_true_2 _ He). apply orb_true_r.
  - apply Forall_forall. intros u Hu. rewrite forallb_forall in Hplain.
    specialize (Hplain u (proj1 (list_elem_of_In _ _) Hu)).
    apply andb_true_iff in Hplain as [H1 H2].
    apply negb_true_iff in H1, H2. by apply N.eqb_neq in H1, H2.
Qed.

Lemma allowed_extension_passes_filter_witness :
  fileFilter (mkPart (str "files") (str "main" ++ str ".py")
                (str "application/octet-stream") 10) = true.
Proof.
  apply allowed_extension_passes_filter.
  - apply (bool_decide_eq_true_1 (str ".py" ∈ allowedExtensions)).
    vm_compute. reflexivity.
  - discriminate.
  - vm_compute. discriminate.
Defined.

Lemma file_findFirst_Some d id uid f :
  file_findFirst d id uid = Some f ↔
  files d !! id = Some f
  ∧ ∃ p, projects d !! File.projectId f = Some p ∧ Project.userId p = uid.
Proof.
  unfold file_findFirst, owned_by.
  destruct (files d !! id) as [g|]; cbn; [|split; [done | by intros [? _]]].
  destruct (projects d !! File.projectId g) as [p|] eqn:Hp.
  - case_bool_decide; split.
    + intros [= ->]. eauto.
    + by intros [[= ->] _].
    + done.
    + intros [[= ->] (q & Hq & Hu)]. congruence.
  - split; [done|]. intros [[= ->] (q & Hq & _)]. congruence.
Qed.

(** The remote delete the route attempts for a file. *)
Lemma delete_file_run env uid fileId d tr file :
  file_findFirst d fileId uid = Some file →
  delete_file env uid fileId (mkState d tr) =
  (Ret (mkResponse 200 true (Some (str "File deleted successfully")) NoData),
   mkState (set_files d (delete fileId (files d)))
           (tr ++ match File.openaiFileId file with
                  | Some x =>
                      if truthy (JStr x) && configured (OPENAI_API_KEY env)
                      then [RemoteDeleteAttempt x] else []
                  | None => []
                  end ++ [FileDeleted fileId])).
Proof.
  intros Hf. unfold delete_file, try_catch. run_steps. rewrite Hf. run_steps.
  destruct (File.openaiFileId file) as [x|];
    [destruct (truthy (JStr x) && configured (OPENAI_API_KEY env))|];
    run_steps; rewrite <- ?app_assoc; by rewrite ?app_nil_r.
Qed.

(** X14. Deleting a file: a user who does not own the file's project
    (or an id that names no file) gets 404 and nothing changes.  The
    owner gets 200; the row is removed and no other row; the Files API is
    asked to delete the remote copy exactly when the row has a non-empty
    external id and the OpenAI credential is configured, and the outcome
    of that call does not matter. *)
Theorem delete_file_behaviour env uid fileId d tr :
  (file_findFirst d fileId uid = None →
     delete_file env uid fileId (mkState d tr) =
     (Ret (failure 404 "File not found"), mkState d tr))
  ∧ (∀ file, files d !! fileId = Some file →
       (∀ p, projects d !! File.projectId file = Some p → Project.userId p ≠ uid) →
       file_findFirst d fileId uid = None)
  ∧ (∀ file,
       file_findFirst d fileId uid = Some file →
       ∃ remote,
         delete_file env uid fileId (mkState d tr) =
           (Ret (mkResponse 200 true (Some (str "File deleted successfully")) NoData),
            mkState (set_files d (delete fileId (files d)))
                    (tr ++ remote ++ [FileDeleted fileId]))
         ∧ (remote = [] ∨ ∃ x, remote = [RemoteDeleteAttempt x]
                               ∧ File.openaiFileId file = Some x)
         ∧ (remote ≠ [] ↔
              (∃ x, File.openaiFileId file = Some x ∧ x ≠ [])
              ∧ configured (OPENAI_API_KEY env) = true)
         ∧ ∀ other, other ≠ fileId →
             delete fileId (files d) !! other = files d !! other).
Proof.
  split; [|split].
  - intros Hf. unfold delete_file, try_catch. run_steps. by rewrite Hf.
  - intros file Hrow Hforeign.
    destruct (file_findFirst d fileId uid) as [g|] eqn:Hf; [|done].
    apply file_findFirst_Some in Hf as [Hg (p & Hp & Hu)].
    rewrite Hrow in Hg. injection Hg as <-. by destruct (Hforeign p Hp).
  - intros file Hf. rewrite (delete_file_run _ _ _ _ _ file) by done.
    eexists. split; [reflexivity|].
    split; [|split; [|intros other Hother; by apply lookup_delete_ne]].
    + destruct (File.openaiFileId file) as [x|]; [|by left].
      destruct (truthy (JStr x) && configured (OPENAI_API_KEY env)); eauto.
    + destruct (File.openaiFileId file) as [x|].
      * destruct (truthy (JStr x)) eqn:Hx;
          destruct (configured (OPENAI_API_KEY env)); cbn [andb];
          (split; [intros Hne; try done | intros [(y & [= <-] & Hy) Hk]; try done]).
        -- split; [|done]. exists x. split; [done|]. by apply truthy_text.
        -- apply truthy_text in Hy. congruence.
      * split; [done|]. by intros [(y & Hy & _) _].
Qed.

Lemma delete_file_behaviour_witness :
  delete_file Demo.env_staging 8 1 (mkState Demo2.db_files []) =
    (Ret (failure 404 "File not found"), mkState Demo2.db_files [])
  ∧ ∃ remote,
      delete_file Demo.env_staging 7 1 (mkState Demo2.db_files []) =
        (Ret (mkResponse 200 true (Some (str "File deleted successfully")) NoData),
         mkState (set_files Demo2.db_files (delete 1 (files Demo2.db_files)))
                 ([] ++ remote ++ [FileDeleted 1]))
      ∧ remote ≠ [].
Proof.
  destruct (delete_file_behaviour Demo.env_staging 8 1 Demo2.db_files [])
    as (Hno & _ & _).
  destruct (delete_file_behaviour Demo.env_staging 7 1 Demo2.db_files [])
    as (_ & _ & Hyes).
  split.
  - apply Hno. reflexivity.
  - destruct (Hyes Demo2.file_a) as (remote & Hrun & _ & Hremote & _).
    + reflexivity.
    + exists remote. split; [exact Hrun|]. apply Hremote. split.
      * exists (str "file-a"). split; [reflexivity | discriminate].
      * reflexivity.
Defined.

#[local] Instance newer_file_first_total : Total newer_file_first.
Proof. intros a b. unfold newer_file_first. lia. Qed.

Lemma files_of_project_elem d pid r :
  r ∈ files_of_project d pid ↔
  files d !! r.1 = Some r.2 ∧ File.projectId r.2 = pid.
Proof.
  unfold files_of_project. rewrite list_elem_of_filter.
  destruct r as [i f]. rewrite elem_of_map_to_list. cbn. tauto.
Qed.

(** X15. The file list of a project: a user who does not own the project
    gets 404; the owner gets every file row of the project, each once,
    newest first.  The route changes nothing. *)
Theorem list_files_of_project uid projectId d tr :
  (project_findFirst d projectId uid = None →
     list_files uid projectId (mkState d tr) =
     (Ret (refused 404 "Project not found"), mkState d tr))
  ∧ (∀ project,
       project_findFirst d projectId uid = Some project →
       ∃ rows,
         list_files uid projectId (mkState d tr) = (Ret (granted rows), mkState d tr)
         ∧ NoDup rows
         ∧ Sorted newer_file_first rows
         ∧ ∀ r, r ∈ rows ↔
             files d !! r.1 = Some r.2 ∧ File.projectId r.2 = projectId).
Proof.
  split.
  - intros Hf. unfold list_files, try_catch. run_steps. by rewrite Hf.
  - intros project Hf. eexists. split.
    + unfold list_files, try_catch. run_steps. rewrite Hf. by run_steps.
    + split; [|split].
      * rewrite merge_sort_Permutation. apply NoDup_filter, NoDup_map_to_list.
      * apply Sorted_merge_sort; apply _.
      * intros r. rewrite merge_sort_Permutation. apply files_of_project_elem.
Qed.

Lemma list_files_of_project_witness :
  list_files 8 1 (mkState Demo2.db_files []) =
    (Ret (refused 404 "Project not found"), mkState Demo2.db_files [])
  ∧ ∃ rows,
      list_files 7 1 (mkState Demo2.db_files []) =
        (Ret (granted rows), mkState Demo2.db_files [])
      ∧ ((1, Demo2.file_a) ∈ rows) ∧ ((3, Demo2.file_c) ∈ rows)
      ∧ ((2, Demo2.file_b) ∉ rows).
Proof.
  destruct (list_files_of_project 8 1 Demo2.db_files []) as [Hno _].
  destruct (list_files_of_project 7 1 Demo2.db_files []) as [_ Hyes].
  split.
  - apply Hno. reflexivity.
  - destruct (Hyes Demo2.project_a) as (rows & Hrun & _ & _ & Hin);
      [reflexivity|].
    exists rows. split; [exact Hrun|].
    split; [apply Hin; split; reflexivity|].
    split; [apply Hin; split; reflexivity|].
    intros [_ Hp]%Hin. discriminate Hp.
Defined.

(** X16. Uploading one file and then deleting the row the upload
    answered with brings the files table back to what it was: the owner
    can always remove what the upload left, whether the Files API took
    the file or not. *)
Theorem uploaded_file_can_be_deleted env uid projectId p stored project d tr :
  upload env [p] = inr [stored] →
  project_findFirst d projectId uid = Some project →
  ∃ id row st1 st2,
    upload_route env uid projectId [p] (mkState d tr) =
      (Ret (mkResponse 200 true (Some (str "1 files uploaded successfully"))
              (FilesData [(id, row)] [])), st1)
    ∧ files (db st1) !! id = Some row
    ∧ delete_file env uid id st1 =
        (Ret (mkResponse 200 true (Some (str "File deleted successfully")) NoData),
         st2)
    ∧ files (db st2) = files d
    ∧ projects (db st2) = projects d
    ∧ chats (db st2) = chats d
    ∧ messages (db st2) = messages d.
Proof.
  intros Hup Hf.
  pose proof Hf as [Hp Hu]%project_findFirst_Some.
  set (id := new_id (files d)).
  set (row := final_row env stored (created_row projectId stored d)).
  set (d1 := tick (set_files d (<[id := row]> (files d)))).
  assert (file_findFirst d1 id uid = Some row) as Hfind.
  { apply file_findFirst_Some. split; [apply lookup_insert_eq|].
    exists project. split; [|done].
    assert (File.projectId row = projectId) as ->; [|done].
    unfold row, final_row. by destruct (files_api env _ _). }
  exists id, row. eexists. eexists. split; [|split; [|split]].
  - unfold upload_route. rewrite Hup. unfold upload_handler, try_catch.
    rewrite bool_decide_eq_false_2 by done. run_steps. rewrite Hf. run_steps.
    cbn [process_files]. run_steps. rewrite process_file_run. cbn zeta.
    run_steps. reflexivity.
  - cbn [db]. apply lookup_insert_eq.
  - apply (delete_file_run _ _ _ _ _ row). exact Hfind.
  - cbn [db set_files tick files projects chats messages].
    split; [|done]. apply delete_insert_id, new_id_fresh.
Qed.

Lemma uploaded_file_can_be_deleted_witness :
  ∃ id row st1 st2,
    upload_route Demo.env_down 7 1 [Demo.report_pdf] (mkState Demo.db1 []) =
      (Ret (mkResponse 200 true (Some (str "1 files uploaded successfully"))
              (FilesData [(id, row)] [])), st1)
    ∧ files (db st1) !! id = Some row
    ∧ delete_file Demo.env_down 7 id st1 =
        (Ret (mkResponse 200 true (Some (str "File deleted successfully")) NoData),
         st2)
    ∧ files (db st2) = files Demo.db1
    ∧ projects (db st2) = projects Demo.db1
    ∧ chats (db st2) = chats Demo.db1
    ∧ messages (db st2) = messages Demo.db1.
Proof.
  apply (uploaded_file_can_be_deleted Demo.env_down 7 1 Demo.report_pdf
           (stored_as Demo.env_down 0 Demo.report_pdf) Demo.project1).
  - vm_compute. reflexivity.
  - reflexivity.
Defined.

(** X17. The content route: a file that is not the user's gets 404; a
    file without a (non-empty) external id gets 400 [File not processed
    yet]; in both cases the Files API is not called.  Otherwise the API
    is asked once for that id, and the answer is 200 with the fetched
    text, the original name and the MIME type, or 500 when the call
    fails.  In every database the server can reach, a file whose upload
    failed is answered 400. *)
Theorem file_content_preview fetch uid fileId d :
  (file_findFirst d fileId uid = None →
     get_file_content fetch uid fileId d = (refused 404 "File not found", []))
  ∧ (∀ file,
       file_findFirst d fileId uid = Some file →
       File.openaiFileId file = None ∨ File.openaiFileId file = Some [] →
       get_file_content fetch uid fileId d = (refused 400 "File not processed yet", []))
  ∧ (∀ file x,
       file_findFirst d fileId uid = Some file →
       File.openaiFileId file = Some x → x ≠ [] →
       get_file_content fetch uid fileId d =
       (match fetch x with
        | Some body =>
            granted (mkContent body (File.originalName file) (File.mimeType file))
        | None => refused 500 "Failed to retrieve file content"
        end, [ContentRequested x]))
  ∧ (reachable d →
     ∀ file,
       file_findFirst d fileId uid = Some file →
       File.status file = Errored →
       get_file_content fetch uid fileId d = (refused 400 "File not processed yet", [])).
Proof.
  assert (∀ file, file_findFirst d fileId uid = Some file →
            File.openaiFileId file = None ∨ File.openaiFileId file = Some [] →
            get_file_content fetch uid fileId d
            = (refused 400 "File not processed yet", [])) as Hnone.
  { intros file Hf Hid. unfold get_file_content. rewrite Hf.
    by destruct Hid as [-> | ->]. }
  split; [|split; [exact Hnone|split]].
  - intros Hf. unfold get_file_content. by rewrite Hf.
  - intros file x Hf Hx Hne. unfold get_file_content. rewrite Hf, Hx.
    rewrite (proj2 (truthy_text x)) by done. by destruct (fetch x).
  - intros Hd file Hf Hs. apply (Hnone file Hf). left.
    pose proof (reachable_invariants d Hd) as Hfiles.
    apply file_findFirst_Some in Hf as [Hrow _].
    destruct (Hfiles _ _ Hrow) as [[Hp _]|[_ Hid]]; [congruence | done].
Qed.

Lemma file_content_preview_witness :
  get_file_content (λ _, Some (str "text")) 8 1 Demo2.db_files
    = (refused 404 "File not found", [])
  ∧ get_file_content (λ _, Some (str "text")) 7 3 Demo2.db_files
    = (refused 400 "File not processed yet", [])
  ∧ get_file_content (λ _, Some (str "text")) 7 1 Demo2.db_files
    = (granted (mkContent (str "text") (str "a.pdf") (str "application/pdf")),
       [ContentRequested (str "file-a")]).
Proof.
  destruct (file_content_preview (λ _, Some (str "text")) 8 1 Demo2.db_files)
    as (H404 & _).
  destruct (file_content_preview (λ _, Some (str "text")) 7 3 Demo2.db_files)
    as (_ & H400 & _).
  destruct (file_content_preview (λ _, Some (str "text")) 7 1 Demo2.db_files)
    as (_ & _ & H200 & _).
  split; [|split].
  - apply H404. reflexivity.
  - apply (H400 Demo2.file_c); [reflexivity | left; reflexivity].
  - apply (H200 Demo2.file_a (str "file-a")); [reflexivity.. | discriminate].
Defined.

(** * Properties of the server as a whole *)

Lemma create_chat_cases uid projectId body d tr :
  let result := create_chat uid projectId body (mkState d tr) in
  result = (Ret (failure 404 "Project not found"), mkState d tr)
  ∨ result = (Ret (failure 500 "Internal server error"), mkState d tr)
  ∨ ∃ t,
      let id := new_id (chats d) in
      let row := Chat.mk projectId t (clock d) in
      result = (Ret (mkResponse 201 true None (ChatData id row)),
                mkState (tick (set_chats d (<[id := row]> (chats d))))
                        (tr ++ [ChatCreated id row])).
Proof.
  cbn zeta. unfold create_chat, try_catch. run_steps.
  destruct (project_findFirst d projectId uid); [|by left]. run_steps.
  destruct (as_text_run (or_val (field body "title") (JStr (str "New Chat")))
              (mkState d tr)) as [(title & _ & ->)|(e & ->)]; run_steps.
  - right; right. by exists title.
  - by right; left.
Qed.

Lemma delete_project_run uid id d tr project :
  project_findFirst d id uid = Some project →
  delete_project uid id (mkState d tr) =
  (Ret (mkResponse 200 true (Some (str "Project deleted successfully")) NoData),
   mkState
     (mkDB (delete id (projects d))
        (filter (λ ic, Chat.projectId ic.2 ≠ id) (chats d))
        (filter (λ im : N * Message.t,
                   match chats d !! Message.chatId im.2 with
                   | Some c => bool_decide (Chat.projectId c = id)
                   | None => false
                   end = false) (messages d))
        (filter (λ i_f, File.projectId i_f.2 ≠ id) (files d))
        (clock d) (lapses d))
     (tr ++ [ProjectDeleted id])).
Proof.
  intros Hf. pose proof Hf as [Hp _]%project_findFirst_Some.
  unfold delete_project, try_catch. run_steps. rewrite Hf. run_steps.
  unfold project_delete. run_steps. rewrite Hp. by run_steps.
Qed.

Lemma upload_route_not_found env uid projectId parts stored d tr :
  upload env parts = inr stored → stored ≠ [] →
  project_findFirst d projectId uid = None →
  upload_route env uid projectId parts (mkState d tr) =
  (Ret (failure 404 "Project not found"), mkState d tr).
Proof.
  intros Hup Hne Hf. unfold upload_route. rewrite Hup.
  unfold upload_handler, try_catch.
  rewrite bool_decide_eq_false_2 by (by destruct stored).
  run_steps. by rewrite Hf.
Qed.

Lemma delete_file_not_found env uid fileId d tr :
  file_findFirst d fileId uid = None →
  delete_file env uid fileId (mkState d tr) =
  (Ret (failure 404 "File not found"), mkState d tr).
Proof.
  intros Hf. unfold delete_file, try_catch. run_steps. by rewrite Hf.
Qed.

(** X18. A request that is answered with a failure changes nothing:
    the database and the trace of writes and outbound calls are as before
    it.  There is one exception: a send-message request that was
    accepted, and to which a backend replied with a content that is not
    text, is answered 500 with the user row written and the backends
    asked.  So a request answered 400 or 404 has changed nothing on any
    route, and a failure of any other route has changed nothing. *)
Theorem failed_request_changes_nothing env r d tr :
  res_success (answer (handle env r (mkState d tr))) = false →
  ((handle env r (mkState d tr)).2 = mkState d tr
   ∨ ∃ uid chatId body s chat project recent,
       r = SendMessage uid chatId body
       ∧ field body "content" = JStr s
       ∧ chat_findFirst d chatId uid = Some (chat, project, recent)
       ∧ text_of (ai_content
                    (sent_result env uid s (field body "fileIds") d project recent))
         = None
       ∧ answer (handle env r (mkState d tr)) = failure 500 "Internal server error"
       ∧ (handle env r (mkState d tr)).2
         = mkState (db_after_user chatId s d)
             (tr ++ MessageCreated (user_id d) (user_row chatId s d)
                 :: sent_attempts env uid s (field body "fileIds") d project recent))
  ∧ (res_status (answer (handle env r (mkState d tr))) ≠ 500 →
     (handle env r (mkState d tr)).2 = mkState d tr)
  ∧ ((∀ uid chatId body, r ≠ SendMessage uid chatId body) →
     (handle env r (mkState d tr)).2 = mkState d tr).
Proof.
  intros Hfail.
  assert ((handle env r (mkState d tr)).2 = mkState d tr
   ∨ ∃ uid chatId body s chat project recent,
       r = SendMessage uid chatId body
       ∧ field body "content" = JStr s
       ∧ chat_findFirst d chatId uid = Some (chat, project, recent)
       ∧ text_of (ai_content
                    (sent_result env uid s (field body "fileIds") d project recent))
         = None
       ∧ answer (handle env r (mkState d tr)) = failure 500 "Internal server error"
       ∧ (handle env r (mkState d tr)).2
         = mkState (db_after_user chatId s d)
             (tr ++ MessageCreated (user_id d) (user_row chatId s d)
                 :: sent_attempts env uid s (field body "fileIds") d project recent))
    as Hcases.
  { revert Hfail.
    destruct r as [uid body|uid id|uid id body|uid id|uid pid body
                  |uid chatId body|uid pid parts|uid fileId]; cbn [handle].
    - left. revert Hfail.
      destruct (create_project_cases uid body d tr)
        as [H|[H|(name & description & prompt & _ & _ & _ & _ & H)]];
        cbn zeta in H; rewrite H; done.
    - intros _. left. apply get_project_reads.
    - left. revert Hfail. destruct (project_findFirst d id uid) as [old|] eqn:Hf.
      + destruct (update_project_cases uid id body d tr old Hf)
          as [H|(row & H & _)]; cbn zeta in H; rewrite H; done.
      + by destruct (project_routes_not_found d tr uid id body Hf) as (_ & -> & _).
    - left. revert Hfail. destruct (project_findFirst d id uid) as [old|] eqn:Hf.
      + by rewrite (delete_project_run _ _ _ _ old).
      + by destruct (project_routes_not_found d tr uid id ∅ Hf) as (_ & _ & ->).
    - left. revert Hfail.
      destruct (create_chat_cases uid pid body d tr) as [H|[H|(title & H)]];
        cbn zeta in H; rewrite H; done.
    - destruct (send_message_cases env uid chatId body d tr)
        as [H|[H|[H|(s & chat & project & recent & Hc & Ht & Hf)]]];
        try (cbn zeta in H; rewrite H; by left).
      destruct (text_of (ai_content
                  (sent_result env uid s (field body "fileIds") d project recent)))
        as [text|] eqn:Htext.
      + rewrite (send_message_run _ _ _ _ s _ _ chat project recent) by eauto.
        by rewrite (send_message_body_run _ _ _ _ _ _ _ chat project recent)
          by eauto.
      + intros _. right. exists uid, chatId, body, s, chat, project, recent.
        rewrite (send_message_crash _ _ _ _ s _ _ chat project recent) by done.
        done.
    - left. revert Hfail. destruct (upload env parts) as [e|stored] eqn:Hup.
      { by rewrite (upload_route_rejected _ _ _ _ e). }
      destruct (decide (stored = [])) as [->|Hne].
      { unfold upload_route. by rewrite Hup. }
      destruct (project_findFirst d pid uid) as [project|] eqn:Hf.
      + by destruct (upload_route_run env uid pid parts stored project d tr)
          as (rows & d' & tr' & -> & _).
      + by rewrite (upload_route_not_found _ _ _ _ stored).
    - left. revert Hfail. destruct (file_findFirst d fileId uid) as [file|] eqn:Hf.
      + by rewrite (delete_file_run _ _ _ _ _ file).
      + by rewrite delete_file_not_found. }
  split; [exact Hcases|]. split.
  - intros Hstatus. destruct Hcases as [H|H]; [done|].
    destruct H as (? & ? & ? & ? & ? & ? & ? & _ & _ & _ & _ & Hans & _).
    by rewrite Hans in Hstatus.
  - intros Hother. destruct Hcases as [H|H]; [done|].
    destruct H as (uid & chatId & body & ? & ? & ? & ? & Hr & _).
    by destruct (Hother uid chatId body).
Qed.

(** The witness: a message to the chat of somebody else, answered 404. *)
Lemma failed_request_changes_nothing_witness :
  (handle Demo.env_down (SendMessage 8 1 Demo.hello_body) (mkState Demo.db1 [])).2
  = mkState Demo.db1 [].
Proof.
  apply (proj1 (proj2 (failed_request_changes_nothing Demo.env_down
                         (SendMessage 8 1 Demo.hello_body) Demo.db1 []
                         ltac:(vm_compute; reflexivity)))).
  vm_compute. discriminate.
Defined.

Import Tenancy.

Lemma grown_untouched owner d d' : grown d d' → untouched owner d d'.
Proof.
  intros (Hp & Hc & Hf & Hm). repeat split.
  - intros pid p Hrow _. by apply (lookup_weaken (projects d)).
  - intros cid c Hrow _. by apply (lookup_weaken (chats d)).
  - intros fid f Hrow _. by apply (lookup_weaken (files d)).
  - intros mid m c Hrow _ _. by apply (lookup_weaken (messages d)).
Qed.

Lemma grown_refl d : grown d d.
Proof. by repeat split. Qed.

(** X19. No request changes what belongs to somebody else: whatever
    route a request of one user goes to and whatever it holds, every
    project of another user, every chat and file of such a project and
    every message of such a chat is afterwards in the database exactly as
    it was. *)
Theorem other_users_data_untouched env r d tr owner :
  requester r ≠ owner →
  untouched owner d (db (handle env r (mkState d tr)).2).
Proof.
  intros Hother.
  destruct r as [uid body|uid id|uid id body|uid id|uid pid body
                |uid chatId body|uid pid parts|uid fileId];
    cbn [handle requester] in *.
  - apply grown_untouched.
    destruct (create_project_cases uid body d tr)
      as [H|[H|(name & description & prompt & _ & _ & _ & _ & H)]];
      cbn zeta in H; rewrite H; [apply grown_refl..|].
    repeat split; try done. apply insert_subseteq, new_id_fresh.
  - rewrite get_project_reads. apply grown_untouched, grown_refl.
  - destruct (project_findFirst d id uid) as [old|] eqn:Hf.
    + pose proof Hf as [Hold Hu]%project_findFirst_Some.
      destruct (update_project_cases uid id body d tr old Hf)
        as [H|(row & H & _)]; cbn zeta in H; rewrite H;
        [apply grown_untouched, grown_refl|].
      cbn [snd db]. repeat split; try done.
      intros pid p Hrow Hp. cbn [set_projects projects].
      rewrite lookup_insert_ne; [done|]. intros ->. congruence.
    + destruct (project_routes_not_found d tr uid id body Hf) as (_ & -> & _).
      apply grown_untouched, grown_refl.
  - destruct (project_findFirst d id uid) as [old|] eqn:Hf.
    + pose proof Hf as [Hold Hu]%project_findFirst_Some.
      rewrite (delete_project_run _ _ _ _ old) by done. cbn [snd db].
      assert (∀ pid, project_of d owner pid → pid ≠ id) as Hne.
      { intros pid (p & Hp & Howner) ->. congruence. }
      repeat split; cbn [projects chats files messages].
      * intros pid p Hrow Hp. rewrite lookup_delete_ne; [done|].
        apply not_eq_sym, Hne. by exists p.
      * intros cid c Hrow Hproj. apply map_lookup_filter_Some. split; [done|].
        cbn. by apply Hne.
      * intros fid f Hrow Hproj. apply map_lookup_filter_Some. split; [done|].
        cbn. by apply Hne.
      * intros mid m c Hrow Hchat Hproj. apply map_lookup_filter_Some.
        split; [done|]. cbn. rewrite Hchat.
        apply bool_decide_eq_false. by apply Hne.
    + destruct (project_routes_not_found d tr uid id ∅ Hf) as (_ & _ & ->).
      apply grown_untouched, grown_refl.
  - apply grown_untouched.
    destruct (create_chat_cases uid pid body d tr) as [H|[H|(title & H)]];
      cbn zeta in H; rewrite H; [apply grown_refl..|].
    repeat split; try done. apply insert_subseteq, new_id_fresh.
  - apply grown_untouched.
    destruct (send_message_db env uid chatId body d tr)
      as [->|(s & project & recent & _ & [-> | ->])]; [apply grown_refl|..].
    + repeat split; try done.
      unfold db_after_user. cbn [tick set_messages messages].
      apply insert_subseteq, new_id_fresh.
    + repeat split; try done.
      unfold db_after_send. cbn [tick set_messages messages].
      etrans; [|apply insert_subseteq, (new_id_fresh
                  (messages (db_after_user chatId s d)))].
      apply insert_subseteq, new_id_fresh.
  - apply grown_untouched.
    destruct (upload env parts) as [e|stored] eqn:Hup.
    { rewrite (upload_route_rejected _ _ _ _ e) by done. apply grown_refl. }
    destruct (decide (stored = [])) as [->|Hne].
    { unfold upload_route. rewrite Hup. apply grown_refl. }
    destruct (project_findFirst d pid uid) as [project|] eqn:Hf.
    + destruct (upload_route_run env uid pid parts stored project d tr)
        as (rows & d' & tr' & -> & _ & Hp & Hc & Hm & Hsub & _); [done..|].
      cbn [snd db]. unfold grown. by rewrite Hp, Hc, Hm.
    + rewrite (upload_route_not_found _ _ _ _ stored) by done. apply grown_refl.
  - destruct (file_findFirst d fileId uid) as [file|] eqn:Hf.
    + rewrite (delete_file_run _ _ _ _ _ file) by done. cbn [snd db].
      apply file_findFirst_Some in Hf as [Hfile (q & Hq & Hu)].
      repeat split; try done. cbn [set_files files].
      intros fid f Hrow (p & Hp & Howner).
      rewrite lookup_delete_ne; [done|]. intros <-. congruence.
    + rewrite delete_file_not_found by done. apply grown_untouched, grown_refl.
Qed.

(** The witness: user 8 deletes its own project; what user 7 has stays. *)
Lemma other_users_data_untouched_witness :
  untouched 7 Demo2.db_files
    (db (handle Demo.env_down (DeleteProject 8 2) (mkState Demo2.db_files [])).2).
Proof.
  apply other_users_data_untouched. discriminate.
Defined.

(** ** Trimming *)

Lemma trimStart_head s c : head (trimStart s) = Some c → is_white c = false.
Proof.
  induction s as [|x s IH]; [done|]. cbn [trimStart].
  destruct (is_white x) eqn:Hx; [done|]. cbn. by intros [= <-].
Qed.

Lemma trimStart_id s :
  (∀ c, head s = Some c → is_white c = false) → trimStart s = s.
Proof.
  destruct s as [|x s]; [done|]. intros H. cbn [trimStart].
  by rewrite (H x).
Qed.

Lemma trimStart_drop s : ∃ k, s = k ++ trimStart s.
Proof.
  induction s as [|x s [k IH]]; [by exists []|]. cbn [trimStart].
  destruct (is_white x).
  - exists (x :: k). cbn. by rewrite <- IH.
  - by exists [].
Qed.

Lemma trimEnd_head s c : head (trimEnd s) = Some c → head s = Some c.
Proof.
  unfold trimEnd. destruct (trimStart_drop (rev s)) as [k Hk].
  apply (f_equal (@rev N)) in Hk. rewrite rev_involutive, rev_app_distr in Hk.
  intros Hc. rewrite Hk. by destruct (rev (trimStart (rev s))).
Qed.

Lemma trimEnd_trimEnd s : trimEnd (trimEnd s) = trimEnd s.
Proof.
  unfold trimEnd. rewrite rev_involutive. f_equal.
  apply trimStart_id, trimStart_head.
Qed.

Lemma trim_trim s : trim (trim s) = trim s.
Proof.
  unfold trim at 1. rewrite (trimStart_id (trim s)).
  - unfold trim. apply trimEnd_trimEnd.
  - intros c Hc. unfold trim in Hc. apply trimEnd_head in Hc.
    by apply trimStart_head in Hc.
Qed.

(** What a request does to the messages table: it removes rows, or it is
    an accepted send. *)
Lemma handle_messages env r d tr :
  messages (db (handle env r (mkState d tr)).2) ⊆ messages d
  ∨ ∃ uid chatId s fileIds project recent,
      trim s ≠ []
      ∧ (db (handle env r (mkState d tr)).2 = db_after_user chatId s d
         ∨ db (handle env r (mkState d tr)).2
           = db_after_send env uid chatId s fileIds d project recent).
Proof.
  destruct r as [uid body|uid id|uid id body|uid id|uid pid body
                |uid chatId body|uid pid parts|uid fileId]; cbn [handle].
  - left. destruct (create_project_cases uid body d tr)
      as [H|[H|(name & description & prompt & _ & _ & _ & _ & H)]];
      cbn zeta in H; by rewrite H.
  - left. by rewrite get_project_reads.
  - left. destruct (project_findFirst d id uid) as [old|] eqn:Hf.
    + destruct (update_project_cases uid id body d tr old Hf)
        as [H|(row & H & _)]; cbn zeta in H; by rewrite H.
    + by destruct (project_routes_not_found d tr uid id body Hf) as (_ & -> & _).
  - left. destruct (project_findFirst d id uid) as [old|] eqn:Hf.
    + rewrite (delete_project_run _ _ _ _ old) by done.
      apply map_filter_subseteq.
    + by destruct (project_routes_not_found d tr uid id ∅ Hf) as (_ & _ & ->).
  - left. destruct (create_chat_cases uid pid body d tr) as [H|[H|(title & H)]];
      cbn zeta in H; by rewrite H.
  - destruct (send_message_db env uid chatId body d tr)
      as [->|(s & project & recent & Ht & Hdb)]; [by left|].
    right. by exists uid, chatId, s, (field body "fileIds"), project, recent.
  - left. destruct (upload env parts) as [e|stored] eqn:Hup.
    { by rewrite (upload_route_rejected _ _ _ _ e). }
    destruct (decide (stored = [])) as [->|Hne].
    { unfold upload_route. by rewrite Hup. }
    destruct (project_findFirst d pid uid) as [project|] eqn:Hf.
    + destruct (upload_route_run env uid pid parts stored project d tr)
        as (rows & d' & tr' & -> & _ & _ & _ & Hm & _); [done..|].
      cbn [snd db]. by rewrite Hm.
    + by rewrite (upload_route_not_found _ _ _ _ stored).
  - left. destruct (file_findFirst d fileId uid) as [file|] eqn:Hf.
    + by rewrite (delete_file_run _ _ _ _ _ file).
    + by rewrite delete_file_not_found.
Qed.

(** X20. In every database the server can reach, no stored message has
    the system role, and the text of every user message is non-empty and
    already trimmed. *)
Theorem stored_messages_wellformed d :
  reachable d →
  map_Forall (λ _ m,
      Message.role_ m ≠ System
      ∧ (Message.role_ m = User →
         Message.content m ≠ [] ∧ trim (Message.content m) = Message.content m))
    (messages d).
Proof.
  induction 1 as [|d env r tr _ IH]; [apply map_Forall_empty|].
  destruct (handle_messages env r d tr)
    as [Hsub|(uid & chatId & s & fileIds & project & recent & Ht & [-> | ->])].
  - by eapply map_Forall_subseteq.
  - unfold db_after_user. cbn [tick set_messages messages].
    apply map_Forall_insert_2; [|done]. cbn. split; [done|]. intros _.
    split; [done | apply trim_trim].
  - unfold db_after_send, db_after_user. cbn [tick set_messages messages].
    apply map_Forall_insert_2; [by split|].
    apply map_Forall_insert_2; [|done]. cbn. split; [done|]. intros _.
    split; [done | apply trim_trim].
Qed.

(** The witness: the store after a project, a chat and a first message. *)
Lemma stored_messages_wellformed_witness :
  map_Forall (λ _ m,
      Message.role_ m ≠ System
      ∧ (Message.role_ m = User →
         Message.content m ≠ [] ∧ trim (Message.content m) = Message.content m))
    (messages Demo3.db_chatted).
Proof.
  apply stored_messages_wellformed.
  apply (reachable_step Demo3.db_with_chat Demo.env_down
           (SendMessage 7 0 Demo.hello_body) []).
  apply (reachable_step Demo.db_one_project Demo.env_down (CreateChat 7 0 ∅) []).
  apply (reachable_step empty_db Demo.env_down (CreateProject 7 Demo.create_body) []).
  apply reachable_empty.
Defined.

(** * The client forms against the routes they call *)

Import Client.

Lemma or_undefined_Some s t : or_undefined s = Some t → s = t ∧ t ≠ [].
Proof.
  unfold or_undefined. destruct (truthy (JStr s)) eqn:H; [|done].
  intros [= <-]. by apply truthy_text in H.
Qed.

Lemma or_undefined_None s : or_undefined s = None → s = [].
Proof.
  unfold or_undefined. destruct (truthy (JStr s)) eqn:H; [done|].
  intros _. destruct s; [done|]. by rewrite truthy_cons in H.
Qed.

Lemma project_form_errors_empty formData :
  project_form_errors formData = ∅
  ↔ trim (form_name formData) ≠ [] ∧ trim (form_systemPrompt formData) ≠ [].
Proof.
  unfold project_form_errors.
  destruct (truthy (JStr (trim (form_name formData)))) eqn:Hn;
    destruct (truthy (JStr (trim (form_systemPrompt formData)))) eqn:Hs;
    cbn [negb].
  - apply truthy_text in Hn, Hs. done.
  - split.
    + intros H. by apply insert_non_empty in H.
    + intros [_ H]. apply truthy_text in H. congruence.
  - split.
    + intros H. by apply insert_non_empty in H.
    + intros [H _]. apply truthy_text in H. congruence.
  - split.
    + intros H. by apply insert_non_empty in H.
    + intros [H _]. apply truthy_text in H. congruence.
Qed.

Lemma project_form_checked formData :
  bool_decide (0 < base.size (project_form_errors formData))%nat = false
  ↔ trim (form_name formData) ≠ [] ∧ trim (form_systemPrompt formData) ≠ [].
Proof.
  rewrite <- project_form_errors_empty, bool_decide_eq_false.
  rewrite <- map_size_empty_iff. lia.
Qed.

Lemma field_createProject_body name description systemPrompt :
  field (createProject_body name description systemPrompt) "name" = JStr name
  ∧ field (createProject_body name description systemPrompt) "systemPrompt"
    = JStr systemPrompt
  ∧ field (createProject_body name description systemPrompt) "description"
    = from_option JStr JUndefined description.
Proof.
  unfold createProject_body, with_optional, field.
  destruct description as [s|];
    by rewrite ?lookup_insert_eq, ?lookup_insert_ne, ?lookup_insert_eq,
         ?lookup_insert_ne, ?lookup_insert_eq, ?lookup_empty by done.
Qed.

Lemma field_updateProject_body name description systemPrompt :
  field (updateProject_body name description systemPrompt) "name"
    = from_option JStr JUndefined name
  ∧ field (updateProject_body name description systemPrompt) "systemPrompt"
    = from_option JStr JUndefined systemPrompt
  ∧ field (updateProject_body name description systemPrompt) "description"
    = from_option JStr JUndefined description.
Proof.
  unfold updateProject_body, with_optional, field.
  destruct name as [n|], description as [s|], systemPrompt as [p|];
    by rewrite ?lookup_insert_eq, ?lookup_insert_ne, ?lookup_insert_eq,
         ?lookup_insert_ne, ?lookup_insert_eq, ?lookup_empty by done.
Qed.

(** X21. The create form against the create route.  The form shows an
    error exactly for a name or a system prompt that is blank after
    trimming, and then sends nothing.  Otherwise the request it sends is
    always answered 201, and the stored row holds the trimmed name and
    prompt, and a description that is either absent or the trimmed,
    non-empty text of the form. *)
Theorem create_form_reaches_store formData uid d tr :
  match create_submit formData with
  | inl errors =>
      (trim (form_name formData) = [] ∨ trim (form_systemPrompt formData) = [])
      ∧ (is_Some (errors !! "name") ↔ trim (form_name formData) = [])
      ∧ (is_Some (errors !! "systemPrompt")
         ↔ trim (form_systemPrompt formData) = [])
  | inr body =>
      let id := new_id (projects d) in
      let row :=
        Project.mk uid (trim (form_name formData))
          (or_undefined (trim (form_description formData)))
          (trim (form_systemPrompt formData)) (clock d) in
      create_project uid body (mkState d tr) =
        (Ret (mkResponse 201 true (Some (str "Project created successfully"))
                (ProjectRow id row)),
         mkState (tick (set_projects d (<[id := row]> (projects d))))
                 (tr ++ [ProjectCreated id row]))
      ∧ Project.name row ≠ [] ∧ Project.systemPrompt row ≠ []
      ∧ Project.description row ≠ Some []
  end.
Proof.
  unfold create_submit.
  destruct (bool_decide (0 < base.size (project_form_errors formData))%nat) eqn:Hc.
  - assert (Hbad : ¬ (trim (form_name formData) ≠ []
                      ∧ trim (form_systemPrompt formData) ≠ [])).
    { rewrite <- project_form_checked. by rewrite Hc. }
    split.
    { destruct (decide (trim (form_name formData) = [])); [by left|].
      destruct (decide (trim (form_systemPrompt formData) = [])); [by right|].
      by destruct Hbad. }
    unfold project_form_errors.
    destruct (decide (trim (form_name formData) = [])) as [Hn|Hn];
      destruct (decide (trim (form_systemPrompt formData) = [])) as [Hs|Hs].
    + rewrite Hn, Hs. change (truthy (JStr [])) with false. cbn [negb].
      rewrite lookup_insert_eq, lookup_insert_ne, lookup_insert_eq by done.
      split; split; eauto.
    + rewrite Hn. change (truthy (JStr [])) with false.
      rewrite (proj2 (truthy_text _) Hs). cbn [negb].
      rewrite lookup_insert_eq, lookup_insert_ne, lookup_empty by done.
      split; split; eauto; intros H; [by destruct H|done].
    + rewrite Hs. change (truthy (JStr [])) with false.
      rewrite (proj2 (truthy_text _) Hn). cbn [negb].
      rewrite lookup_insert_eq, lookup_insert_ne, lookup_empty by done.
      split; split; eauto; intros H; [by destruct H|done].
    + by destruct Hbad.
  - apply project_form_checked in Hc as [Hn Hs]. cbn zeta.
    split; [|split; [done|split; [done|]]].
    + destruct (field_createProject_body (trim (form_name formData))
                  (or_undefined (trim (form_description formData)))
                  (trim (form_systemPrompt formData))) as (Fn & Fs & Fd).
      unfold create_project, try_catch. rewrite Fn, Fs, Fd.
      rewrite !(proj2 (truthy_text _)) by done. cbn [negb orb].
      unfold project_create, as_text. run_steps.
      by destruct (or_undefined (trim (form_description formData))).
    + cbn. intros H. by apply or_undefined_Some in H as [_ H].
Qed.

(** The witness: a form with blanks around the name and no description. *)
Lemma create_form_reaches_store_witness :
  create_submit (mkProjectForm (str " bot ") (str "  ") (str "Be kind."))
  = inr (createProject_body (str "bot") None (str "Be kind."))
  ∧ (create_project 7 (createProject_body (str "bot") None (str "Be kind."))
       (mkState empty_db [])).1
    = Ret (mkResponse 201 true (Some (str "Project created successfully"))
             (ProjectRow (new_id (projects empty_db))
                (Project.mk 7 (str "bot") None (str "Be kind.") (clock empty_db)))).
Proof.
  split; [reflexivity|].
  exact (f_equal fst
           (proj1 (create_form_reaches_store
                     (mkProjectForm (str " bot ") (str "  ") (str "Be kind."))
                     7 empty_db []))).
Defined.

Lemma update_project_run uid id body d tr old :
  project_findFirst d id uid = Some old →
  text_or_missing (field body "name") →
  text_or_missing (field body "description") →
  text_or_missing (field body "systemPrompt") →
  update_project uid id body (mkState d tr) =
    (Ret (mkResponse 200 true (Some (str "Project updated successfully"))
            (ProjectRow id (updated_row body old))),
     mkState (set_projects d (<[id := updated_row body old]> (projects d)))
             (tr ++ [ProjectUpdated id (updated_row body old)])).
Proof.
  intros Hf Hn Hd Hs.
  pose proof Hf as [Hold Hu]%project_findFirst_Some.
  unfold update_project, try_catch. run_steps. rewrite Hf.
  unfold project_update. rewrite !or_val_text by done.
  unfold as_text_update. run_steps.
  rewrite (as_optional_text_given _ (Project.description old)) by done.
  run_steps. rewrite Hold. run_steps. unfold updated_row.
  by destruct (field body "description").
Qed.

Lemma updated_row_client name description systemPrompt old :
  updated_row (updateProject_body (Some name) description (Some systemPrompt)) old
  = Project.mk (Project.userId old) (or_else name (Project.name old))
      (from_option Some (Project.description old) description)
      (or_else systemPrompt (Project.systemPrompt old))
      (Project.createdAt old).
Proof.
  destruct (field_updateProject_body (Some name) description (Some systemPrompt))
    as (Fn & Fs & Fd).
  unfold updated_row. rewrite Fn, Fs, Fd. cbn [from_option].
  f_equal.
  - by destruct name.
  - by destruct description.
  - by destruct systemPrompt.
Qed.

Lemma update_client_run uid id name description systemPrompt d tr old :
  project_findFirst d id uid = Some old →
  let body := updateProject_body (Some name) description (Some systemPrompt) in
  let row :=
    Project.mk (Project.userId old) (or_else name (Project.name old))
      (from_option Some (Project.description old) description)
      (or_else systemPrompt (Project.systemPrompt old))
      (Project.createdAt old) in
  update_project uid id body (mkState d tr) =
    (Ret (mkResponse 200 true (Some (str "Project updated successfully"))
            (ProjectRow id row)),
     mkState (set_projects d (<[id := row]> (projects d)))
             (tr ++ [ProjectUpdated id row])).
Proof.
  intros Hf. cbn zeta.
  rewrite <- updated_row_client.
  destruct (field_updateProject_body (Some name) description (Some systemPrompt))
    as (Fn & Fs & Fd).
  apply update_project_run; [done|..].
  - by rewrite Fn.
  - rewrite Fd. by destruct description.
  - by rewrite Fs.
Qed.

Lemma or_else_nonempty a b : a ≠ [] → or_else a b = a.
Proof. intros H. unfold or_else. by rewrite (proj2 (truthy_text _) H). Qed.

(** X22. The edit form against the update route, on a project of the
    user.  A form that passes the check is always answered 200; the row
    then holds the trimmed name and prompt, and the owner and creation
    time as before.  A description that is blank after trimming is left out
    of the request, so the stored description stays: the form cannot
    clear a description. *)
Theorem edit_form_updates_project formData uid id d tr old :
  project_findFirst d id uid = Some old →
  match edit_submit formData with
  | inl errors =>
      trim (form_name formData) = [] ∨ trim (form_systemPrompt formData) = []
  | inr body =>
      let row :=
        Project.mk (Project.userId old) (trim (form_name formData))
          (if bool_decide (trim (form_description formData) = [])
           then Project.description old
           else Some (trim (form_description formData)))
          (trim (form_systemPrompt formData)) (Project.createdAt old) in
      update_project uid id body (mkState d tr) =
        (Ret (mkResponse 200 true (Some (str "Project updated successfully"))
                (ProjectRow id row)),
         mkState (set_projects d (<[id := row]> (projects d)))
                 (tr ++ [ProjectUpdated id row]))
  end.
Proof.
  intros Hf. unfold edit_submit.
  destruct (bool_decide (0 < base.size (project_form_errors formData))%nat) eqn:Hc.
  - destruct (decide (trim (form_name formData) = [])); [by left|].
    destruct (decide (trim (form_systemPrompt formData) = [])); [by right|].
    assert (Hok : bool_decide (0 < base.size (project_form_errors formData))%nat
                  = false) by by apply project_form_checked.
    congruence.
  - apply project_form_checked in Hc as [Hn Hs]. cbn zeta.
    rewrite (update_client_run uid id _ _ _ d tr old Hf). cbn zeta.
    rewrite !or_else_nonempty by done.
    unfold or_undefined. cbn [truthy].
    by destruct (bool_decide (trim (form_description formData) = [])).
Qed.

(** The witness: a blank description in the form of project 1, which has
    one. *)
Lemma edit_form_updates_project_witness :
  update_project 7 1
    (updateProject_body (Some (str "helper")) None (Some (str "Be brief.")))
    (mkState Demo2.db_files []) =
  (Ret (mkResponse 200 true (Some (str "Project updated successfully"))
          (ProjectRow 1 (Project.mk 7 (str "helper") (Some (str "a helper"))
                           (str "Be brief.") 0))),
   mkState (set_projects Demo2.db_files
              (<[1 := Project.mk 7 (str "helper") (Some (str "a helper"))
                        (str "Be brief.") 0]> (projects Demo2.db_files)))
           ([] ++ [ProjectUpdated 1
                     (Project.mk 7 (str "helper") (Some (str "a helper"))
                        (str "Be brief.") 0)])).
Proof.
  exact (edit_form_updates_project
           (mkProjectForm (str " helper ") (str "  ") (str "Be brief."))
           7 1 Demo2.db_files [] Demo2.project_a ltac:(reflexivity)).
Defined.

(** X24. The chat window against the send-message route.  A blank input
    sends nothing.  Any other input, in a chat of the user, is sent
    trimmed under the single field [content]; the route never answers 400
    or 404 to it, and stores the trimmed text as the user message; it
    answers 200, unless a backend replies with a content that is not
    text, when it answers 500.  The ids of the selected files are passed
    to a function that has no parameter for them, so whatever files are
    selected, every conversation sent to a backend begins with the system
    prompt alone, without a file context. *)
Theorem chat_window_sends_no_file_ids
    env uid inputMessage chatId selectedFiles d tr chat project recent :
  (trim inputMessage = [] →
   ∀ currentChat loading,
     handleSendMessage inputMessage currentChat loading selectedFiles = None)
  ∧ (trim inputMessage ≠ [] →
     chat_findFirst d chatId uid = Some (chat, project, recent) →
     ∃ body resp st' events,
       handleSendMessage inputMessage (Some chatId) false selectedFiles
       = Some (chatId, body)
       ∧ dom body = {["content"]}
       ∧ send_message env uid chatId body (mkState d tr) = (Ret resp, st')
       ∧ res_status resp
         = match text_of (ai_content
                            (sent_result env uid (trim inputMessage) JUndefined
                               d project recent)) with
           | Some _ => 200
           | None => 500
           end
       ∧ messages (db st') !! user_id d
         = Some (Message.mk chatId User (trim inputMessage) (clock d))
       ∧ trace st' = tr ++ events
       ∧ Forall (λ sent,
             head sent
             = Some (mkEntry System
                       (or_else (Project.systemPrompt project) default_prompt)))
           (contexts_of events)).
Proof.
  split.
  - intros Hblank currentChat loading. unfold handleSendMessage.
    destruct currentChat; [|done]. rewrite Hblank.
    by change (truthy (JStr [])) with false.
  - intros Ht Hchat.
    assert (Htt : trim (trim inputMessage) ≠ []) by by rewrite trim_trim.
    set (body := sendMessage_body (trim inputMessage)).
    assert (Hc : field body "content" = JStr (trim inputMessage)).
    { unfold field, body, sendMessage_body. by rewrite lookup_singleton_eq. }
    assert (Hi : field body "fileIds" = JUndefined).
    { unfold field, body, sendMessage_body. by rewrite lookup_singleton_ne. }
    assert (Hrow : ∀ t : gmap N Message.t, <[user_id d := user_row chatId (trim inputMessage) d]> t
                        !! user_id d
                        = Some (Message.mk chatId User (trim inputMessage) (clock d))).
    { intros t. rewrite lookup_insert_eq. unfold user_row. by rewrite trim_trim. }
    assert (Hhead : ∀ l,
              Forall (λ sent,
                  head sent
                  = Some (mkEntry System
                            (or_else (Project.systemPrompt project) default_prompt)))
                (contexts_of
                   (attempts_as_events
                      (sent_history uid (trim inputMessage) JUndefined d project recent)
                      l))).
    { intros l. rewrite contexts_of_replicate. apply Forall_forall.
      intros sent [-> _]%elem_of_replicate.
      unfold sent_history, conversationHistory.
      change (file_context_of d JUndefined uid) with (@nil N).
      by rewrite app_nil_r. }
    destruct (user_key_is_new chatId (trim inputMessage) d) as (_ & _ & Hne).
    exists body.
    destruct (text_of (ai_content
                (sent_result env uid (trim inputMessage) JUndefined d project recent)))
      as [text|] eqn:Htext.
    + rewrite <- Hi in Htext.
      eexists _, _, _.
      split. { unfold handleSendMessage. by rewrite (proj2 (truthy_text _) Ht). }
      split. { unfold body, sendMessage_body. by rewrite dom_singleton_L. }
      split.
      { rewrite (send_message_run _ _ _ _ (trim inputMessage) _ _ chat project recent)
          by eauto.
        apply (send_message_body_run _ _ _ _ _ _ _ chat project recent); eauto. }
      split; [reflexivity|]. cbn [db trace].
      split.
      { unfold db_after_send, db_after_user. cbn [tick set_messages messages].
        rewrite lookup_insert_ne by done. apply Hrow. }
      split; [reflexivity|].
      rewrite contexts_of_run. unfold sent_attempts. rewrite Hi. apply Hhead.
    + rewrite <- Hi in Htext.
      eexists _, _, _.
      split. { unfold handleSendMessage. by rewrite (proj2 (truthy_text _) Ht). }
      split. { unfold body, sendMessage_body. by rewrite dom_singleton_L. }
      split.
      { by apply (send_message_crash _ _ _ _ (trim inputMessage) _ _
                    chat project recent). }
      split; [reflexivity|]. cbn [db trace].
      split. { unfold db_after_user. cbn [tick set_messages messages]. apply Hrow. }
      split; [reflexivity|].
      change (contexts_of (MessageCreated ?u ?r :: ?l)) with (contexts_of l).
      unfold sent_attempts. rewrite Hi. apply Hhead.
Qed.

(** The witness: two files selected, one without a remote id, in the chat
    of project 0, with both backends down. *)
Lemma chat_window_sends_no_file_ids_witness :
  ∃ body resp st' events,
    handleSendMessage (str " hello ") (Some 0) false [Some (str "file-abc"); None]
    = Some (0, body)
    ∧ dom body = {["content"]}
    ∧ send_message Demo.env_down 7 0 body (mkState Demo3.db_with_chat [])
      = (Ret resp, st')
    ∧ res_status resp = 200
    ∧ messages (db st') !! user_id Demo3.db_with_chat
      = Some (Message.mk 0 User (trim (str " hello ")) (clock Demo3.db_with_chat))
    ∧ trace st' = [] ++ events
    ∧ Forall (λ sent,
          head sent
          = Some (mkEntry System
                    (or_else (Project.systemPrompt
                                (Project.mk 7 (str "bot") None (str "Be kind.") 0))
                       default_prompt)))
        (contexts_of events).
Proof.
  destruct (proj2 (chat_window_sends_no_file_ids Demo.env_down 7 (str " hello ") 0
                     [Some (str "file-abc"); None] Demo3.db_with_chat []
                     (Chat.mk 0 (str "New Chat") 1)
                     (Project.mk 7 (str "bot") None (str "Be kind.") 0)
                     (latest_messages Demo3.db_with_chat 0)))
    as (body & resp & st' & events & Hsub & Hdom & Hrun & Hstatus & Hrest).
  - by vm_compute.
  - vm_compute. reflexivity.
  - exists body, resp, st', events.
    split; [exact Hsub|]. split; [exact Hdom|]. split; [exact Hrun|].
    split; [|exact Hrest].
    rewrite Hstatus.
    match goal with
    | |- match ?x with _ => _ end = _ => destruct x as [text|] eqn:E
    end; [reflexivity|vm_compute in E; discriminate E].
Defined.

(** * The sign-up form and the session *)

(** X25. The sign-up form calls [register] exactly when the name and the
    email are not empty, the password has at least six code units and the
    confirmation equals it; it then passes the email, password and name
    as typed.  Otherwise it shows at least one error and calls nothing. *)
Theorem register_form_validation f :
  match register_submit f with
  | inl errors =>
      errors ≠ ∅
      ∧ (reg_name f = [] ∨ reg_email f = []
         ∨ (length (reg_password f) < 6)%nat
         ∨ reg_confirmPassword f ≠ reg_password f)
  | inr args =>
      args = (reg_email f, reg_password f, reg_name f)
      ∧ reg_name f ≠ [] ∧ reg_email f ≠ []
      ∧ (6 ≤ length (reg_password f))%nat
      ∧ reg_confirmPassword f = reg_password f
  end.
Proof.
  unfold register_submit.
  destruct (bool_decide (0 < base.size (register_errors f))%nat) eqn:Hc.
  - apply bool_decide_eq_true in Hc.
    split. { intros He. rewrite He, map_size_empty in Hc. lia. }
    destruct f as [n e p c]. cbn [reg_name reg_email reg_password reg_confirmPassword].
    destruct n as [|n0 n]; [by left|].
    destruct e as [|e0 e]; [by right; left|].
    destruct (decide (length p < 6)%nat) as [|Hp]; [by right; right; left|].
    destruct (decide (c = p)) as [->|Hcp]; [|by right; right; right].
    exfalso. revert Hc. unfold register_errors.
    cbn [reg_name reg_email reg_password reg_confirmPassword].
    rewrite !truthy_cons. cbn [negb].
    assert (Hne : p ≠ []). { intros ->. cbn in Hp. lia. }
    rewrite (proj2 (truthy_text _) Hne). cbn [negb andb].
    rewrite (bool_decide_eq_false_2 (length p < 6)%nat) by done.
    rewrite (bool_decide_eq_true_2 (p = p)) by done. cbn [negb].
    rewrite map_size_empty. lia.
  - apply bool_decide_eq_false in Hc.
    assert (He : register_errors f = ∅).
    { apply map_size_empty_iff. lia. }
    split; [done|]. clear Hc. revert He. unfold register_errors.
    destruct f as [n e p c]. cbn [reg_name reg_email reg_password reg_confirmPassword].
    destruct (truthy (JStr n)) eqn:Hn; cbn [negb].
    2:{ repeat match goal with |- context [if ?b then _ else _] => destruct b end;
        intros H; by apply insert_non_empty in H. }
    destruct (truthy (JStr e)) eqn:Hem; cbn [negb].
    2:{ repeat match goal with |- context [if ?b then _ else _] => destruct b end;
        intros H; by apply insert_non_empty in H. }
    destruct (truthy (JStr p)) eqn:Hp; cbn [negb andb].
    2:{ repeat match goal with |- context [if ?b then _ else _] => destruct b end;
        intros H; by apply insert_non_empty in H. }
    destruct (truthy (JStr c)) eqn:Hcf; cbn [negb andb].
    2:{ repeat match goal with |- context [if ?b then _ else _] => destruct b end;
        intros H; by apply insert_non_empty in H. }
    destruct (bool_decide (length p < 6)%nat) eqn:Hlen.
    { repeat match goal with |- context [if ?b then _ else _] => destruct b end;
        intros H; by apply insert_non_empty in H. }
    destruct (bool_decide (p = c)) eqn:Heq; cbn [negb].
    2:{ intros H; by apply insert_non_empty in H. }
    intros _. apply truthy_text in Hn, Hem.
    apply bool_decide_eq_false in Hlen. apply bool_decide_eq_true in Heq.
    repeat split; [done|done|lia|done].
Qed.

(** The witness: a password of five code units is refused, one of six
    with a matching confirmation is passed on. *)
Lemma register_form_validation_witness :
  register_submit (mkRegister (str "Ann") (str "ann@example.org")
                     (str "secret") (str "secret"))
  = inr (str "ann@example.org", str "secret", str "Ann")
  ∧ (6 ≤ length (str "secret"))%nat.
Proof.
  pose proof (register_form_validation
                (mkRegister (str "Ann") (str "ann@example.org")
                   (str "secret") (str "secret"))) as H.
  split; [reflexivity|]. exact (proj1 (proj2 (proj2 (proj2 H)))).
Defined.

(** X26. Whatever actions are dispatched from the initial state, the
    session state is authenticated exactly when it holds a user, and
    exactly when it holds a token.  Right after [CLEAR_USER] it is not
    authenticated; right after [SET_USER] it holds that user and token
    and is not loading. *)
Theorem auth_state_consistent {U} (actions : list (AuthAction U)) :
  let state := foldl authReducer initialState actions in
  (isAuthenticated state = true ↔ is_Some (user state))
  ∧ (isAuthenticated state = true ↔ is_Some (token state))
  ∧ (last actions = Some CLEAR_USER → isAuthenticated state = false)
  ∧ (∀ u t, last actions = Some (SET_USER u t) →
       user state = Some u ∧ token state = Some t ∧ isLoading state = false).
Proof.
  cbn zeta. induction actions as [|a actions IH] using rev_ind.
  - cbn. repeat split; try done; by intros [? ?].
  - rewrite foldl_app, last_snoc. cbn [foldl].
    destruct IH as (IHu & IHt & _).
    destruct a as [b|u t|]; cbn.
    + split; [exact IHu|]. split; [exact IHt|]. split; [done|]. by intros.
    + split; [by split; eauto|]. split; [by split; eauto|].
      split; [done|]. by intros u' t' [= -> ->].
    + split; [split; [done|by intros [? ?]]|].
      split; [split; [done|by intros [? ?]]|]. split; [done|]. by intros.
Qed.

(** The witness: a login that succeeded after the loading flag was set. *)
Lemma auth_state_consistent_witness :
  user (foldl authReducer initialState [SET_LOADING true; SET_USER 7%N (str "tok")])
  = Some 7%N
  ∧ token (foldl authReducer initialState
             [SET_LOADING true; SET_USER 7%N (str "tok")])
    = Some (str "tok")
  ∧ isLoading (foldl authReducer initialState
                 [SET_LOADING true; SET_USER 7%N (str "tok")])
    = false.
Proof.
  exact (proj2 (proj2 (proj2
           (auth_state_consistent [SET_LOADING true; SET_USER 7%N (str "tok")])))
           7%N (str "tok") eq_refl).
Defined.





(** * The project list of the dashboard *)

Import DashboardView.









(** * The file selection *)

Import FileSelection.

Lemma filter_all {A} (P : A → Prop) `{!∀ x, Decision (P x)} (l : list A) :
  Forall P l → filter P l = l.
Proof.
  induction 1 as [|x l Hx _ IH]; [done|].
  by rewrite filter_cons_True, IH.
Qed.

(** X29. A click on a file of a selectable list toggles it: when the
    selection holds each file once, the new selection does too, the
    clicked file is in it exactly when it was not before, every other
    file is kept or left out as before, and a second click on a file that
    was not selected gives the first selection back. *)
Theorem file_selection_toggle {F} (selectedFiles : list (N * F)) (file : N * F) :
  NoDup selectedFiles.*1 →
  let newSelection := handleFileSelect selectedFiles file in
  NoDup newSelection.*1
  ∧ (file.1 ∈ newSelection.*1 ↔ file.1 ∉ selectedFiles.*1)
  ∧ (∀ f, f.1 ≠ file.1 → f ∈ newSelection ↔ f ∈ selectedFiles)
  ∧ (file.1 ∉ selectedFiles.*1 →
     handleFileSelect newSelection file = selectedFiles).
Proof.
  intros Hnd. cbn zeta. unfold handleFileSelect.
  assert (Hsel : Exists (λ f : N * F, f.1 = file.1) selectedFiles
                 ↔ file.1 ∈ selectedFiles.*1).
  { rewrite Exists_exists, list_elem_of_fmap. split.
    - intros (f & Hin & Hf). by exists f.
    - intros (f & Hf & Hin). by exists f. }
  assert (Hfilter : ∀ l : list (N * F),
             file.1 ∉ (filter (λ f : N * F, f.1 ≠ file.1) l).*1).
  { intros l (f & Hf & [Hne _]%list_elem_of_filter)%list_elem_of_fmap. done. }
  case_bool_decide as Hc.
  - split; [|split; [|split]].
    + apply (sublist_NoDup _ selectedFiles.*1); [done|].
      apply fmap_sublist, sublist_filter.
    + split; [by intros ?%Hfilter|]. intros Hn. destruct Hn. by apply Hsel.
    + intros f Hf. rewrite list_elem_of_filter. tauto.
    + intros Hn. destruct Hn. by apply Hsel.
  - assert (Hn : file.1 ∉ selectedFiles.*1) by by rewrite <- Hsel.
    split; [|split; [|split]].
    + rewrite fmap_app. apply NoDup_app. split; [done|]. split.
      * intros x Hx Hx'. apply list_elem_of_singleton in Hx' as ->. done.
      * apply NoDup_singleton.
    + rewrite fmap_app, elem_of_app. split; [done|]. intros _. right.
      by apply list_elem_of_singleton.
    + intros f Hf. rewrite elem_of_app, list_elem_of_singleton. split.
      * intros [?| ->]; done.
      * by left.
    + intros _. rewrite bool_decide_eq_true_2.
      2:{ apply Exists_app. right. by constructor. }
      rewrite filter_app. rewrite filter_cons_False by (cbn; tauto).
      rewrite filter_nil, app_nil_r.
      apply filter_all. apply Forall_forall. intros f Hin Heq.
      apply Hn. apply list_elem_of_fmap. exists f. by rewrite Heq.
Qed.

(** The witness: a third file is added, and removed by a second click. *)
Lemma file_selection_toggle_witness :
  handleFileSelect [(1, tt); (2, tt)] (3, tt) = [(1, tt); (2, tt); (3, tt)]
  ∧ handleFileSelect (handleFileSelect [(1, tt); (2, tt)] (3, tt)) (3, tt)
    = [(1, tt); (2, tt)].
Proof.
  split; [reflexivity|].
  refine (proj2 (proj2 (proj2 (file_selection_toggle [(1, tt); (2, tt)] (3, tt) _))) _).
  - apply (bool_decide_unpack (NoDup [1; 2])). reflexivity.
  - apply (bool_decide_unpack (3 ∉ [1; 2])). reflexivity.
Defined.
